(** * Material stock, request approval and audit log of the [mater] app

    A shallow embedding of the Django application's business logic
    ([mater/models.py], [mater/signals.py], [mater/admin.py]) together
    with the properties of the request workflow that hold on it.

    The database is an explicit value threaded through every operation.
    A Python exception is an outcome of its own; the writes issued before
    it was raised stay in the database that is returned with it, which is
    what the ORM does when the caller opened no transaction. *)

From Stdlib Require Import ZArith List String Ascii Bool Arith Lia DecimalString.
From Stdlib Require Import Sorted Permutation.
Import ListNotations.

Open Scope string_scope.
Open Scope Z_scope.

(** ** Python built-ins used by the code *)

Module Py.

(** [str(n)] for a natural number. *)
Definition str_nat (n : nat) : string :=
  NilZero.string_of_uint (Nat.to_uint n).

(** [str(z)] for an integer. *)
Definition str (z : Z) : string :=
  if z <? 0 then String "-" (str_nat (Z.abs_nat z)) else str_nat (Z.to_nat z).

Fixpoint zeros (k : nat) : string :=
  match k with
  | O => ""
  | S k' => String "0" (zeros k')
  end.

(** Left padding with ['0'] up to a minimal width. *)
Definition pad0 (width : nat) (s : string) : string :=
  zeros (width - String.length s) ++ s.

(** ["{:03}".format(z)]: sign-aware zero padding to a minimal width of 3. *)
Definition format_03 (z : Z) : string :=
  if z <? 0
  then String "-" (pad0 2 (str_nat (Z.abs_nat z)))
  else pad0 3 (str_nat (Z.to_nat z)).

(** The separators that [int] skips on both ends of its argument. *)
Definition is_space (c : ascii) : bool :=
  let n := nat_of_ascii c in
  (((9 <=? n) && (n <=? 13)) || (n =? 32))%nat.

Definition digit_of (c : ascii) : option Z :=
  let n := nat_of_ascii c in
  if ((48 <=? n) && (n <=? 57))%nat then Some (Z.of_nat (n - 48)) else None.

Fixpoint all_space (s : string) : bool :=
  match s with
  | "" => true
  | String c s' => is_space c && all_space s'
  end.

Fixpoint lstrip (s : string) : string :=
  match s with
  | "" => ""
  | String c s' => if is_space c then lstrip s' else s
  end.

(** Digits of a base-10 literal; a single underscore may separate two
    digits and only blanks may follow the last digit. *)
Fixpoint int_digits (acc : Z) (after_digit : bool) (s : string) : option Z :=
  match s with
  | "" => if after_digit then Some acc else None
  | String c s' =>
      match digit_of c with
      | Some d => int_digits (10 * acc + d) true s'
      | None =>
          if Ascii.eqb c "_"
          then (if after_digit then int_digits acc false s' else None)
          else (if after_digit && all_space s then Some acc else None)
      end
  end.

(** [int(s)] on ASCII text; [None] stands for [ValueError]. *)
Definition int (s : string) : option Z :=
  match lstrip s with
  | String "-" r => option_map Z.opp (int_digits 0 false r)
  | String "+" r => int_digits 0 false r
  | r => int_digits 0 false r
  end.

Definition startswith (s p : string) : bool := String.prefix p s.

(** [s.split(sep)] for a non-empty separator: the pieces between the
    occurrences of [sep] met from left to right.  [skip] counts the
    characters of a matched separator still to be passed over. *)
Fixpoint split_go (sep : string) (skip : nat) (cur : string) (s : string)
  : list string :=
  match s with
  | "" => [cur]
  | String c s' =>
      match skip with
      | S k => split_go sep k cur s'
      | O =>
          if String.prefix sep s
          then cur :: split_go sep (String.length sep - 1) "" s'
          else split_go sep O (cur ++ String c "") s'
      end
  end.

Definition split (s sep : string) : list string := split_go sep O "" s.

(** [l[-1]] of a list of strings that [split] returned (never empty). *)
Definition last_piece (l : list string) : string := List.last l "".

End Py.

(** [datetime.date] and its [strftime('%Y%m%d')]. *)
Record date := mkdate { year : nat; month : nat; day : nat }.

Definition strftime_Ymd (d : date) : string :=
  Py.pad0 4 (Py.str_nat (year d)) ++ Py.pad0 2 (Py.str_nat (month d))
    ++ Py.pad0 2 (Py.str_nat (day d)).

(** ** The models ([models.py]) *)

(** [APPROVAL_STATUS_CHOICES]. *)
Inductive ApprovalStatus := approving | nopass | passed.

(** A [User] of [django.contrib.auth]. *)
Record User := mkUser { user_id : nat; is_superuser : bool }.

Module MaterialModel.
Record t := mk { id : nat; code : string }.
End MaterialModel.

(** A stock row.  The foreign key [material] is held as the row it points
    to, which no operation below modifies. *)
Module DepartmentMaterialStock.
Record t := mk {
  id : nat;
  department : nat;
  material : MaterialModel.t;
  quantity : Z;
  quantity_safety : Z;
  creator : option nat
}.

Definition with_quantity (q : Z) (s : t) : t :=
  mk (id s) (department s) (material s) q (quantity_safety s) (creator s).
End DepartmentMaterialStock.

(** A request line; [material] is the primary key of a stock row. *)
Module MaterialRequestItem.
Record t := mk { id : nat; request : nat; material : nat; quantity : Z }.
End MaterialRequestItem.

Module UserDepartment.
Record t := mk { id : nat; user : nat; department : nat }.
End UserDepartment.

Module AuditLog.
Record t := mk { user : nat; action : string; content : string }.
End AuditLog.

(** A request: [columns] are what the table stores under a primary key,
    [t] is the Python instance with its private
    [__original_approval_status] attribute. *)
Module MaterialRequestModel.
Record columns := mkcolumns {
  request_number : string;
  department : nat;
  approval_status : ApprovalStatus;
  creator : option nat
}.

Record t := mk {
  pk : option nat;
  fields : columns;
  original_approval_status : option ApprovalStatus
}.

Definition with_request_number (n : string) (c : columns) : columns :=
  mkcolumns n (department c) (approval_status c) (creator c).

Definition with_approval_status (a : ApprovalStatus) (c : columns) : columns :=
  mkcolumns (request_number c) (department c) a (creator c).
End MaterialRequestModel.

(** ** The database and the ORM calls *)

Record Database := mkDatabase {
  stocks : list DepartmentMaterialStock.t;
  requests : list (nat * MaterialRequestModel.columns);
  items : list MaterialRequestItem.t;
  user_departments : list UserDepartment.t;
  audit_logs : list AuditLog.t
}.

Definition empty_database : Database := mkDatabase [] [] [] [] [].

Definition set_stocks (l : list DepartmentMaterialStock.t) (db : Database) :=
  mkDatabase l (requests db) (items db) (user_departments db) (audit_logs db).

Definition set_requests (l : list (nat * MaterialRequestModel.columns))
  (db : Database) :=
  mkDatabase (stocks db) l (items db) (user_departments db) (audit_logs db).

Definition set_items (l : list MaterialRequestItem.t) (db : Database) :=
  mkDatabase (stocks db) (requests db) l (user_departments db) (audit_logs db).

Definition set_audit_logs (l : list AuditLog.t) (db : Database) :=
  mkDatabase (stocks db) (requests db) (items db) (user_departments db) l.

Inductive Exception :=
| ValueError (msg : string)
| ValidationError (msg : string)
| DoesNotExist
| MultipleObjectsReturned
| IntegrityError
| OperationalError.

Inductive Outcome (A : Type) :=
| Returns (a : A)
| Raises (e : Exception).
Arguments Returns {A} a.
Arguments Raises {A} e.

(** A call that reads and writes the database and may raise. *)
Definition Orm (A : Type) : Type := Database -> Outcome A * Database.

Definition ret {A} (a : A) : Orm A := fun db => (Returns a, db).

Definition raise {A} (e : Exception) : Orm A := fun db => (Raises e, db).

Definition bind {A B} (m : Orm A) (k : A -> Orm B) : Orm B :=
  fun db =>
    match m db with
    | (Returns a, db') => k a db'
    | (Raises e, db') => (Raises e, db')
    end.

Declare Scope orm_scope.
Delimit Scope orm_scope with orm.
Notation "x <- m ;; k" := (bind m (fun x => k))
  (at level 61, m at next level, right associativity) : orm_scope.
Notation "m ;;; k" := (bind m (fun _ => k))
  (at level 61, right associativity) : orm_scope.
Open Scope orm_scope.

(** A Python [for] loop whose body may raise. *)
Fixpoint for_each {A} (body : A -> Orm unit) (xs : list A) : Orm unit :=
  match xs with
  | [] => ret tt
  | x :: xs' => body x ;;; for_each body xs'
  end.

(** [Model.objects.get(...)] on the rows a filter kept. *)
Definition get_one {A} (matching : list A) : Outcome A :=
  match matching with
  | [] => Raises DoesNotExist
  | [r] => Returns r
  | _ :: _ :: _ => Raises MultipleObjectsReturned
  end.

(** The next value of an auto-increment primary key. *)
Definition next_id (ids : list nat) : nat := S (fold_right Nat.max O ids).

(** The manager of the [AuditLog] table.  Its [create] is the one call of
    the audit recorder that writes. *)
Class AuditLogManager := { objects_create : AuditLog.t -> Orm unit }.

(** ** The audit recorder and the stock deduction ([signals.py]) *)

(** The model classes the audit receivers are connected to. *)
Module ContentType.
Inductive t :=
| BaseModel | DepartmentModel | UserDepartment | MaterialTypeModel
| MaterialModel | DepartmentMaterialStock | MaterialAdminModel
| MaterialRequestModel | MaterialRequestItem | DeviceType
| DepartmentDevice | EnvironmentalEquipmentLog.

(** [Meta.verbose_name] of each class. *)
Definition verbose_name (ct : t) : string :=
  match ct with
  | BaseModel => "基地"
  | DepartmentModel => "部门"
  | UserDepartment => "用户部门"
  | MaterialTypeModel => "物料类型"
  | MaterialModel => "物料"
  | DepartmentMaterialStock => "部门物料库存"
  | MaterialAdminModel => "物料管理员"
  | MaterialRequestModel => "物料申请"
  | MaterialRequestItem => "物料申请项"
  | DeviceType => "设备类型"
  | DepartmentDevice => "设备与部门关系"
  | EnvironmentalEquipmentLog => "环保设备运行台账"
  end.

(** [str(content_type)]: the application label, a bar, the verbose name. *)
Definition str (ct : t) : string := "mater | " ++ verbose_name ct.
End ContentType.

(** What [hasattr(instance, 'creator')] and [instance.creator] give: the
    class has no such field, or the field holds a user or [None]. *)
Inductive CreatorAttribute :=
| NoCreatorField
| CreatorField (u : option nat).

(** The part of a saved or deleted instance that the audit receivers read. *)
Record Instance := mkInstance {
  content_type : ContentType.t;
  instance_id : nat;
  creator_attribute : CreatorAttribute
}.

Definition instance_user (instance : Instance) : option nat :=
  match creator_attribute instance with
  | CreatorField u => u
  | NoCreatorField => None
  end.

Definition Instance_of_stock (s : DepartmentMaterialStock.t) : Instance :=
  mkInstance ContentType.DepartmentMaterialStock (DepartmentMaterialStock.id s)
    (CreatorField (DepartmentMaterialStock.creator s)).

Definition Instance_of_item (i : MaterialRequestItem.t) : Instance :=
  mkInstance ContentType.MaterialRequestItem (MaterialRequestItem.id i)
    NoCreatorField.

Definition Instance_of_request (id : nat) (c : MaterialRequestModel.columns)
  : Instance :=
  mkInstance ContentType.MaterialRequestModel id
    (CreatorField (MaterialRequestModel.creator c)).

(** Python truth of a primary key: [None] and [0] are false. *)
Definition pk_truthy (pk : option nat) : bool :=
  match pk with
  | Some (S _) => true
  | _ => false
  end.

Definition option_nat_eqb (a b : option nat) : bool :=
  match a, b with
  | Some x, Some y => Nat.eqb x y
  | None, None => true
  | _, _ => false
  end.

Definition original_is_passed (o : option ApprovalStatus) : bool :=
  match o with
  | Some passed => true
  | _ => false
  end.

(** [qs.order_by('request_number').last()] *)
Definition last_by_request_number
  (rows : list (nat * MaterialRequestModel.columns))
  : option (nat * MaterialRequestModel.columns) :=
  fold_left
    (fun best row =>
       match best with
       | None => Some row
       | Some b =>
           if String.leb (MaterialRequestModel.request_number (snd b))
                (MaterialRequestModel.request_number (snd row))
           then Some row else Some b
       end)
    rows None.

Definition request_prefix (today : date) : string :=
  "WL" ++ strftime_Ymd today.

(** [MaterialRequestModel.generate_request_number]; [today] is
    [now().date()]. *)
Definition generate_request_number (today : date) : Orm string :=
  fun db =>
    let prefix := request_prefix today in
    let last_request :=
      last_by_request_number
        (filter (fun row =>
                   Py.startswith (MaterialRequestModel.request_number (snd row))
                     prefix)
           (requests db)) in
    match last_request with
    | Some (_, c) =>
        match Py.int (Py.last_piece
                        (Py.split (MaterialRequestModel.request_number c) prefix))
        with
        | Some last_number =>
            (Returns (prefix ++ Py.format_03 (last_number + 1)), db)
        | None => (Raises (ValueError "invalid literal for int() with base 10"), db)
        end
    | None => (Returns (prefix ++ "001"), db)
    end.

(** [MaterialRequestModel.__init__]: called with the column values, for a
    fresh instance ([pk] is [None]) and for one loaded from its row. *)
Definition MaterialRequestModel_init (today : date) (pk : option nat)
  (c : MaterialRequestModel.columns) : Orm MaterialRequestModel.t :=
  let original := Some (MaterialRequestModel.approval_status c) in
  if negb (pk_truthy pk)
  then (number <- generate_request_number today ;;
        ret (MaterialRequestModel.mk pk
               (MaterialRequestModel.with_request_number number c) original))
  else ret (MaterialRequestModel.mk pk c original).

(** [MaterialRequestModel.objects.get(pk=id)] *)
Definition MaterialRequestModel_objects_get (today : date) (id : nat)
  : Orm MaterialRequestModel.t :=
  fun db =>
    match get_one (filter (fun row => Nat.eqb (fst row) id) (requests db)) with
    | Returns (_, c) => MaterialRequestModel_init today (Some id) c db
    | Raises e => (Raises e, db)
    end.

(** [instance.materialrequestitem_set.all()] *)
Definition materialrequestitem_set (self : MaterialRequestModel.t)
  (db : Database) : list MaterialRequestItem.t :=
  match MaterialRequestModel.pk self with
  | Some id =>
      filter (fun i => Nat.eqb (MaterialRequestItem.request i) id) (items db)
  | None => []
  end.

(** [DepartmentMaterialStock.objects.get(department=d, material=m)] *)
Definition DepartmentMaterialStock_objects_get (d : nat) (m : MaterialModel.t)
  : Orm DepartmentMaterialStock.t :=
  fun db =>
    (get_one
       (filter (fun s =>
                  Nat.eqb (DepartmentMaterialStock.department s) d
                  && Nat.eqb (MaterialModel.id (DepartmentMaterialStock.material s))
                       (MaterialModel.id m))
          (stocks db)),
     db).

(** [item.material]: the stock row the item's foreign key points to. *)
Definition MaterialRequestItem_material (i : MaterialRequestItem.t)
  : Orm DepartmentMaterialStock.t :=
  fun db =>
    (get_one
       (filter (fun s => Nat.eqb (DepartmentMaterialStock.id s)
                           (MaterialRequestItem.material i))
          (stocks db)),
     db).

Definition replace_stock (r : DepartmentMaterialStock.t)
  (l : list DepartmentMaterialStock.t) : list DepartmentMaterialStock.t :=
  map (fun s => if Nat.eqb (DepartmentMaterialStock.id s)
                     (DepartmentMaterialStock.id r)
                then r else s) l.

Definition has_stock_id (id : nat) (l : list DepartmentMaterialStock.t) : bool :=
  existsb (fun s => Nat.eqb (DepartmentMaterialStock.id s) id) l.

Definition insufficient_message (code : string) : string :=
  "无法扣减库存，因为物料 " ++ code ++ " 的存量不足".

Section Receivers.

Context {manager : AuditLogManager}.

(** [audit_log_save_update], the [post_save] receiver of every class of
    [ContentType.t]. *)
Definition audit_log_save_update (instance : Instance) (created : bool)
  : Orm unit :=
  let action := if created then "Created" else "Updated" in
  match instance_user instance with
  | Some user =>
      objects_create
        (AuditLog.mk user action
           (ContentType.str (content_type instance) ++ " id "
              ++ Py.str_nat (instance_id instance) ++ " was " ++ action))
  | None => ret tt
  end.

(** [audit_log_delete], the [post_delete] receiver of the same classes. *)
Definition audit_log_delete (instance : Instance) : Orm unit :=
  match instance_user instance with
  | Some user =>
      objects_create
        (AuditLog.mk user "Deleted"
           (ContentType.str (content_type instance) ++ " id "
              ++ Py.str_nat (instance_id instance) ++ " was Deleted"))
  | None => ret tt
  end.

(** [department_stock.save()]: the row is written, then [post_save] is
    sent to the audit receiver. *)
Definition DepartmentMaterialStock_save (r : DepartmentMaterialStock.t)
  : Orm unit :=
  fun db =>
    let updated := has_stock_id (DepartmentMaterialStock.id r) (stocks db) in
    let rows :=
      if updated then replace_stock r (stocks db)
      else (stocks db ++ [r])%list in
    audit_log_save_update (Instance_of_stock r) (negb updated)
      (set_stocks rows db).

(** The body of the loop of [update_stock]. *)
Definition deduct_item (instance : MaterialRequestModel.t)
  (item : MaterialRequestItem.t) : Orm unit :=
  referenced <- MaterialRequestItem_material item ;;
  department_stock <-
    DepartmentMaterialStock_objects_get
      (MaterialRequestModel.department (MaterialRequestModel.fields instance))
      (DepartmentMaterialStock.material referenced) ;;
  if MaterialRequestItem.quantity item
       >? DepartmentMaterialStock.quantity department_stock
  then raise (ValueError
                (insufficient_message
                   (MaterialModel.code
                      (DepartmentMaterialStock.material referenced))))
  else DepartmentMaterialStock_save
         (DepartmentMaterialStock.with_quantity
            (DepartmentMaterialStock.quantity department_stock
               - MaterialRequestItem.quantity item)
            department_stock).

(** [update_stock], the first [post_save] receiver of
    [MaterialRequestModel]. *)
Definition update_stock (instance : MaterialRequestModel.t) (created : bool)
  : Orm unit :=
  match MaterialRequestModel.approval_status
          (MaterialRequestModel.fields instance) with
  | passed =>
      if created
         || negb (original_is_passed
                    (MaterialRequestModel.original_approval_status instance))
      then fun db =>
             for_each (deduct_item instance)
               (materialrequestitem_set instance db) db
      else ret tt
  | _ => ret tt
  end.

(** Whether another row already carries the request number (the column
    is [unique]). *)
Definition request_number_taken (pk : option nat) (number : string)
  (rows : list (nat * MaterialRequestModel.columns)) : bool :=
  existsb
    (fun row =>
       negb (option_nat_eqb (Some (fst row)) pk)
       && String.eqb (MaterialRequestModel.request_number (snd row)) number)
    rows.

(** [super().save()] up to the signal: an [UPDATE] of the row with this
    primary key, else an [INSERT]; the flag is [created]. *)
Definition save_base (self : MaterialRequestModel.t)
  : Orm (MaterialRequestModel.t * bool) :=
  fun db =>
    let c := MaterialRequestModel.fields self in
    if request_number_taken (MaterialRequestModel.pk self)
         (MaterialRequestModel.request_number c) (requests db)
    then (Raises IntegrityError, db)
    else
      match MaterialRequestModel.pk self with
      | Some id =>
          if existsb (fun row => Nat.eqb (fst row) id) (requests db)
          then (Returns (self, false),
                set_requests
                  (map (fun row => if Nat.eqb (fst row) id then (id, c) else row)
                     (requests db)) db)
          else (Returns (self, true), set_requests (requests db ++ [(id, c)])%list db)
      | None =>
          let id := next_id (map fst (requests db)) in
          (Returns (MaterialRequestModel.mk (Some id) c
                      (MaterialRequestModel.original_approval_status self),
                    true),
           set_requests (requests db ++ [(id, c)])%list db)
      end.

(** The [if not self.pk:] block that opens [MaterialRequestModel.save]. *)
Definition before_first_save (today : date) (self : MaterialRequestModel.t)
  : Orm MaterialRequestModel.t :=
  if negb (pk_truthy (MaterialRequestModel.pk self))
  then
    (number <-
       (if String.eqb (MaterialRequestModel.request_number
                         (MaterialRequestModel.fields self)) ""
        then generate_request_number today
        else ret (MaterialRequestModel.request_number
                    (MaterialRequestModel.fields self))) ;;
     ret (MaterialRequestModel.mk (MaterialRequestModel.pk self)
            (MaterialRequestModel.with_request_number number
               (MaterialRequestModel.fields self))
            (Some (MaterialRequestModel.approval_status
                     (MaterialRequestModel.fields self)))))
  else ret self.

(** [MaterialRequestModel.save]; the result is the instance as the call
    leaves it.  The two [post_save] receivers run in the order in which
    [signals.py] connects them. *)
Definition MaterialRequestModel_save (today : date)
  (self : MaterialRequestModel.t) : Orm MaterialRequestModel.t :=
  self1 <- before_first_save today self ;;
  saved <- save_base self1 ;;
  let self2 := fst saved in
  let created := snd saved in
  update_stock self2 created ;;;
  audit_log_save_update
    (Instance_of_request
       (match MaterialRequestModel.pk self2 with Some id => id | None => O end)
       (MaterialRequestModel.fields self2))
    created ;;;
  ret self2.

(** A new request as the admin's add view makes it: the instance is
    constructed from the posted values and saved. *)
Definition create_request (today : date) (c : MaterialRequestModel.columns)
  : Orm MaterialRequestModel.t :=
  self <- MaterialRequestModel_init today None c ;;
  MaterialRequestModel_save today self.

Definition set_approval_status (a : ApprovalStatus)
  (self : MaterialRequestModel.t) : MaterialRequestModel.t :=
  MaterialRequestModel.mk (MaterialRequestModel.pk self)
    (MaterialRequestModel.with_approval_status a (MaterialRequestModel.fields self))
    (MaterialRequestModel.original_approval_status self).

(** The approver's change view: the request is loaded, its status is set
    from the form and it is saved. *)
Definition decide_request (today : date) (id : nat) (a : ApprovalStatus)
  : Orm MaterialRequestModel.t :=
  self <- MaterialRequestModel_objects_get today id ;;
  MaterialRequestModel_save today (set_approval_status a self).

End Receivers.

(** The manager over the table: [create] appends the row. *)
#[global] Instance table_manager : AuditLogManager :=
  {| objects_create := fun entry db =>
       (Returns tt, set_audit_logs (audit_logs db ++ [entry])%list db) |}.

(** A manager whose table cannot be written. *)
Definition failing_manager : AuditLogManager :=
  {| objects_create := fun _ db => (Raises OperationalError, db) |}.

(** [item.save()] and [item.delete()] of a request line, each followed by
    its audit receiver. *)
Definition MaterialRequestItem_save (i : MaterialRequestItem.t) : Orm unit :=
  fun db =>
    let updated :=
      existsb (fun x => Nat.eqb (MaterialRequestItem.id x) (MaterialRequestItem.id i))
        (items db) in
    let rows :=
      if updated
      then map (fun x => if Nat.eqb (MaterialRequestItem.id x)
                              (MaterialRequestItem.id i) then i else x) (items db)
      else (items db ++ [i])%list in
    audit_log_save_update (Instance_of_item i) (negb updated) (set_items rows db).

Definition MaterialRequestItem_delete (i : MaterialRequestItem.t) : Orm unit :=
  fun db =>
    audit_log_delete (Instance_of_item i)
      (set_items
         (filter (fun x => negb (Nat.eqb (MaterialRequestItem.id x)
                                   (MaterialRequestItem.id i))) (items db))
         db).

(** ** The admin classes ([admin.py]) *)

(** [qs.first()] of an unordered queryset: the row with the least key. *)
Definition first_by {A} (key : A -> nat) (rows : list A) : option A :=
  fold_left
    (fun best row =>
       match best with
       | None => Some row
       | Some b => if (key row <? key b)%nat then Some row else Some b
       end)
    rows None.

Module DepartmentMaterialStockForm.

(** The values of the form after the conversion of each field. *)
Record cleaned_data := mk {
  department : nat;
  material : MaterialModel.t;
  quantity : Z;
  quantity_safety : Z
}.

Definition clean_quantity (data : cleaned_data) : Outcome Z :=
  if quantity data <? 0
  then Raises (ValidationError "库存不能小于0。")
  else Returns (quantity data).

Definition clean_quantity_safety (data : cleaned_data) : Outcome Z :=
  if quantity_safety data <? 0
  then Raises (ValidationError "库存预警不能小于0。")
  else Returns (quantity_safety data).

(** [unique_together = ('department', 'material')], checked by the form
    against the rows other than the edited one. *)
Definition validate_unique (pk : option nat) (data : cleaned_data)
  (db : Database) : Outcome unit :=
  if existsb
       (fun s =>
          negb (option_nat_eqb (Some (DepartmentMaterialStock.id s)) pk)
          && Nat.eqb (DepartmentMaterialStock.department s) (department data)
          && Nat.eqb (MaterialModel.id (DepartmentMaterialStock.material s))
               (MaterialModel.id (material data)))
       (stocks db)
  then Raises (ValidationError "unique_together")
  else Returns tt.

Definition error_of {A} (o : Outcome A) : list Exception :=
  match o with
  | Raises e => [e]
  | Returns _ => []
  end.

(** [form.errors] after [full_clean]. *)
Definition errors (pk : option nat) (data : cleaned_data) (db : Database)
  : list Exception :=
  (error_of (clean_quantity data) ++ error_of (clean_quantity_safety data)
     ++ error_of (validate_unique pk data db))%list.

End DepartmentMaterialStockForm.

Module DepartmentMaterialStockAdmin.

(** [get_queryset]; [super().get_queryset(request)] is the whole table. *)
Definition get_queryset (user : User) (db : Database)
  : list DepartmentMaterialStock.t :=
  let qs := stocks db in
  if is_superuser user then qs
  else
    match first_by UserDepartment.id
            (filter (fun ud => Nat.eqb (UserDepartment.user ud) (user_id user))
               (user_departments db))
    with
    | Some user_department =>
        filter (fun s => Nat.eqb (DepartmentMaterialStock.department s)
                           (UserDepartment.department user_department)) qs
    | None => []
    end.

(** The add view: the form is validated; a valid one is saved by
    [BaseAdmin.save_model], which sets the creator of a new object.  An
    invalid form is shown again with its first error and nothing is
    written. *)
Definition add_view (user : User) (data : DepartmentMaterialStockForm.cleaned_data)
  : Orm unit :=
  fun db =>
    match DepartmentMaterialStockForm.errors None data db with
    | e :: _ => (Raises e, db)
    | [] =>
        DepartmentMaterialStock_save
          (DepartmentMaterialStock.mk
             (next_id (map DepartmentMaterialStock.id (stocks db)))
             (DepartmentMaterialStockForm.department data)
             (DepartmentMaterialStockForm.material data)
             (DepartmentMaterialStockForm.quantity data)
             (DepartmentMaterialStockForm.quantity_safety data)
             (Some (user_id user)))
          db
    end.

(** The change view of the object [object_id], which is looked up in
    [get_queryset]. *)
Definition change_view (user : User) (object_id : nat)
  (data : DepartmentMaterialStockForm.cleaned_data) : Orm unit :=
  fun db =>
    match get_one (filter (fun s => Nat.eqb (DepartmentMaterialStock.id s) object_id)
                     (get_queryset user db)) with
    | Raises e => (Raises e, db)
    | Returns obj =>
        match DepartmentMaterialStockForm.errors (Some object_id) data db with
        | e :: _ => (Raises e, db)
        | [] =>
            DepartmentMaterialStock_save
              (DepartmentMaterialStock.mk
                 (DepartmentMaterialStock.id obj)
                 (DepartmentMaterialStockForm.department data)
                 (DepartmentMaterialStockForm.material data)
                 (DepartmentMaterialStockForm.quantity data)
                 (DepartmentMaterialStockForm.quantity_safety data)
                 (DepartmentMaterialStock.creator obj))
              db
        end
    end.

End DepartmentMaterialStockAdmin.

Module MaterialRequestItemInlineFormset.

(** [form.cleaned_data] of a line that was filled in: the values of the
  fields that passed their own validation ([material] is the stock row
  the choice field fetched). *)
Record cleaned_data := mkcleaned {
DELETE : bool;
quantity : Z;
material : option DepartmentMaterialStock.t
}.

(** A form of the formset after its own validation: the line it edits
  ([None] for an extra form), the errors found so far, and its cleaned
  data ([None] for the empty dictionary of an untouched extra form). *)
Record form := mk {
instance : option MaterialRequestItem.t;
errors : list (string * string);
cleaned : option cleaned_data
}.

Definition is_valid (f : form) : bool :=
match errors f with
| [] => true
| _ :: _ => false
end.

Definition add_error (field msg : string) (f : form) : form :=
mk (instance f) (errors f ++ [(field, msg)])%list (cleaned f).

Definition shortage_message (available : Z) : string :=
"存量不足，申请的数量不能超过 " ++ Py.str available ++ " 个。".

(** The body of the loop of [clean] for a valid form; the request of the
  line always has a department. *)
Definition check_form (f : form) : form :=
match cleaned f with
| Some data =>
    if negb (DELETE data)
    then
      match material data with
      | Some department_stock =>
          if quantity data >? DepartmentMaterialStock.quantity department_stock
          then add_error "quantity"
                 (shortage_message
                    (DepartmentMaterialStock.quantity department_stock)) f
          else f
      | None => f
      end
    else f
| None => f
end.

(** [clean]: the forms as the loop leaves them.  The first form that is
  not valid ends the method. *)
Fixpoint clean (forms : list form) : list form :=
match forms with
| [] => []
| f :: rest =>
    if negb (is_valid f) then f :: rest
    else check_form f :: clean rest
end.

(** [formset._should_delete_form(form)] *)
Definition should_delete (f : form) : bool :=
match cleaned f with
| Some data => DELETE data
| None => false
end.

(** [formset.is_valid()]: every form that is not to be deleted is valid
  after [clean]. *)
Definition formset_is_valid (forms : list form) : bool :=
forallb (fun f => should_delete f || is_valid f) (clean forms).

(** [formset.save()] for the request [request_id]: a line to delete is
  deleted, a filled line is written. *)
Definition save_form (request_id : nat) (f : form) : Orm unit :=
match cleaned f with
| None => ret tt
| Some data =>
    if DELETE data
    then
      match instance f with
      | Some i => MaterialRequestItem_delete i
      | None => ret tt
      end
    else
      match material data with
      | Some department_stock =>
          fun db =>
            MaterialRequestItem_save
              (MaterialRequestItem.mk
                 (match instance f with
                  | Some i => MaterialRequestItem.id i
                  | None => next_id (map MaterialRequestItem.id (items db))
                  end)
                 request_id (DepartmentMaterialStock.id department_stock)
                 (quantity data))
              db
      | None => ret tt
      end
end.

(** What the admin does with a posted formset: it is saved when valid and
  shown again with its errors otherwise.  The flag tells which. *)
Definition submit (request_id : nat) (forms : list form) : Orm bool :=
if formset_is_valid forms
then for_each (save_form request_id) (clean forms) ;;; ret true
else ret false.

End MaterialRequestItemInlineFormset.

Module MaterialRequestItemInline.

(** The fields of [MaterialRequestItem] and their names. *)
Inductive field := id_field | request_field | material_field | quantity_field.

Definition field_name (f : field) : string :=
  match f with
  | id_field => "id"
  | request_field => "request"
  | material_field => "material"
  | quantity_field => "quantity"
  end.

(** [[f.name for f in self.model._meta.fields]] *)
Definition model_fields : list string :=
  map field_name [id_field; request_field; material_field; quantity_field].

(** [obj and obj.approval_status in ['passed', 'nopass']] *)
Definition decided (obj : option MaterialRequestModel.t) : bool :=
  match obj with
  | Some o =>
      match MaterialRequestModel.approval_status (MaterialRequestModel.fields o) with
      | passed | nopass => true
      | approving => false
      end
  | None => false
  end.

(** The three methods; the first argument is what [super()] answers. *)
Definition get_readonly_fields (super : list string)
  (obj : option MaterialRequestModel.t) : list string :=
  if decided obj then model_fields else super.

Definition has_add_permission (super : bool)
  (obj : option MaterialRequestModel.t) : bool :=
  if decided obj then false else super.

Definition has_delete_permission (super : bool)
  (obj : option MaterialRequestModel.t) : bool :=
  if decided obj then false else super.

(** A change of the lines of a request asked through the inline: a new
    value for one field of a line, a new line, the removal of a line. *)
Inductive mutation :=
| EditItem (item : MaterialRequestItem.t) (f : field) (value : Z)
| AddItem (item : MaterialRequestItem.t)
| DeleteItem (item : MaterialRequestItem.t).

Definition set_field (f : field) (value : Z) (i : MaterialRequestItem.t)
  : MaterialRequestItem.t :=
  match f with
  | id_field =>
      MaterialRequestItem.mk (Z.to_nat value) (MaterialRequestItem.request i)
        (MaterialRequestItem.material i) (MaterialRequestItem.quantity i)
  | request_field =>
      MaterialRequestItem.mk (MaterialRequestItem.id i) (Z.to_nat value)
        (MaterialRequestItem.material i) (MaterialRequestItem.quantity i)
  | material_field =>
      MaterialRequestItem.mk (MaterialRequestItem.id i)
        (MaterialRequestItem.request i) (Z.to_nat value)
        (MaterialRequestItem.quantity i)
  | quantity_field =>
      MaterialRequestItem.mk (MaterialRequestItem.id i)
        (MaterialRequestItem.request i) (MaterialRequestItem.material i) value
  end.

(** What [super()] answers for the requesting user. *)
Record permissions := mkpermissions {
  super_readonly_fields : list string;
  super_add : bool;
  super_delete : bool
}.

(** The admin consults the three methods: a read-only field is left out
    of the form, lines are added only with the add permission and
    deleted only with the delete permission. *)
Definition allowed (p : permissions) (obj : option MaterialRequestModel.t)
  (m : mutation) : bool :=
  match m with
  | EditItem _ f _ =>
      negb (existsb (String.eqb (field_name f))
              (get_readonly_fields (super_readonly_fields p) obj))
  | AddItem _ => has_add_permission (super_add p) obj
  | DeleteItem _ => has_delete_permission (super_delete p) obj
  end.

(** The mutation is carried out when allowed ([true]) and refused
    otherwise ([false]). *)
Definition apply (p : permissions) (obj : option MaterialRequestModel.t)
  (m : mutation) : Orm bool :=
  if allowed p obj m
  then
    match m with
    | EditItem item f value =>
        MaterialRequestItem_save (set_field f value item) ;;; ret true
    | AddItem item => MaterialRequestItem_save item ;;; ret true
    | DeleteItem item => MaterialRequestItem_delete item ;;; ret true
    end
  else ret false.

End MaterialRequestItemInline.

Module MaterialRequestModelAdmin.

(** [UserDepartment.objects.get(user=request.user)] *)
Definition UserDepartment_objects_get (user : User) (db : Database)
  : Outcome UserDepartment.t :=
  get_one (filter (fun ud => Nat.eqb (UserDepartment.user ud) (user_id user))
             (user_departments db)).

(** [get_queryset]: [DoesNotExist] is caught, any other exception of the
    lookup leaves the method. *)
Definition get_queryset (user : User) (db : Database)
  : Outcome (list (nat * MaterialRequestModel.columns)) :=
  let qs := requests db in
  if is_superuser user then Returns qs
  else
    match UserDepartment_objects_get user db with
    | Returns ud =>
        Returns
          (filter (fun row => Nat.eqb (MaterialRequestModel.department (snd row))
                                (UserDepartment.department ud)) qs)
    | Raises DoesNotExist => Returns []
    | Raises e => Raises e
    end.

End MaterialRequestModelAdmin.

(** ** The workflow as its callers run it *)

(** The operations that write the tables of the ledger. *)
Inductive Operation :=
| AddStock (user : User) (data : DepartmentMaterialStockForm.cleaned_data)
| ChangeStock (user : User) (object_id : nat)
    (data : DepartmentMaterialStockForm.cleaned_data)
| CreateRequest (today : date) (c : MaterialRequestModel.columns)
| SaveRequest (today : date) (self : MaterialRequestModel.t)
| SubmitItems (request_id : nat)
    (forms : list MaterialRequestItemInlineFormset.form)
| MutateItems (p : MaterialRequestItemInline.permissions)
    (obj : option MaterialRequestModel.t)
    (m : MaterialRequestItemInline.mutation).

(** The database an operation leaves, whether it returned or raised. *)
Definition perform (op : Operation) (db : Database) : Database :=
  match op with
  | AddStock user data => snd (DepartmentMaterialStockAdmin.add_view user data db)
  | ChangeStock user object_id data =>
      snd (DepartmentMaterialStockAdmin.change_view user object_id data db)
  | CreateRequest today c => snd (create_request today c db)
  | SaveRequest today self => snd (MaterialRequestModel_save today self db)
  | SubmitItems request_id forms =>
      snd (MaterialRequestItemInlineFormset.submit request_id forms db)
  | MutateItems p obj m => snd (MaterialRequestItemInline.apply p obj m db)
  end.

Definition perform_all (ops : list Operation) (db : Database) : Database :=
  fold_left (fun d op => perform op d) ops db.

Definition nonnegative (s : DepartmentMaterialStock.t) : Prop :=
  0 <= DepartmentMaterialStock.quantity s
  /\ 0 <= DepartmentMaterialStock.quantity_safety s.

Definition stock_invariant (db : Database) : Prop :=
  Forall nonnegative (stocks db).

(** A call keeps a property of the database, in the state it returns and
    in the state it raises from. *)
Definition preserves {A} (P : Database -> Prop) (m : Orm A) : Prop :=
  forall db, P db -> P (snd (m db)).

(** The quantity of the stock row [id]. *)
Definition quantity_of (id : nat) (db : Database) : option Z :=
  option_map DepartmentMaterialStock.quantity
    (find (fun s => Nat.eqb (DepartmentMaterialStock.id s) id) (stocks db)).

(** ** Worked databases *)

Definition jan5 : date := mkdate 2024 1 5.
Definition jan6 : date := mkdate 2024 1 6.

Definition material_M : MaterialModel.t := MaterialModel.mk 1 "M".
Definition material_N : MaterialModel.t := MaterialModel.mk 2 "N".

Definition request_columns (number : string) (a : ApprovalStatus)
  : MaterialRequestModel.columns :=
  MaterialRequestModel.mkcolumns number 1%nat a (Some 7%nat).

(** Department 1 holds 10 of M; request 1 of department 1 asks for 4. *)
Definition ledger_one_item : Database :=
  mkDatabase
    [DepartmentMaterialStock.mk 1 1 material_M 10 2 (Some 7%nat)]
    [(1%nat, request_columns "WL20240105001" approving)]
    [MaterialRequestItem.mk 1 1 1 4]
    [] [].

(** Department 1 holds 10 of M and 1 of N; request 1 asks for 4 of M and
    5 of N. *)
Definition ledger_short_second : Database :=
  mkDatabase
    [DepartmentMaterialStock.mk 1 1 material_M 10 2 (Some 7%nat);
     DepartmentMaterialStock.mk 2 1 material_N 1 0 (Some 7%nat)]
    [(1%nat, request_columns "WL20240105001" approving)]
    [MaterialRequestItem.mk 1 1 1 4; MaterialRequestItem.mk 2 1 2 5]
    [] [].

(** Department 1 holds 10 of M and 10 of N; request 1 asks for 4 of M and
    5 of N. *)
Definition ledger_two_items : Database :=
  mkDatabase
    [DepartmentMaterialStock.mk 1 1 material_M 10 2 (Some 7%nat);
     DepartmentMaterialStock.mk 2 1 material_N 10 0 (Some 7%nat)]
    [(1%nat, request_columns "WL20240105001" approving)]
    [MaterialRequestItem.mk 1 1 1 4; MaterialRequestItem.mk 2 1 2 5]
    [] [].

(** The requests table after [n] requests of January 5th, numbered as the
    generator numbers them. *)
Definition requests_of_day (n : nat) : Database :=
  set_requests
    (map (fun k => (k, request_columns
                         (request_prefix jan5 ++ Py.format_03 (Z.of_nat k))
                         approving))
       (seq 1 n))
    empty_database.

(** A formset of two lines: the first is an existing line ticked for
    deletion whose quantity was blanked, the second a new line asking 5
    of a stock row that holds 1. *)
Definition stock_row_N1 : DepartmentMaterialStock.t :=
  DepartmentMaterialStock.mk 2 1 material_N 1 0 (Some 7%nat).

Definition form_deleted_blank : MaterialRequestItemInlineFormset.form :=
  MaterialRequestItemInlineFormset.mk
    (Some (MaterialRequestItem.mk 1 1 1 4))
    [("quantity", "This field is required.")]
    (Some (MaterialRequestItemInlineFormset.mkcleaned true 0
             (Some (DepartmentMaterialStock.mk 1 1 material_M 10 2 (Some 7%nat))))).

Definition form_blank : MaterialRequestItemInlineFormset.form :=
  MaterialRequestItemInlineFormset.mk
    (Some (MaterialRequestItem.mk 1 1 1 4))
    [("quantity", "This field is required.")]
    (Some (MaterialRequestItemInlineFormset.mkcleaned false 0
             (Some (DepartmentMaterialStock.mk 1 1 material_M 10 2 (Some 7%nat))))).

Definition form_over_stock : MaterialRequestItemInlineFormset.form :=
  MaterialRequestItemInlineFormset.mk None []
    (Some (MaterialRequestItemInlineFormset.mkcleaned false 5 (Some stock_row_N1))).

(** A call leaves a table (or any other reading of the database) as it
    found it. *)
Definition keeps {A X} (table : Database -> X) (m : Orm A) : Prop :=
  forall db, table (snd (m db)) = table db.

(** Two databases with the same stock rows and the same request lines. *)
Definition same_ledger (d1 d2 : Database) : Prop :=
  stocks d1 = stocks d2 /\ items d1 = items d2.

(** The counter of the [k]-th request of a day as the generator writes
    it, and the checks run over the counters [001] to [999]. *)
Definition counter (k : nat) : string := Py.format_03 (Z.of_nat k).

Fixpoint has_char (c : ascii) (s : string) : bool :=
  match s with
  | "" => false
  | String x s' => Ascii.eqb x c || has_char c s'
  end.

(** The counter holds no ['W'] and [int] reads back its number. *)
Definition parses (k : nat) : bool :=
  negb (has_char "W" (counter k))
  && match Py.int (counter k) with
     | Some z => Z.eqb z (Z.of_nat k)
     | None => false
     end.

(** Every string is below all the strings after it. *)
Fixpoint pairwise_lt (l : list string) : bool :=
  match l with
  | [] => true
  | x :: rest => forallb (String.ltb x) rest && pairwise_lt rest
  end.

Definition number_of (row : nat * MaterialRequestModel.columns) : string :=
  MaterialRequestModel.request_number (snd row).

(** ** Requests created one after another *)

(** The admin's add view run for each posted request in turn. *)
Fixpoint create_requests (today : date) (cs : list MaterialRequestModel.columns)
  : Orm (list MaterialRequestModel.t) :=
  match cs with
  | [] => ret []
  | c :: rest =>
      r <- create_request today c ;;
      rs <- create_requests today rest ;;
      ret (r :: rs)
  end.

(** The numbers of [today] in the table are counters between [001] and
    the counter of [n], and the counter of [n] is among them. *)
Definition day_counters (today : date) (db : Database) (n : nat) : Prop :=
  (forall row, In row (requests db) ->
     Py.startswith (number_of row) (request_prefix today) = true ->
     exists k, (1 <= k <= n)%nat
               /\ number_of row = request_prefix today ++ counter k)
  /\ (n = O \/ exists row, In row (requests db)
                           /\ number_of row = request_prefix today ++ counter n).

(** ** The list filter on the stock level ([admin.py]) *)

Module InventoryStatusFilter.

(** [queryset]; [value] is [self.value()], the chosen option if any.  The
    method returns nothing for any other value. *)
Definition queryset (value : option string)
  (queryset : list DepartmentMaterialStock.t)
  : option (list DepartmentMaterialStock.t) :=
  match value with
  | Some v =>
      if String.eqb v "warning"
      then Some (filter (fun s => DepartmentMaterialStock.quantity s
                                  <? DepartmentMaterialStock.quantity_safety s)
                   queryset)
      else if String.eqb v "normal"
      then Some (filter (fun s => DepartmentMaterialStock.quantity s
                                  >=? DepartmentMaterialStock.quantity_safety s)
                   queryset)
      else None
  | None => None
  end.

End InventoryStatusFilter.

(** ** The import widgets and checks ([pub/resources.py]) *)

(** [sep.join(parts)] *)
Fixpoint join (sep : string) (parts : list string) : string :=
  match parts with
  | [] => ""
  | [p] => p
  | p :: rest => p ++ sep ++ join sep rest
  end.

(** A row of [MaterialModel] with the columns the import reads. *)
Module MaterialModelRow.
Record t := mk { id : nat; code : string; model : string }.
End MaterialModelRow.

Module MaterialWidget.

(** [clean]: the cell is split on hyphens, the first piece is the code and
    the others, joined again, the model; the material with both is looked
    up. *)
Definition clean (value : string) (materials : list MaterialModelRow.t)
  : Outcome MaterialModelRow.t :=
  let parts := Py.split value "-" in
  if (List.length parts <? 2)%nat
  then Raises (ValidationError
                 ("物料型号'" ++ value ++ "'错误，正确的格式是[物料编码-物料型号]."))
  else
    let code := hd "" parts in
    let model := join "-" (tl parts) in
    match get_one (filter (fun m => String.eqb (MaterialModelRow.code m) code
                                    && String.eqb (MaterialModelRow.model m) model)
                     materials) with
    | Returns m => Returns m
    | Raises DoesNotExist =>
        Raises (ValidationError
                  ("物料编码和型号的组合'" ++ value ++ "'在系统中不存在，请检查是否正确。"))
    | Raises e => Raises e
    end.

(** [render] *)
Definition render (value : option MaterialModelRow.t) : string :=
  match value with
  | Some v => MaterialModelRow.code v ++ "-" ++ MaterialModelRow.model v
  | None => ""
  end.

End MaterialWidget.

(** [validate_code_model_combination]: the answer and the set as the call
    leaves it. *)
Definition validate_code_model_combination (code_model_combinations : list string)
  (code model : string) (row_number : nat) : option string * list string :=
  let combination := code ++ "-" ++ model in
  if existsb (String.eqb combination) code_model_combinations
  then (Some ("行" ++ Py.str_nat (row_number + 1) ++ ": 物料编码 '" ++ code
                ++ "' 和物料型号 '" ++ model ++ "' 的组合在文件中重复。"),
        code_model_combinations)
  else (None, combination :: code_model_combinations).

(** ** The lines of a formset within stock *)


(** The primary key and the creator of a stock row. *)
Definition id_and_creator (s : DepartmentMaterialStock.t) : nat * option nat :=
  (DepartmentMaterialStock.id s, DepartmentMaterialStock.creator s).

(** ** Readings of the tables *)

(** The sum of the quantities of stock rows, and of request lines. *)
Definition total_quantity (rows : list DepartmentMaterialStock.t) : Z :=
  fold_right (fun s acc => DepartmentMaterialStock.quantity s + acc) 0 rows.

Definition requested_quantity (lines : list MaterialRequestItem.t) : Z :=
  fold_right (fun i acc => MaterialRequestItem.quantity i + acc) 0 lines.

(** Everything of a stock row but its quantity. *)
Definition row_identity (s : DepartmentMaterialStock.t)
  : nat * nat * MaterialModel.t * Z * option nat :=
  (DepartmentMaterialStock.id s, DepartmentMaterialStock.department s,
   DepartmentMaterialStock.material s, DepartmentMaterialStock.quantity_safety s,
   DepartmentMaterialStock.creator s).

(** The pair that [unique_together] of [DepartmentMaterialStock] names. *)
Definition stock_key (s : DepartmentMaterialStock.t) : nat * nat :=
  (DepartmentMaterialStock.department s,
   MaterialModel.id (DepartmentMaterialStock.material s)).

(** What the database constraints of the stock table say: primary keys
    are distinct and so are the pairs (department, material). *)
Definition stock_table_wellformed (db : Database) : Prop :=
  NoDup (map DepartmentMaterialStock.id (stocks db))
  /\ NoDup (map stock_key (stocks db)).

(** What the constraints of the requests table say: primary keys are
    distinct and so are the request numbers. *)
Definition request_table_wellformed (db : Database) : Prop :=
  NoDup (map fst (requests db)) /\ NoDup (map number_of (requests db)).

(** The audit log of [db'] continues the audit log of [db]. *)
Definition log_continues (db db' : Database) : Prop :=
  exists entries, audit_logs db' = (audit_logs db ++ entries)%list.

(** ** The chart of the requested quantities ([views.py]) *)

(** [material_counts.get(key, default)] and [material_counts[key] = value]
    on a dict, which keeps its keys in the order of their first
    assignment. *)
Fixpoint dict_get (d : list (string * Z)) (key : string) (default : Z) : Z :=
  match d with
  | [] => default
  | (k, v) :: rest => if String.eqb k key then v else dict_get rest key default
  end.

Fixpoint dict_set (d : list (string * Z)) (key : string) (value : Z)
  : list (string * Z) :=
  match d with
  | [] => [(key, value)]
  | (k, v) :: rest =>
      if String.eqb k key then (k, value) :: rest
      else (k, v) :: dict_set rest key value
  end.

(** A loop with an accumulator that an exception leaves. *)
Fixpoint reduce {A B} (f : B -> A -> Outcome B) (l : list A) (acc : B)
  : Outcome B :=
  match l with
  | [] => Returns acc
  | x :: rest =>
      match f acc x with
      | Returns acc' => reduce f rest acc'
      | Raises e => Raises e
      end
  end.

Section RoseChart.

(** The column [model] of a material, which the tables above leave out. *)
Variable model : MaterialModel.t -> string.

(** The body of the inner loop of [rose_chart_view]; the accumulator is
    [(material_counts, total_materials)]. *)
Definition count_item (db : Database) (acc : list (string * Z) * Z)
  (item : MaterialRequestItem.t) : Outcome (list (string * Z) * Z) :=
  match fst (MaterialRequestItem_material item db) with
  | Returns department_stock =>
      let material_name := model (DepartmentMaterialStock.material department_stock) in
      let quantity := MaterialRequestItem.quantity item in
      Returns (dict_set (fst acc) material_name
                 (dict_get (fst acc) material_name 0 + quantity),
               snd acc + quantity)
  | Raises e => Raises e
  end.

(** The two loops of [rose_chart_view] for one department. *)
Definition material_counts (department : nat) (db : Database)
  : Outcome (list (string * Z) * Z) :=
  reduce
    (fun acc req =>
       reduce (count_item db)
         (filter (fun i => Nat.eqb (MaterialRequestItem.request i) (fst req))
            (items db))
         acc)
    (filter (fun r => Nat.eqb (MaterialRequestModel.department (snd r)) department)
       (requests db))
    ([], 0).

(** What the title of the chart shows after the name of the department:
    the total, or "无数据" when [material_counts] is empty. *)
Definition chart_total (counts : list (string * Z)) (total_materials : Z)
  : option Z :=
  match counts with
  | [] => None
  | _ :: _ => Some total_materials
  end.

(** The lines of all the requests of a department, in the order of the
    loops. *)
Definition department_lines (department : nat) (db : Database)
  : list MaterialRequestItem.t :=
  flat_map
    (fun req => filter (fun i => Nat.eqb (MaterialRequestItem.request i) (fst req))
                  (items db))
    (filter (fun r => Nat.eqb (MaterialRequestModel.department (snd r)) department)
       (requests db)).

(** The model of the material of a line. *)
Definition line_model (db : Database) (item : MaterialRequestItem.t) : string :=
  match fst (MaterialRequestItem_material item db) with
  | Returns department_stock => model (DepartmentMaterialStock.material department_stock)
  | Raises _ => ""
  end.

End RoseChart.

(** The sum of the values of a dict. *)
Definition sum_values (d : list (string * Z)) : Z :=
  fold_right (fun kv acc => snd kv + acc) 0 d.

(** Every line points at exactly one stock row, as the foreign key and the
    primary key have it. *)
Definition lines_resolve (db : Database) : Prop :=
  forall item, In item (items db) ->
    exists s, filter (fun s => Nat.eqb (DepartmentMaterialStock.id s)
                                 (MaterialRequestItem.material item))
                (stocks db) = [s].

(** * Properties *)

(** ** Sequencing *)

Lemma preserves_ret {A} (P : Database -> Prop) (a : A) : preserves P (ret a).
Proof. intros db H; exact H. Qed.

Lemma preserves_raise {A} (P : Database -> Prop) (e : Exception) :
  preserves P (@raise A e).
Proof. intros db H; exact H. Qed.

Lemma preserves_bind {A B} (P : Database -> Prop) (m : Orm A) (k : A -> Orm B) :
  preserves P m -> (forall a, preserves P (k a)) -> preserves P (bind m k).
Proof.
  intros Hm Hk db HP. unfold bind.
  specialize (Hm db HP).
  destruct (m db) as [[a | e] db']; simpl in *.
  - apply Hk; exact Hm.
  - exact Hm.
Qed.

Lemma preserves_for_each {A} (P : Database -> Prop) (body : A -> Orm unit) xs :
  (forall x, preserves P (body x)) -> preserves P (for_each body xs).
Proof.
  intros Hbody. induction xs as [| x xs IH]; simpl.
  - apply preserves_ret.
  - apply preserves_bind; [apply Hbody | intros _; exact IH].
Qed.

Lemma keeps_ret {A X} (table : Database -> X) (a : A) : keeps table (ret a).
Proof. intros db; reflexivity. Qed.

Lemma keeps_bind {A B X} (table : Database -> X) (m : Orm A) (k : A -> Orm B) :
  keeps table m -> (forall a, keeps table (k a)) -> keeps table (bind m k).
Proof.
  intros Hm Hk db. unfold bind.
  specialize (Hm db).
  destruct (m db) as [[a | e] db']; simpl in *.
  - rewrite Hk; exact Hm.
  - exact Hm.
Qed.

Lemma keeps_for_each {A X} (table : Database -> X) (body : A -> Orm unit) xs :
  (forall x, keeps table (body x)) -> keeps table (for_each body xs).
Proof.
  intros Hbody. induction xs as [| x xs IH]; simpl.
  - apply keeps_ret.
  - apply keeps_bind; [apply Hbody | intros _; exact IH].
Qed.

Lemma keeps_preserves {A} (P : Database -> Prop) (m : Orm A) :
  (forall d d', stocks d' = stocks d -> P d -> P d') ->
  keeps stocks m -> preserves P m.
Proof. intros HP Hk db H. apply (HP db); [apply Hk | exact H]. Qed.

Lemma stock_invariant_stocks d d' :
  stocks d' = stocks d -> stock_invariant d -> stock_invariant d'.
Proof. unfold stock_invariant; intros ->; trivial. Qed.

Lemma get_one_In {A} (l : list A) (x : A) : get_one l = Returns x -> l = [x].
Proof.
  destruct l as [| a [| b l']]; simpl; intros H; try discriminate.
  now inversion H.
Qed.

Lemma get_one_filter_In {A} (f : A -> bool) (l : list A) (x : A) :
  get_one (filter f l) = Returns x -> In x l /\ f x = true.
Proof.
  intros H. apply get_one_In in H.
  apply filter_In. rewrite H. now left.
Qed.

(** ** The audit receivers *)

Lemma audit_log_save_update_eq (instance : Instance) (created : bool) db :
  audit_log_save_update instance created db =
  match instance_user instance with
  | Some user =>
      (Returns tt,
       set_audit_logs
         (audit_logs db ++
            [AuditLog.mk user (if created then "Created" else "Updated")
               (ContentType.str (content_type instance) ++ " id "
                  ++ Py.str_nat (instance_id instance) ++ " was "
                  ++ (if created then "Created" else "Updated"))])%list db)
  | None => (Returns tt, db)
  end.
Proof. unfold audit_log_save_update. destruct (instance_user instance); reflexivity. Qed.

Lemma audit_log_delete_eq (instance : Instance) db :
  audit_log_delete instance db =
  match instance_user instance with
  | Some user =>
      (Returns tt,
       set_audit_logs
         (audit_logs db ++
            [AuditLog.mk user "Deleted"
               (ContentType.str (content_type instance) ++ " id "
                  ++ Py.str_nat (instance_id instance) ++ " was Deleted")])%list db)
  | None => (Returns tt, db)
  end.
Proof. unfold audit_log_delete. destruct (instance_user instance); reflexivity. Qed.

Lemma audit_log_save_update_keeps_stocks instance created :
  keeps stocks (audit_log_save_update instance created).
Proof.
  intros db. rewrite audit_log_save_update_eq.
  destruct (instance_user instance); reflexivity.
Qed.

Lemma audit_log_delete_keeps_stocks instance :
  keeps stocks (audit_log_delete instance).
Proof.
  intros db. rewrite audit_log_delete_eq.
  destruct (instance_user instance); reflexivity.
Qed.

(** ** The stock ledger never goes below zero *)

Lemma replace_stock_nonnegative r l :
  nonnegative r -> Forall nonnegative l -> Forall nonnegative (replace_stock r l).
Proof.
  intros Hr Hl. unfold replace_stock. apply Forall_map.
  eapply Forall_impl; [| exact Hl].
  intros s Hs. destruct (Nat.eqb _ _); assumption.
Qed.

Lemma DepartmentMaterialStock_save_stocks r db :
  stocks (snd (DepartmentMaterialStock_save r db)) =
  if has_stock_id (DepartmentMaterialStock.id r) (stocks db)
  then replace_stock r (stocks db) else (stocks db ++ [r])%list.
Proof.
  unfold DepartmentMaterialStock_save.
  rewrite audit_log_save_update_keeps_stocks. reflexivity.
Qed.

Lemma DepartmentMaterialStock_save_invariant r :
  nonnegative r -> preserves stock_invariant (DepartmentMaterialStock_save r).
Proof.
  intros Hr db Hdb. unfold stock_invariant in *.
  rewrite DepartmentMaterialStock_save_stocks.
  destruct (has_stock_id _ _).
  - now apply replace_stock_nonnegative.
  - apply Forall_app; split; [exact Hdb | now constructor].
Qed.

Lemma deduct_item_invariant instance item :
  preserves stock_invariant (deduct_item instance item).
Proof.
  intros db Hdb.
  unfold deduct_item, bind, MaterialRequestItem_material,
    DepartmentMaterialStock_objects_get.
  destruct (get_one (filter _ (stocks db))) as [referenced | e]; [| exact Hdb].
  destruct (get_one (filter _ (stocks db))) as [department_stock | e] eqn:Hget;
    [| exact Hdb].
  apply get_one_filter_In in Hget. destruct Hget as [Hin _].
  destruct (Z.gtb_spec (MaterialRequestItem.quantity item)
              (DepartmentMaterialStock.quantity department_stock)) as [Hgt | Hle].
  - exact Hdb.
  - apply DepartmentMaterialStock_save_invariant; [| exact Hdb].
    unfold stock_invariant in Hdb. rewrite Forall_forall in Hdb.
    destruct (Hdb _ Hin) as [Hq Hs].
    split; simpl; [lia | exact Hs].
Qed.

Lemma update_stock_invariant instance created :
  preserves stock_invariant (update_stock instance created).
Proof.
  unfold update_stock.
  destruct (MaterialRequestModel.approval_status _); try apply preserves_ret.
  destruct (created || _); [| apply preserves_ret].
  intros db Hdb.
  apply (preserves_for_each stock_invariant (deduct_item instance)
           (materialrequestitem_set instance db)); [| exact Hdb].
  intros x; apply deduct_item_invariant.
Qed.

Lemma generate_request_number_keeps {X} (table : Database -> X) today :
  keeps table (generate_request_number today).
Proof.
  intros db. unfold generate_request_number.
  destruct (last_by_request_number _) as [[i c] |]; [| reflexivity].
  destruct (Py.int _); reflexivity.
Qed.

Lemma generate_request_number_same_database today db :
  snd (generate_request_number today db) = db.
Proof. exact (generate_request_number_keeps (fun d => d) today db). Qed.

Lemma save_base_keeps_stocks self : keeps stocks (save_base self).
Proof.
  intros db. unfold save_base.
  destruct (request_number_taken _ _ _); [reflexivity |].
  destruct (MaterialRequestModel.pk self) as [id |]; [| reflexivity].
  destruct (existsb _ _); reflexivity.
Qed.

Lemma before_first_save_keeps {X} (table : Database -> X) today self :
  keeps table (before_first_save today self).
Proof.
  unfold before_first_save. destruct (negb _); [| apply keeps_ret].
  apply keeps_bind; [| intros; apply keeps_ret].
  destruct (String.eqb _ _); [| apply keeps_ret].
  apply generate_request_number_keeps.
Qed.

Lemma MaterialRequestModel_save_invariant today self :
  preserves stock_invariant (MaterialRequestModel_save today self).
Proof.
  unfold MaterialRequestModel_save.
  apply preserves_bind.
  - apply (keeps_preserves _ _ stock_invariant_stocks), before_first_save_keeps.
  - intros self1. apply preserves_bind.
    + apply (keeps_preserves _ _ stock_invariant_stocks), save_base_keeps_stocks.
    + intros saved. apply preserves_bind; [apply update_stock_invariant |].
      intros _. apply preserves_bind; [| intros; apply preserves_ret].
      apply (keeps_preserves _ _ stock_invariant_stocks).
      apply audit_log_save_update_keeps_stocks.
Qed.

Lemma MaterialRequestModel_init_keeps {X} (table : Database -> X) today pk c :
  keeps table (MaterialRequestModel_init today pk c).
Proof.
  unfold MaterialRequestModel_init. destruct (negb _); [| apply keeps_ret].
  apply keeps_bind; [apply generate_request_number_keeps | intros; apply keeps_ret].
Qed.

Lemma create_request_invariant today c :
  preserves stock_invariant (create_request today c).
Proof.
  unfold create_request. apply preserves_bind.
  - apply (keeps_preserves _ _ stock_invariant_stocks), MaterialRequestModel_init_keeps.
  - intros self; apply MaterialRequestModel_save_invariant.
Qed.

Lemma MaterialRequestItem_save_keeps_stocks i :
  keeps stocks (MaterialRequestItem_save i).
Proof.
  intros db. unfold MaterialRequestItem_save.
  rewrite audit_log_save_update_keeps_stocks. reflexivity.
Qed.

Lemma MaterialRequestItem_delete_keeps_stocks i :
  keeps stocks (MaterialRequestItem_delete i).
Proof.
  intros db. unfold MaterialRequestItem_delete.
  rewrite audit_log_delete_keeps_stocks. reflexivity.
Qed.

Lemma save_form_keeps_stocks request_id f :
  keeps stocks (MaterialRequestItemInlineFormset.save_form request_id f).
Proof.
  unfold MaterialRequestItemInlineFormset.save_form.
  destruct (MaterialRequestItemInlineFormset.cleaned f) as [data |];
    [| apply keeps_ret].
  destruct (MaterialRequestItemInlineFormset.DELETE data).
  - destruct (MaterialRequestItemInlineFormset.instance f);
      [apply MaterialRequestItem_delete_keeps_stocks | apply keeps_ret].
  - destruct (MaterialRequestItemInlineFormset.material data);
      [| apply keeps_ret].
    intros db. apply MaterialRequestItem_save_keeps_stocks.
Qed.

Lemma submit_keeps_stocks request_id forms :
  keeps stocks (MaterialRequestItemInlineFormset.submit request_id forms).
Proof.
  unfold MaterialRequestItemInlineFormset.submit.
  destruct (MaterialRequestItemInlineFormset.formset_is_valid forms);
    [| apply keeps_ret].
  apply keeps_bind; [| intros; apply keeps_ret].
  apply keeps_for_each. intros f; apply save_form_keeps_stocks.
Qed.

Lemma inline_apply_keeps_stocks p obj m :
  keeps stocks (MaterialRequestItemInline.apply p obj m).
Proof.
  unfold MaterialRequestItemInline.apply.
  destruct (MaterialRequestItemInline.allowed p obj m); [| apply keeps_ret].
  destruct m; (apply keeps_bind; [| intros; apply keeps_ret]);
    auto using MaterialRequestItem_save_keeps_stocks,
      MaterialRequestItem_delete_keeps_stocks.
Qed.

Lemma form_errors_nil pk data db :
  DepartmentMaterialStockForm.errors pk data db = [] ->
  0 <= DepartmentMaterialStockForm.quantity data
  /\ 0 <= DepartmentMaterialStockForm.quantity_safety data.
Proof.
  unfold DepartmentMaterialStockForm.errors,
    DepartmentMaterialStockForm.clean_quantity,
    DepartmentMaterialStockForm.clean_quantity_safety.
  destruct (Z.ltb_spec (DepartmentMaterialStockForm.quantity data) 0);
    [discriminate |].
  destruct (Z.ltb_spec (DepartmentMaterialStockForm.quantity_safety data) 0);
    [discriminate |].
  intros _; split; assumption.
Qed.

Lemma form_errors_negative pk data db :
  DepartmentMaterialStockForm.quantity data < 0
  \/ DepartmentMaterialStockForm.quantity_safety data < 0 ->
  exists msg rest,
    DepartmentMaterialStockForm.errors pk data db = ValidationError msg :: rest.
Proof.
  unfold DepartmentMaterialStockForm.errors,
    DepartmentMaterialStockForm.clean_quantity,
    DepartmentMaterialStockForm.clean_quantity_safety.
  intros H.
  destruct (Z.ltb_spec (DepartmentMaterialStockForm.quantity data) 0).
  - simpl; eauto.
  - destruct (Z.ltb_spec (DepartmentMaterialStockForm.quantity_safety data) 0).
    + simpl; eauto.
    + lia.
Qed.

Lemma add_view_invariant user data :
  preserves stock_invariant (DepartmentMaterialStockAdmin.add_view user data).
Proof.
  intros db Hdb. unfold DepartmentMaterialStockAdmin.add_view.
  destruct (DepartmentMaterialStockForm.errors None data db) eqn:He;
    [| exact Hdb].
  apply form_errors_nil in He.
  apply DepartmentMaterialStock_save_invariant; [exact He | exact Hdb].
Qed.

Lemma change_view_invariant user object_id data :
  preserves stock_invariant
    (DepartmentMaterialStockAdmin.change_view user object_id data).
Proof.
  intros db Hdb. unfold DepartmentMaterialStockAdmin.change_view.
  destruct (get_one _) as [obj | e]; [| exact Hdb].
  destruct (DepartmentMaterialStockForm.errors (Some object_id) data db) eqn:He;
    [| exact Hdb].
  apply form_errors_nil in He.
  apply DepartmentMaterialStock_save_invariant; [exact He | exact Hdb].
Qed.

Lemma perform_invariant op db :
  stock_invariant db -> stock_invariant (perform op db).
Proof.
  destruct op; simpl.
  - apply add_view_invariant.
  - apply change_view_invariant.
  - apply create_request_invariant.
  - apply MaterialRequestModel_save_invariant.
  - apply (keeps_preserves _ _ stock_invariant_stocks), submit_keeps_stocks.
  - apply (keeps_preserves _ _ stock_invariant_stocks), inline_apply_keeps_stocks.
Qed.

(** C4.  After any sequence of operations on the ledger (stock rows added
    or edited through the admin form, requests created or saved with the
    deduction that a save into [passed] runs, request lines written), every
    stock row has a quantity and a safety threshold of at least zero,
    provided they had before; and an add or an edit through the form that
    posts a negative quantity or threshold ends in a validation error and
    leaves the database as it was. *)
Theorem stock_quantities_never_negative :
  (forall ops db, stock_invariant db -> stock_invariant (perform_all ops db))
  /\ (forall user data db,
        DepartmentMaterialStockForm.quantity data < 0
        \/ DepartmentMaterialStockForm.quantity_safety data < 0 ->
        exists msg,
          DepartmentMaterialStockAdmin.add_view user data db
          = (Raises (ValidationError msg), db))
  /\ (forall user object_id data db obj,
        get_one (filter (fun s => Nat.eqb (DepartmentMaterialStock.id s) object_id)
                   (DepartmentMaterialStockAdmin.get_queryset user db))
        = Returns obj ->
        DepartmentMaterialStockForm.quantity data < 0
        \/ DepartmentMaterialStockForm.quantity_safety data < 0 ->
        exists msg,
          DepartmentMaterialStockAdmin.change_view user object_id data db
          = (Raises (ValidationError msg), db)).
Proof.
  split; [| split].
  - intros ops. induction ops as [| op ops IH]; intros db Hdb; simpl.
    + exact Hdb.
    + apply IH, perform_invariant, Hdb.
  - intros user data db Hneg.
    destruct (form_errors_negative None data db Hneg) as (msg & rest & He).
    exists msg. unfold DepartmentMaterialStockAdmin.add_view. now rewrite He.
  - intros user object_id data db obj Hobj Hneg.
    destruct (form_errors_negative (Some object_id) data db Hneg)
      as (msg & rest & He).
    exists msg. unfold DepartmentMaterialStockAdmin.change_view.
    now rewrite Hobj, He.
Qed.

Lemma stock_quantities_never_negative_witness :
  stock_invariant
    (perform_all
       [AddStock (mkUser 7 true)
          (DepartmentMaterialStockForm.mk 1 material_M 10 2);
        AddStock (mkUser 7 true)
          (DepartmentMaterialStockForm.mk 1 material_N (-3) 0);
        SaveRequest jan5
          (MaterialRequestModel.mk (Some 1%nat)
             (request_columns "WL20240105001" passed) (Some approving))]
       ledger_one_item)
  /\ (exists msg,
        DepartmentMaterialStockAdmin.add_view (mkUser 7 true)
          (DepartmentMaterialStockForm.mk 1 material_N (-3) 0) ledger_one_item
        = (Raises (ValidationError msg), ledger_one_item))
  /\ (exists msg,
        DepartmentMaterialStockAdmin.change_view (mkUser 7 true) 1
          (DepartmentMaterialStockForm.mk 1 material_M 5 (-1)) ledger_one_item
        = (Raises (ValidationError msg), ledger_one_item)).
Proof.
  destruct stock_quantities_never_negative as (Hall & Hadd & Hchange).
  split; [| split].
  - apply Hall. unfold stock_invariant, nonnegative; simpl.
    repeat constructor; simpl; lia.
  - apply Hadd. left; simpl; lia.
  - eapply Hchange; [reflexivity | right; simpl; lia].
Defined.

(** ** The lines of a decided request *)

(** C5.  When the request is [passed] or [nopass], the inline answers that
    every field of a line is read-only and that lines may be neither
    added nor deleted, so every mutation of the lines asked through it
    (a new value for a field, a new line, a removal) is refused and the
    database, its lines included, stays as it was. *)
Theorem decided_request_lines_are_locked p obj m db :
  MaterialRequestModel.approval_status (MaterialRequestModel.fields obj) = passed
  \/ MaterialRequestModel.approval_status (MaterialRequestModel.fields obj) = nopass ->
  MaterialRequestItemInline.get_readonly_fields
    (MaterialRequestItemInline.super_readonly_fields p) (Some obj)
  = MaterialRequestItemInline.model_fields
  /\ MaterialRequestItemInline.has_add_permission
       (MaterialRequestItemInline.super_add p) (Some obj) = false
  /\ MaterialRequestItemInline.has_delete_permission
       (MaterialRequestItemInline.super_delete p) (Some obj) = false
  /\ MaterialRequestItemInline.apply p (Some obj) m db = (Returns false, db).
Proof.
  intros Hstatus.
  assert (Hd : MaterialRequestItemInline.decided (Some obj) = true).
  { unfold MaterialRequestItemInline.decided. destruct Hstatus as [-> | ->]; reflexivity. }
  unfold MaterialRequestItemInline.get_readonly_fields,
    MaterialRequestItemInline.has_add_permission,
    MaterialRequestItemInline.has_delete_permission,
    MaterialRequestItemInline.apply, MaterialRequestItemInline.allowed.
  unfold MaterialRequestItemInline.get_readonly_fields,
    MaterialRequestItemInline.has_add_permission,
    MaterialRequestItemInline.has_delete_permission.
  rewrite Hd. repeat split.
  destruct m as [item f value | item | item]; try reflexivity.
  destruct f; reflexivity.
Qed.

Lemma decided_request_lines_are_locked_witness :
  MaterialRequestItemInline.apply
    (MaterialRequestItemInline.mkpermissions [] true true)
    (Some (MaterialRequestModel.mk (Some 1%nat)
             (request_columns "WL20240105001" nopass) (Some nopass)))
    (MaterialRequestItemInline.EditItem (MaterialRequestItem.mk 1 1 1 4)
       MaterialRequestItemInline.quantity_field 9)
    ledger_one_item
  = (Returns false, ledger_one_item).
Proof.
  apply (decided_request_lines_are_locked
           (MaterialRequestItemInline.mkpermissions [] true true)
           (MaterialRequestModel.mk (Some 1%nat)
              (request_columns "WL20240105001" nopass) (Some nopass))).
  right; reflexivity.
Defined.

(** ** One audit entry per event *)

(** C7.  For a saved or deleted instance of any connected class: when its
    [creator] resolves to a user, the receiver appends exactly one entry to
    the audit log, by that user, whose action is [Created] for a creating
    save, [Updated] for another save and [Deleted] for a delete, and whose
    content is the content type, the word [id], the instance's identifier
    and the action; when no user resolves, the receiver returns without an
    entry and without an exception. *)
Theorem audit_entry_per_event (instance : Instance) (db : Database) :
  (forall user, instance_user instance = Some user ->
     (forall created,
        audit_log_save_update instance created db =
        (Returns tt,
         set_audit_logs
           (audit_logs db ++
              [AuditLog.mk user (if created then "Created" else "Updated")
                 (ContentType.str (content_type instance) ++ " id "
                    ++ Py.str_nat (instance_id instance) ++ " was "
                    ++ (if created then "Created" else "Updated"))])%list db))
     /\ audit_log_delete instance db =
        (Returns tt,
         set_audit_logs
           (audit_logs db ++
              [AuditLog.mk user "Deleted"
                 (ContentType.str (content_type instance) ++ " id "
                    ++ Py.str_nat (instance_id instance) ++ " was Deleted")])%list
           db))
  /\ (instance_user instance = None ->
      (forall created, audit_log_save_update instance created db = (Returns tt, db))
      /\ audit_log_delete instance db = (Returns tt, db)).
Proof.
  split.
  - intros user Hu. split.
    + intros created. now rewrite audit_log_save_update_eq, Hu.
    + now rewrite audit_log_delete_eq, Hu.
  - intros Hu. split.
    + intros created. now rewrite audit_log_save_update_eq, Hu.
    + now rewrite audit_log_delete_eq, Hu.
Qed.

Lemma audit_entry_per_event_witness :
  audit_log_save_update
    (mkInstance ContentType.BaseModel 3 (CreatorField (Some 7%nat))) true
    empty_database
  = (Returns tt,
     set_audit_logs
       [AuditLog.mk 7 "Created" "mater | 基地 id 3 was Created"] empty_database)
  /\ audit_log_delete (mkInstance ContentType.UserDepartment 4 NoCreatorField)
       empty_database
     = (Returns tt, empty_database).
Proof.
  split.
  - apply (proj1 (proj1 (audit_entry_per_event
                           (mkInstance ContentType.BaseModel 3
                              (CreatorField (Some 7%nat)))
                           empty_database) 7%nat eq_refl) true).
  - apply (proj2 (audit_entry_per_event
                    (mkInstance ContentType.UserDepartment 4 NoCreatorField)
                    empty_database)).
    reflexivity.
Defined.

(** ** Listings by department *)

(** C9.  A superuser's stock and request listings are the whole tables.
    For any other user: when [UserDepartment] holds one row for the user
    (the user field is one-to-one), both listings are exactly the rows
    whose department is that row's department; when it holds none, both
    listings are empty. *)
Theorem listings_scoped_to_department (user : User) (db : Database) :
  (is_superuser user = true ->
     DepartmentMaterialStockAdmin.get_queryset user db = stocks db
     /\ MaterialRequestModelAdmin.get_queryset user db = Returns (requests db))
  /\ (is_superuser user = false ->
      (forall ud,
         filter (fun r => Nat.eqb (UserDepartment.user r) (user_id user))
           (user_departments db) = [ud] ->
         DepartmentMaterialStockAdmin.get_queryset user db
         = filter (fun s => Nat.eqb (DepartmentMaterialStock.department s)
                              (UserDepartment.department ud)) (stocks db)
         /\ MaterialRequestModelAdmin.get_queryset user db
            = Returns
                (filter (fun row =>
                           Nat.eqb (MaterialRequestModel.department (snd row))
                             (UserDepartment.department ud)) (requests db)))
      /\ (filter (fun r => Nat.eqb (UserDepartment.user r) (user_id user))
            (user_departments db) = [] ->
          DepartmentMaterialStockAdmin.get_queryset user db = []
          /\ MaterialRequestModelAdmin.get_queryset user db = Returns [])).
Proof.
  unfold DepartmentMaterialStockAdmin.get_queryset,
    MaterialRequestModelAdmin.get_queryset,
    MaterialRequestModelAdmin.UserDepartment_objects_get.
  split.
  - intros ->. split; reflexivity.
  - intros ->. split.
    + intros ud ->. split; reflexivity.
    + intros ->. split; reflexivity.
Qed.

Lemma listings_scoped_to_department_witness :
  DepartmentMaterialStockAdmin.get_queryset (mkUser 8 false)
    (mkDatabase
       [DepartmentMaterialStock.mk 1 1 material_M 10 2 None;
        DepartmentMaterialStock.mk 2 2 material_M 3 0 None]
       [] [] [UserDepartment.mk 1 8 2] [])
  = [DepartmentMaterialStock.mk 2 2 material_M 3 0 None]
  /\ MaterialRequestModelAdmin.get_queryset (mkUser 9 false) ledger_one_item
     = Returns [].
Proof.
  split.
  - apply (proj1 (proj1 (proj2 (listings_scoped_to_department (mkUser 8 false)
       (mkDatabase
          [DepartmentMaterialStock.mk 1 1 material_M 10 2 None;
           DepartmentMaterialStock.mk 2 2 material_M 3 0 None]
          [] [] [UserDepartment.mk 1 8 2] [])) eq_refl)
       (UserDepartment.mk 1 8 2) eq_refl)).
  - apply (proj2 (proj2 (proj2 (listings_scoped_to_department (mkUser 9 false)
       ledger_one_item) eq_refl) eq_refl)).
Defined.

(** ** Which stock row a deduction touches *)

Lemma for_each_app {A} (body : A -> Orm unit) xs ys db :
  for_each body (xs ++ ys)%list db =
  match for_each body xs db with
  | (Returns _, db') => for_each body ys db'
  | (Raises e, db') => (Raises e, db')
  end.
Proof.
  revert db. induction xs as [| x xs IH]; intros db; simpl.
  - reflexivity.
  - unfold bind. destruct (body x db) as [[[] | e] db']; [apply IH | reflexivity].
Qed.

Lemma DepartmentMaterialStock_save_returns r db :
  fst (DepartmentMaterialStock_save r db) = Returns tt.
Proof.
  unfold DepartmentMaterialStock_save. rewrite audit_log_save_update_eq.
  destruct (instance_user _); reflexivity.
Qed.

Lemma has_stock_id_In s l : In s l -> has_stock_id (DepartmentMaterialStock.id s) l = true.
Proof.
  intros H. unfold has_stock_id. apply existsb_exists.
  exists s; split; [exact H | apply Nat.eqb_refl].
Qed.

Lemma deduct_item_found instance item db referenced department_stock :
  MaterialRequestItem_material item db = (Returns referenced, db) ->
  DepartmentMaterialStock_objects_get
    (MaterialRequestModel.department (MaterialRequestModel.fields instance))
    (DepartmentMaterialStock.material referenced) db
  = (Returns department_stock, db) ->
  deduct_item instance item db =
  if MaterialRequestItem.quantity item
       >? DepartmentMaterialStock.quantity department_stock
  then (Raises (ValueError
                  (insufficient_message
                     (MaterialModel.code
                        (DepartmentMaterialStock.material referenced)))), db)
  else DepartmentMaterialStock_save
         (DepartmentMaterialStock.with_quantity
            (DepartmentMaterialStock.quantity department_stock
               - MaterialRequestItem.quantity item) department_stock) db.
Proof.
  intros Href Hget. unfold deduct_item, bind. rewrite Href, Hget.
  destruct (_ >? _); reflexivity.
Qed.

(** C10.  When the loop of [update_stock] reaches a line, it fetches the
    stock row the line points to and then the row of the pair (department
    of the request, material of that row); the latter is the row compared
    with the line's quantity and written back with the quantity taken off.
    A line pointing to a row of another department therefore leaves that
    row as it is and draws on the requesting department's row.  When the
    pair has no row the lookup raises [DoesNotExist], which nothing
    catches: the loop stops there, the lines after it are not visited and
    what the lines before it wrote stays written. *)
Theorem deduction_refetches_department_row instance item db referenced :
  MaterialRequestItem_material item db = (Returns referenced, db) ->
  (forall department_stock,
     DepartmentMaterialStock_objects_get
       (MaterialRequestModel.department (MaterialRequestModel.fields instance))
       (DepartmentMaterialStock.material referenced) db
     = (Returns department_stock, db) ->
     (MaterialRequestItem.quantity item
        > DepartmentMaterialStock.quantity department_stock ->
      deduct_item instance item db =
      (Raises (ValueError
                 (insufficient_message
                    (MaterialModel.code
                       (DepartmentMaterialStock.material referenced)))), db))
     /\ (MaterialRequestItem.quantity item
           <= DepartmentMaterialStock.quantity department_stock ->
         fst (deduct_item instance item db) = Returns tt
         /\ stocks (snd (deduct_item instance item db))
            = replace_stock
                (DepartmentMaterialStock.with_quantity
                   (DepartmentMaterialStock.quantity department_stock
                      - MaterialRequestItem.quantity item) department_stock)
                (stocks db)
         /\ (DepartmentMaterialStock.department referenced
               <> MaterialRequestModel.department
                    (MaterialRequestModel.fields instance) ->
             In referenced (stocks (snd (deduct_item instance item db))))))
  /\ (filter (fun s =>
                Nat.eqb (DepartmentMaterialStock.department s)
                  (MaterialRequestModel.department
                     (MaterialRequestModel.fields instance))
                && Nat.eqb (MaterialModel.id (DepartmentMaterialStock.material s))
                     (MaterialModel.id (DepartmentMaterialStock.material referenced)))
        (stocks db) = [] ->
      deduct_item instance item db = (Raises DoesNotExist, db)
      /\ forall before after db0,
           for_each (deduct_item instance) before db0 = (Returns tt, db) ->
           for_each (deduct_item instance) (before ++ item :: after)%list db0
           = (Raises DoesNotExist, db)).
Proof.
  intros Href. split.
  - intros department_stock Hget.
    pose proof (deduct_item_found _ _ _ _ _ Href Hget) as Heq.
    split.
    + intros Hgt. rewrite Heq.
      destruct (Z.gtb_spec (MaterialRequestItem.quantity item)
                  (DepartmentMaterialStock.quantity department_stock));
        [reflexivity | lia].
    + intros Hle. rewrite Heq.
      destruct (Z.gtb_spec (MaterialRequestItem.quantity item)
                  (DepartmentMaterialStock.quantity department_stock));
        [lia |].
      unfold MaterialRequestItem_material in Href.
      unfold DepartmentMaterialStock_objects_get in Hget.
      inversion Href as [Href']. inversion Hget as [Hget'].
      pose proof (get_one_In _ _ Href') as Hone.
      apply get_one_filter_In in Href'. destruct Href' as [Hrin Hrid].
      apply get_one_filter_In in Hget'. destruct Hget' as [Hdin Hdkey].
      assert (Hstocks :
                stocks (snd (DepartmentMaterialStock_save
                               (DepartmentMaterialStock.with_quantity
                                  (DepartmentMaterialStock.quantity department_stock
                                     - MaterialRequestItem.quantity item)
                                  department_stock) db))
                = replace_stock
                    (DepartmentMaterialStock.with_quantity
                       (DepartmentMaterialStock.quantity department_stock
                          - MaterialRequestItem.quantity item) department_stock)
                    (stocks db)).
      { rewrite DepartmentMaterialStock_save_stocks. simpl.
        now rewrite (has_stock_id_In _ _ Hdin). }
      split; [apply DepartmentMaterialStock_save_returns |].
      split; [exact Hstocks |].
      intros Hdept. rewrite Hstocks. unfold replace_stock.
      apply in_map_iff. exists referenced. split; [| exact Hrin].
      simpl. destruct (Nat.eqb_spec (DepartmentMaterialStock.id referenced)
                         (DepartmentMaterialStock.id department_stock)) as [Hid |];
        [| reflexivity].
      exfalso. apply Hdept.
      assert (Hin' : In department_stock
                       (filter (fun s => Nat.eqb (DepartmentMaterialStock.id s)
                                           (MaterialRequestItem.material item))
                          (stocks db))).
      { apply filter_In. split; [exact Hdin |]. now rewrite <- Hid. }
      rewrite Hone in Hin'. destruct Hin' as [<- | []].
      apply andb_prop in Hdkey. now apply Nat.eqb_eq, (proj1 Hdkey).
  - intros Hnone.
    assert (Hd : deduct_item instance item db = (Raises DoesNotExist, db)).
    { unfold deduct_item, bind. rewrite Href.
      unfold DepartmentMaterialStock_objects_get. now rewrite Hnone. }
    split; [exact Hd |].
    intros before after db0 Hbefore.
    rewrite for_each_app, Hbefore. simpl. unfold bind. now rewrite Hd.
Qed.

Lemma deduction_refetches_department_row_witness :
  deduct_item
    (MaterialRequestModel.mk (Some 1%nat)
       (request_columns "WL20240105001" passed) (Some approving))
    (MaterialRequestItem.mk 1 1 2 4)
    (set_stocks
       [DepartmentMaterialStock.mk 1 1 material_M 10 2 None;
        DepartmentMaterialStock.mk 2 5 material_M 8 0 None]
       ledger_one_item)
  = (Returns tt,
     set_stocks
       [DepartmentMaterialStock.mk 1 1 material_M 6 2 None;
        DepartmentMaterialStock.mk 2 5 material_M 8 0 None]
       ledger_one_item)
  /\ deduct_item
       (MaterialRequestModel.mk (Some 1%nat)
          (request_columns "WL20240105001" passed) (Some approving))
       (MaterialRequestItem.mk 1 1 2 4)
       (set_stocks [DepartmentMaterialStock.mk 2 5 material_M 8 0 None]
          ledger_one_item)
     = (Raises DoesNotExist,
        set_stocks [DepartmentMaterialStock.mk 2 5 material_M 8 0 None]
          ledger_one_item).
Proof.
  split.
  - reflexivity.
  - apply (proj2 (deduction_refetches_department_row
                    (MaterialRequestModel.mk (Some 1%nat)
                       (request_columns "WL20240105001" passed) (Some approving))
                    (MaterialRequestItem.mk 1 1 2 4)
                    (set_stocks [DepartmentMaterialStock.mk 2 5 material_M 8 0 None]
                       ledger_one_item)
                    (DepartmentMaterialStock.mk 2 5 material_M 8 0 None)
                    eq_refl)).
    reflexivity.
Defined.

(** ** Deduction on the way into [passed] *)

Lemma update_stock_on_transition instance created db :
  MaterialRequestModel.approval_status (MaterialRequestModel.fields instance)
  = passed ->
  created = true
  \/ MaterialRequestModel.original_approval_status instance <> Some passed ->
  update_stock instance created db =
  for_each (deduct_item instance) (materialrequestitem_set instance db) db.
Proof.
  intros Hs Ht. unfold update_stock. rewrite Hs.
  destruct Ht as [-> | Ho]; [reflexivity |].
  destruct created; [reflexivity |].
  destruct (MaterialRequestModel.original_approval_status instance) as [[] |];
    try reflexivity.
  now elim Ho.
Qed.

Lemma update_stock_skipped instance db :
  MaterialRequestModel.original_approval_status instance = Some passed ->
  update_stock instance false db = (Returns tt, db).
Proof.
  intros Ho. unfold update_stock. rewrite Ho.
  destruct (MaterialRequestModel.approval_status _); reflexivity.
Qed.

(** C1.  A request loaded in status [approving] is set to [passed] and
    saved: the 10 units of its stock row become 6, the 4 of its only line
    taken off.  The instance keeps [approving] as its original status, so
    saving the same instance again, its status being [passed] already,
    takes the 4 off once more and leaves 2. *)
Theorem resave_of_same_instance_deducts_again :
  exists self db1,
    decide_request jan5 1 passed ledger_one_item = (Returns self, db1)
    /\ quantity_of 1 ledger_one_item = Some 10
    /\ quantity_of 1 db1 = Some 6
    /\ MaterialRequestModel.approval_status (MaterialRequestModel.fields self)
       = passed
    /\ MaterialRequestModel.original_approval_status self = Some approving
    /\ quantity_of 1 (snd (MaterialRequestModel_save jan5 self db1)) = Some 2.
Proof.
  eexists; eexists. split; [vm_compute; reflexivity |].
  repeat split; vm_compute; reflexivity.
Qed.

(** C2.  Request 1 asks for 4 of M (10 in stock) and 5 of N (1 in stock).
    Saving it as [passed] raises the [ValueError] of the second line, and
    the database left behind has the first line's 4 taken off M, N as it
    was, and the request stored as [passed]. *)
Theorem shortage_leaves_earlier_lines_deducted :
  exists db1,
    decide_request jan5 1 passed ledger_short_second
    = (Raises (ValueError (insufficient_message "N")), db1)
    /\ quantity_of 1 ledger_short_second = Some 10
    /\ quantity_of 1 db1 = Some 6
    /\ quantity_of 2 db1 = Some 1
    /\ requests db1 = [(1%nat, request_columns "WL20240105001" passed)].
Proof.
  eexists. split; [vm_compute; reflexivity |].
  repeat split; vm_compute; reflexivity.
Qed.

(** ** Request numbers *)

(** C3.  With the 999 requests of January 5th numbered [001] to [999] in
    the table, a new request is numbered [WL202401051000] and stored.
    With that row in the table the greatest number in string order is
    still the one ending in [999], so the generator returns
    [WL202401051000] again, a number that a stored request carries, and
    saving the next new request raises [IntegrityError]. *)
Theorem generator_repeats_number_after_999 :
  requests (snd (create_request jan5 (request_columns "" approving)
                   (requests_of_day 999)))
  = requests (requests_of_day 1000)
  /\ fst (generate_request_number jan5 (requests_of_day 999))
     = Returns "WL202401051000"
  /\ fst (generate_request_number jan5 (requests_of_day 1000))
     = Returns "WL202401051000"
  /\ request_number_taken None "WL202401051000"
       (requests (requests_of_day 1000)) = true
  /\ fst (create_request jan5 (request_columns "" approving)
            (requests_of_day 1000))
     = Raises IntegrityError.
Proof.
  split; [vm_compute; reflexivity |].
  split; [vm_compute; reflexivity |].
  split; [vm_compute; reflexivity |].
  split; vm_compute; reflexivity.
Qed.

(** ** Validation of the lines of a request *)

(** C6.  A formset of two lines is posted for request 1: an existing line
    ticked for deletion whose quantity was blanked, and a new line asking
    5 of N, of which 1 is in stock.  [clean] returns at the first form,
    which is not valid; the second keeps an empty error list.  A form to
    delete does not count against the formset, which is valid and is
    saved: the line of 5 is stored.  With the first form not ticked for
    deletion the second is not examined either, and the formset is
    rejected for the first form's error alone. *)
Theorem clean_stops_at_first_invalid_form :
  MaterialRequestItemInlineFormset.is_valid form_over_stock = true
  /\ MaterialRequestItemInlineFormset.clean [form_over_stock]
     = [MaterialRequestItemInlineFormset.add_error "quantity"
          (MaterialRequestItemInlineFormset.shortage_message 1) form_over_stock]
  /\ MaterialRequestItemInlineFormset.clean [form_deleted_blank; form_over_stock]
     = [form_deleted_blank; form_over_stock]
  /\ MaterialRequestItemInlineFormset.formset_is_valid
       [form_deleted_blank; form_over_stock] = true
  /\ (exists db1,
        MaterialRequestItemInlineFormset.submit 1
          [form_deleted_blank; form_over_stock] ledger_short_second
        = (Returns true, db1)
        /\ items db1 = [MaterialRequestItem.mk 2 1 2 5; MaterialRequestItem.mk 3 1 2 5]
        /\ quantity_of 2 db1 = Some 1)
  /\ MaterialRequestItemInlineFormset.clean [form_blank; form_over_stock]
     = [form_blank; form_over_stock]
  /\ MaterialRequestItemInlineFormset.submit 1 [form_blank; form_over_stock]
       ledger_short_second
     = (Returns false, ledger_short_second).
Proof.
  repeat split; try (vm_compute; reflexivity).
  eexists. split; [vm_compute; reflexivity |].
  split; vm_compute; reflexivity.
Qed.

(** ** A failing audit log *)

Section AnyManager.

Context (manager : AuditLogManager).
Context {X : Type} (table : Database -> X).
Hypothesis table_set_stocks : forall l db, table (set_stocks l db) = table db.
Hypothesis create_keeps : forall entry, keeps table (objects_create entry).

Lemma audit_log_save_update_keeps instance created :
  keeps table (audit_log_save_update instance created).
Proof.
  unfold audit_log_save_update.
  destruct (instance_user instance); [apply create_keeps | apply keeps_ret].
Qed.

Lemma DepartmentMaterialStock_save_keeps r :
  keeps table (DepartmentMaterialStock_save r).
Proof.
  intros db. unfold DepartmentMaterialStock_save.
  now rewrite audit_log_save_update_keeps, table_set_stocks.
Qed.

Lemma deduct_item_keeps instance item : keeps table (deduct_item instance item).
Proof.
  unfold deduct_item.
  apply keeps_bind; [intros db; reflexivity |]. intros referenced.
  apply keeps_bind; [intros db; reflexivity |]. intros department_stock.
  destruct (_ >? _); [intros db; reflexivity |].
  apply DepartmentMaterialStock_save_keeps.
Qed.

Lemma update_stock_keeps instance created :
  keeps table (update_stock instance created).
Proof.
  unfold update_stock.
  destruct (MaterialRequestModel.approval_status _); try apply keeps_ret.
  destruct (created || _); [| apply keeps_ret].
  intros db.
  apply (keeps_for_each table (deduct_item instance)
           (materialrequestitem_set instance db)).
  intros x; apply deduct_item_keeps.
Qed.

End AnyManager.

Lemma deduct_item_under_failure instance item dbf dbo dbo' :
  same_ledger dbf dbo ->
  @deduct_item table_manager instance item dbo = (Returns tt, dbo') ->
  (exists dbf', @deduct_item failing_manager instance item dbf
                = (Raises OperationalError, dbf'))
  \/ (exists dbf', @deduct_item failing_manager instance item dbf
                   = (Returns tt, dbf') /\ same_ledger dbf' dbo').
Proof.
  intros [Hs Hi].
  unfold deduct_item, bind, MaterialRequestItem_material,
    DepartmentMaterialStock_objects_get. rewrite Hs.
  destruct (get_one (filter _ (stocks dbo))) as [referenced | e]; [| discriminate].
  destruct (get_one (filter _ (stocks dbo))) as [department_stock | e];
    [| discriminate].
  destruct (_ >? _); [discriminate |].
  unfold DepartmentMaterialStock_save, audit_log_save_update, raise. rewrite Hs.
  destruct (instance_user _) as [u |]; simpl.
  - intros _. left. eexists; reflexivity.
  - intros H. inversion H; subst. right. eexists. split; [reflexivity |].
    split; simpl; [reflexivity | exact Hi].
Qed.

Lemma for_each_under_failure instance xs : forall dbf dbo dbo',
  same_ledger dbf dbo ->
  for_each (@deduct_item table_manager instance) xs dbo = (Returns tt, dbo') ->
  (exists dbf', for_each (@deduct_item failing_manager instance) xs dbf
                = (Raises OperationalError, dbf'))
  \/ (exists dbf', for_each (@deduct_item failing_manager instance) xs dbf
                   = (Returns tt, dbf') /\ same_ledger dbf' dbo').
Proof.
  induction xs as [| x xs IH]; intros dbf dbo dbo' Hsame; simpl.
  - intros H; inversion H; subst. right. eexists; split; [reflexivity | exact Hsame].
  - unfold bind at 1.
    destruct (@deduct_item table_manager instance x dbo) as [[[] | e] dbo1] eqn:Hx;
      [| discriminate].
    intros Hrest.
    destruct (deduct_item_under_failure _ _ _ _ _ Hsame Hx)
      as [[dbf1 Hf] | [dbf1 [Hf Hsame1]]]; unfold bind; rewrite Hf.
    + left; eexists; reflexivity.
    + exact (IH _ _ _ Hsame1 Hrest).
Qed.

Lemma update_stock_under_failure instance created db dbo' :
  @update_stock table_manager instance created db = (Returns tt, dbo') ->
  (exists dbf', @update_stock failing_manager instance created db
                = (Raises OperationalError, dbf'))
  \/ (exists dbf', @update_stock failing_manager instance created db
                   = (Returns tt, dbf')).
Proof.
  unfold update_stock.
  destruct (MaterialRequestModel.approval_status _);
    try (intros _; right; eexists; reflexivity).
  destruct (created || _); [| intros _; right; eexists; reflexivity].
  intros H.
  destruct (for_each_under_failure instance _ db db dbo' (conj eq_refl eq_refl) H)
    as [[dbf' Hf] | [dbf' [Hf _]]]; [left | right]; eexists; exact Hf.
Qed.

Lemma failing_create_keeps {X} (table : Database -> X) entry :
  keeps table (@objects_create failing_manager entry).
Proof. intros db; reflexivity. Qed.

Lemma table_create_keeps_requests entry :
  keeps requests (@objects_create table_manager entry).
Proof. intros db; reflexivity. Qed.

Lemma save_base_fields self db saved db' :
  save_base self db = (Returns saved, db') ->
  MaterialRequestModel.fields (fst saved) = MaterialRequestModel.fields self
  /\ audit_logs db' = audit_logs db.
Proof.
  unfold save_base.
  destruct (request_number_taken _ _ _); [discriminate |].
  destruct (MaterialRequestModel.pk self) as [id |].
  - destruct (existsb _ _); intros H; inversion H; subst; split; reflexivity.
  - intros H; inversion H; subst; split; reflexivity.
Qed.

Lemma before_first_save_creator today self db :
  match fst (before_first_save today self db) with
  | Returns self1 =>
      MaterialRequestModel.creator (MaterialRequestModel.fields self1)
      = MaterialRequestModel.creator (MaterialRequestModel.fields self)
  | Raises _ => True
  end.
Proof.
  unfold before_first_save, bind, ret.
  destruct (negb _); [| reflexivity].
  destruct (String.eqb _ _); [| reflexivity].
  destruct (generate_request_number today db) as [[number | e] dbg]; simpl; trivial.
Qed.

(** C8 (amended).  The audit receiver has no handler around its append.
    When the append fails, saving a stock row with a creator raises the
    failure to the caller; the row is written as in a successful save and
    the audit log gains nothing.  Saving a request with a creator, in any
    case where the save would return with a working audit log, raises the
    failure to the caller as well; the request row is stored as in the
    successful save and the audit log gains nothing. *)
Theorem audit_failure_reaches_the_caller :
  (forall r db user,
     DepartmentMaterialStock.creator r = Some user ->
     exists db',
       @DepartmentMaterialStock_save failing_manager r db
       = (Raises OperationalError, db')
       /\ stocks db' = stocks (snd (@DepartmentMaterialStock_save table_manager r db))
       /\ audit_logs db' = audit_logs db)
  /\ (forall today self db user saved db_ok,
        MaterialRequestModel.creator (MaterialRequestModel.fields self) = Some user ->
        @MaterialRequestModel_save table_manager today self db
        = (Returns saved, db_ok) ->
        exists db',
          @MaterialRequestModel_save failing_manager today self db
          = (Raises OperationalError, db')
          /\ requests db' = requests db_ok
          /\ audit_logs db' = audit_logs db).
Proof.
  split.
  - intros r db user Hu. eexists. split; [| split].
    + unfold DepartmentMaterialStock_save, audit_log_save_update.
      unfold instance_user; simpl. rewrite Hu. reflexivity.
    + rewrite DepartmentMaterialStock_save_stocks. reflexivity.
    + reflexivity.
  - intros today self db user saved db_ok Hu.
    unfold MaterialRequestModel_save, bind.
    pose proof (before_first_save_keeps (fun d => d) today self db) as Hdb.
    pose proof (before_first_save_creator today self db) as Hcr.
    destruct (before_first_save today self db) as [[self1 | e] db1];
      [| discriminate].
    simpl in Hdb. subst db1. rewrite Hu in Hcr. simpl in Hcr.
    destruct (save_base self1 db) as [[saved1 | e] db2] eqn:Hbase; [| discriminate].
    destruct (save_base_fields _ _ _ _ Hbase) as [Hfields Haudit].
    pose proof (update_stock_keeps table_manager requests
                  (fun _ _ => eq_refl) table_create_keeps_requests
                  (fst saved1) (snd saved1) db2) as Hreq_ok.
    pose proof (update_stock_keeps failing_manager requests
                  (fun _ _ => eq_refl) (failing_create_keeps requests)
                  (fst saved1) (snd saved1) db2) as Hreq_f.
    pose proof (update_stock_keeps failing_manager audit_logs
                  (fun _ _ => eq_refl) (failing_create_keeps audit_logs)
                  (fst saved1) (snd saved1) db2) as Haud_f.
    destruct (@update_stock table_manager (fst saved1) (snd saved1) db2)
      as [[[] | e] db3] eqn:Hok; [| discriminate].
    simpl in Hreq_ok.
    intros Hrest.
    assert (Hreq : requests db_ok = requests db2).
    { rewrite audit_log_save_update_eq in Hrest.
      destruct (instance_user _); inversion Hrest; subst; simpl; exact Hreq_ok. }
    destruct (update_stock_under_failure _ _ _ _ Hok) as [[dbf Hf] | [dbf Hf]];
      rewrite Hf in *; simpl in Hreq_f, Haud_f.
    + eexists. split; [reflexivity |]. split; congruence.
    + unfold audit_log_save_update, instance_user. simpl.
      rewrite Hfields, Hcr. simpl.
      eexists. split; [reflexivity |]. split; congruence.
Qed.

Lemma audit_failure_reaches_the_caller_witness :
  (exists db',
     @DepartmentMaterialStock_save failing_manager
       (DepartmentMaterialStock.mk 1 1 material_M 9 2 (Some 7%nat)) ledger_one_item
     = (Raises OperationalError, db')
     /\ quantity_of 1 db' = Some 9)
  /\ (exists db',
        @MaterialRequestModel_save failing_manager jan5
          (MaterialRequestModel.mk (Some 1%nat)
             (request_columns "WL20240105001" nopass) (Some approving))
          ledger_one_item
        = (Raises OperationalError, db')
        /\ requests db' = [(1%nat, request_columns "WL20240105001" nopass)]).
Proof.
  destruct audit_failure_reaches_the_caller as [Hstock Hrequest].
  split.
  - destruct (Hstock (DepartmentMaterialStock.mk 1 1 material_M 9 2 (Some 7%nat))
                ledger_one_item 7%nat eq_refl) as (db' & Hraise & Hrows & _).
    exists db'. split; [exact Hraise |].
    unfold quantity_of. rewrite Hrows. reflexivity.
  - destruct (Hrequest jan5
                (MaterialRequestModel.mk (Some 1%nat)
                   (request_columns "WL20240105001" nopass) (Some approving))
                ledger_one_item 7%nat _ _ eq_refl eq_refl)
      as (db' & Hraise & Hrows & _).
    exists db'. split; [exact Hraise | exact Hrows].
Defined.

(** C8, as stated, fails.  Request 1 asks for 4 of M and 5 of N, both in
    stock.  With a working audit log the approval returns and leaves 6 of
    M and 5 of N.  With a failing one the same approval raises
    [OperationalError] to its caller after the first line: M is at 6, N
    still at 10, and the request is stored as [passed]. *)
Lemma audit_failure_changes_the_outcome :
  exists self db_ok db_fail,
    decide_request jan5 1 passed ledger_two_items = (Returns self, db_ok)
    /\ @decide_request failing_manager jan5 1 passed ledger_two_items
       = (Raises OperationalError, db_fail)
    /\ quantity_of 1 db_ok = Some 6 /\ quantity_of 2 db_ok = Some 5
    /\ quantity_of 1 db_fail = Some 6 /\ quantity_of 2 db_fail = Some 10
    /\ requests db_fail = [(1%nat, request_columns "WL20240105001" passed)].
Proof.
  eexists; eexists; eexists.
  split; [vm_compute; reflexivity |].
  split; [vm_compute; reflexivity |].
  repeat split; vm_compute; reflexivity.
Qed.

(** ** Saving a request that was loaded as [passed] *)

Lemma before_first_save_shape today self db :
  match fst (before_first_save today self db) with
  | Returns self1 =>
      MaterialRequestModel.pk self1 = MaterialRequestModel.pk self
      /\ MaterialRequestModel.approval_status (MaterialRequestModel.fields self1)
         = MaterialRequestModel.approval_status (MaterialRequestModel.fields self)
      /\ (MaterialRequestModel.original_approval_status self1
          = MaterialRequestModel.original_approval_status self
          \/ MaterialRequestModel.original_approval_status self1
             = Some (MaterialRequestModel.approval_status
                       (MaterialRequestModel.fields self)))
  | Raises _ => True
  end.
Proof.
  unfold before_first_save, bind, ret.
  destruct (negb _); [| simpl; auto].
  destruct (String.eqb _ _); [| simpl; auto].
  destruct (generate_request_number today db) as [[number | e] dbg]; simpl; auto.
Qed.

Lemma save_base_of_stored_row self id db :
  MaterialRequestModel.pk self = Some id ->
  existsb (fun row => Nat.eqb (fst row) id) (requests db) = true ->
  match fst (save_base self db) with
  | Returns saved => saved = (self, false)
  | Raises _ => True
  end.
Proof.
  intros Hpk Hrow. unfold save_base. rewrite Hpk, Hrow.
  destruct (request_number_taken _ _ _); simpl; trivial.
Qed.

(** X2.  A request that is loaded from its row in status [passed] and saved
    leaves every stock row as it was: the deduction runs only for an
    instance whose original status is not [passed]. *)
Lemma resave_after_reload_keeps_stocks today id db self db1 :
  MaterialRequestModel_objects_get today id db = (Returns self, db1) ->
  MaterialRequestModel.approval_status (MaterialRequestModel.fields self) = passed ->
  stocks (snd (MaterialRequestModel_save today self db1)) = stocks db.
Proof.
  unfold MaterialRequestModel_objects_get.
  intros Hget Hpassed.
  destruct (get_one _) as [[i c] | e] eqn:Hrow; [| discriminate].
  assert (Hexists : existsb (fun row => Nat.eqb (fst row) id) (requests db) = true).
  { apply get_one_filter_In in Hrow. destruct Hrow as [Hin Hid].
    apply existsb_exists. exists (i, c). split; assumption. }
  assert (Hself : db1 = db
                  /\ MaterialRequestModel.pk self = Some id
                  /\ MaterialRequestModel.original_approval_status self
                     = Some (MaterialRequestModel.approval_status
                               (MaterialRequestModel.fields self))).
  { pose proof (MaterialRequestModel_init_keeps (fun d => d) today (Some id) c db)
      as Hk.
    rewrite Hget in Hk. simpl in Hk. split; [exact Hk |].
    revert Hget. unfold MaterialRequestModel_init, bind, ret.
    destruct (negb _).
    - destruct (generate_request_number today db) as [[number | e] dbg];
        [| discriminate].
      intros H; inversion H; subst; simpl; auto.
    - intros H; inversion H; subst; simpl; auto. }
  destruct Hself as (-> & Hpk & Horiginal).
  rewrite Hpassed in Horiginal.
  unfold MaterialRequestModel_save, bind.
  pose proof (before_first_save_keeps stocks today self db) as Hk1.
  pose proof (before_first_save_keeps requests today self db) as Hk1r.
  pose proof (before_first_save_shape today self db) as Hshape.
  destruct (before_first_save today self db) as [[self1 | e] db2];
    simpl in Hk1, Hk1r, Hshape; [| exact Hk1].
  destruct Hshape as (Hpk1 & Hst1 & Ho1).
  assert (Horiginal1 : MaterialRequestModel.original_approval_status self1
                       = Some passed).
  { destruct Ho1 as [-> | ->]; [exact Horiginal | now rewrite Hpassed]. }
  pose proof (save_base_keeps_stocks self1 db2) as Hk2.
  pose proof (save_base_of_stored_row self1 id db2) as Hsaved.
  rewrite Hpk1, Hk1r in Hsaved. specialize (Hsaved Hpk Hexists).
  destruct (save_base self1 db2) as [[saved | e] db3]; simpl in Hk2, Hsaved;
    [| simpl; congruence].
  subst saved. simpl.
  rewrite (update_stock_skipped self1 db3 Horiginal1).
  pose proof (audit_log_save_update_keeps_stocks
                (Instance_of_request
                   match MaterialRequestModel.pk self1 with
                   | Some id0 => id0
                   | None => 0%nat
                   end (MaterialRequestModel.fields self1)) false db3) as Hk3.
  destruct (audit_log_save_update _ false db3) as [[[] | e] db4];
    simpl in Hk3 |- *; congruence.
Qed.

(** The first request of January 5th is numbered [WL20240105001], the
    second [WL20240105002], and the first of January 6th
    [WL20240106001]. *)
Lemma numbers_restart_each_day :
  exists first second db1 db2,
    create_request jan5 (request_columns "" approving) empty_database
    = (Returns first, db1)
    /\ create_request jan5 (request_columns "" approving) db1
       = (Returns second, db2)
    /\ MaterialRequestModel.request_number (MaterialRequestModel.fields first)
       = "WL20240105001"
    /\ MaterialRequestModel.request_number (MaterialRequestModel.fields second)
       = "WL20240105002"
    /\ fst (generate_request_number jan6 db2) = Returns "WL20240106001".
Proof.
  do 4 eexists.
  split; [vm_compute; reflexivity |].
  split; [vm_compute; reflexivity |].
  repeat split.
Qed.

(** ** Request numbers below the thousandth of a day *)

Lemma counters_ordered_true : pairwise_lt (map counter (seq 1 999)) = true.
Proof. vm_compute. reflexivity. Qed.

Lemma pairwise_lt_nth l :
  pairwise_lt l = true ->
  forall i j, (i < j < List.length l)%nat ->
              String.ltb (nth i l "") (nth j l "") = true.
Proof.
  induction l as [| x l IH]; simpl; intros H i j Hij; [lia |].
  apply andb_prop in H. destruct H as [Hx Hl].
  destruct j as [| j]; [lia |].
  destruct i as [| i].
  - rewrite forallb_forall in Hx. apply Hx, nth_In. lia.
  - apply IH; [exact Hl | lia].
Qed.

Lemma counter_lt i j :
  (1 <= i < j)%nat -> (j <= 999)%nat -> String.ltb (counter i) (counter j) = true.
Proof.
  intros Hi Hj.
  pose proof (pairwise_lt_nth _ counters_ordered_true (i - 1) (j - 1)) as H.
  rewrite length_map, length_seq in H. specialize (H ltac:(lia)).
  rewrite (nth_indep _ "" (counter O)), (nth_indep _ "" (counter O) (n := (j - 1)%nat))
    in H by (rewrite length_map, length_seq; lia).
  rewrite !map_nth, !seq_nth in H by lia.
  replace (1 + (i - 1))%nat with i in H by lia.
  replace (1 + (j - 1))%nat with j in H by lia.
  exact H.
Qed.

Lemma counters_parse_true : forallb parses (seq 1 999) = true.
Proof. vm_compute. reflexivity. Qed.
Lemma counter_parses k :
  (1 <= k <= 999)%nat ->
  has_char "W" (counter k) = false /\ Py.int (counter k) = Some (Z.of_nat k).
Proof.
  intros Hk.
  assert (H : parses k = true).
  { apply (proj1 (forallb_forall parses (seq 1 999)) counters_parse_true).
    apply in_seq. lia. }
  unfold parses in H.
  apply andb_prop in H. destruct H as [Hw Hi].
  split; [apply negb_true_iff in Hw; exact Hw |].
  destruct (Py.int (counter k)) as [z |]; [| discriminate Hi].
  apply Z.eqb_eq in Hi. rewrite Hi. reflexivity.
Qed.

Lemma ascii_compare_refl c : Ascii.compare c c = Eq.
Proof.
  pose proof (Ascii.compare_antisym c c) as H.
  destruct (Ascii.compare c c); simpl in H; congruence.
Qed.

Lemma compare_app p a b : String.compare (p ++ a) (p ++ b) = String.compare a b.
Proof.
  induction p as [| c p IH]; simpl; [reflexivity |].
  now rewrite ascii_compare_refl.
Qed.

Lemma prefix_app p s : String.prefix p (p ++ s) = true.
Proof.
  induction p as [| c p IH]; simpl.
  - destruct s; reflexivity.
  - destruct (ascii_dec c c); [exact IH | congruence].
Qed.

Lemma split_go_skip sep cur t s :
  Py.split_go sep (String.length t) cur (t ++ s) = Py.split_go sep 0 cur s.
Proof.
  induction t as [| c t IH]; simpl; [reflexivity | exact IH].
Qed.

Lemma append_char_assoc cur x s : (cur ++ String x "") ++ s = cur ++ String x s.
Proof. induction cur as [| c cur IH]; simpl; [reflexivity | now rewrite IH]. Qed.

Lemma append_empty s : s ++ "" = s.
Proof. induction s as [| c s IH]; simpl; [reflexivity | now rewrite IH]. Qed.

Lemma split_go_no_match c sep s : forall cur,
  has_char c s = false ->
  Py.split_go (String c sep) 0 cur s = [cur ++ s].
Proof.
  induction s as [| x s IH]; intros cur H.
  - simpl. now rewrite append_empty.
  - simpl in H. apply orb_false_iff in H. destruct H as [Hx Hs].
    cbn [Py.split_go String.prefix].
    destruct (ascii_dec c x) as [-> | _].
    + now rewrite Ascii.eqb_refl in Hx.
    + rewrite (IH _ Hs). now rewrite append_char_assoc.
Qed.

Lemma split_prefixed c sep s :
  has_char c s = false ->
  Py.last_piece (Py.split (String c sep ++ s) (String c sep)) = s.
Proof.
  intros H. unfold Py.split.
  change (String c sep ++ s) with (String c (sep ++ s)).
  cbn [Py.split_go].
  change (String c (sep ++ s)) with (String c sep ++ s).
  rewrite prefix_app.
  cbn [String.length]. rewrite Nat.sub_1_r. cbn [Nat.pred].
  rewrite split_go_skip, (split_go_no_match c sep s "" H). reflexivity.
Qed.

Lemma leb_refl s : String.leb s s = true.
Proof.
  unfold String.leb.
  assert (H : String.compare s s = Eq).
  { induction s as [| c s IH]; simpl; [reflexivity |].
    now rewrite ascii_compare_refl. }
  now rewrite H.
Qed.

Lemma ltb_leb a b : String.ltb a b = true -> String.leb a b = true.
Proof. unfold String.ltb, String.leb. destruct (String.compare a b); congruence. Qed.

Lemma last_by_request_number_greatest M rows : forall best,
  (forall x, In x rows -> String.leb (number_of x) M = true) ->
  (forall b, best = Some b -> String.leb (number_of b) M = true) ->
  (exists b, best = Some b /\ number_of b = M)
  \/ (exists x, In x rows /\ number_of x = M) ->
  exists r,
    fold_left
      (fun best row =>
         match best with
         | None => Some row
         | Some b =>
             if String.leb (MaterialRequestModel.request_number (snd b))
                  (MaterialRequestModel.request_number (snd row))
             then Some row else Some b
         end) rows best = Some r
    /\ number_of r = M.
Proof.
  induction rows as [| x rows IH]; intros best Hrows Hbest Hmax; simpl.
  - destruct Hmax as [(b & -> & Hb) | (x & [] & _)]. now exists b.
  - apply IH.
    + intros y Hy. apply Hrows. now right.
    + intros b. destruct best as [b0 |].
      * destruct (String.leb _ _); intros H; inversion H; subst.
        -- apply Hrows. now left.
        -- now apply Hbest.
      * intros H; inversion H; subst. apply Hrows. now left.
    + destruct Hmax as [(b & -> & Hb) | (y & [<- | Hy] & Hnum)].
      * fold (number_of b) (number_of x).
        destruct (String.leb (number_of b) (number_of x)) eqn:Hle.
        -- left. exists x. split; [reflexivity |].
           apply String.leb_antisym; [apply Hrows; now left | now rewrite <- Hb].
        -- left. now exists b.
      * left. destruct best as [b0 |].
        -- fold (number_of b0) (number_of x). rewrite Hnum.
           rewrite (Hbest b0 eq_refl). now exists x.
        -- now exists x.
      * right. now exists y.
Qed.

(** The generator on a day whose counters run from [001] to [n]. *)
Lemma generator_next_number today db n :
  (n < 999)%nat ->
  (forall row, In row (requests db) ->
     Py.startswith (number_of row) (request_prefix today) = true ->
     exists k, (1 <= k <= n)%nat
               /\ number_of row = request_prefix today ++ counter k) ->
  (n = O \/ exists row, In row (requests db)
                        /\ number_of row = request_prefix today ++ counter n) ->
  generate_request_number today db
  = (Returns (request_prefix today ++ counter (S n)), db)
  /\ forall row, In row (requests db) ->
       Py.startswith (number_of row) (request_prefix today) = true ->
       String.ltb (number_of row) (request_prefix today ++ counter (S n)) = true.
Proof.
  intros Hn Hday Hlast. split.
  - unfold generate_request_number. fold number_of.
    set (todays := filter _ (requests db)).
    assert (Htodays : forall x, In x todays ->
              exists k, (1 <= k <= n)%nat
                        /\ number_of x = request_prefix today ++ counter k).
    { intros x Hx. apply filter_In in Hx. destruct Hx as [Hin Hp].
      now apply Hday. }
    destruct n as [| n].
    + destruct todays as [| x rest]; [reflexivity |].
      destruct (Htodays x (or_introl eq_refl)) as (k & Hk & _). lia.
    + destruct Hlast as [Hz | (row & Hrow & Hnum)]; [discriminate |].
      destruct (last_by_request_number_greatest
                  (request_prefix today ++ counter (S n)) todays None)
        as ([i c] & Hfold & Hr).
      * intros x Hx. destruct (Htodays x Hx) as (k & Hk & ->).
        destruct (Nat.eq_dec k (S n)) as [-> | Hne]; [apply leb_refl |].
        apply ltb_leb. unfold String.ltb. rewrite compare_app.
        apply (counter_lt k (S n)); lia.
      * discriminate.
      * right. exists row. split; [| exact Hnum].
        apply filter_In. split; [exact Hrow |].
        fold (number_of row). rewrite Hnum. apply prefix_app.
      * unfold last_by_request_number. rewrite Hfold.
        unfold number_of in Hr. cbn [snd] in Hr. rewrite Hr.
        destruct (counter_parses (S n) ltac:(lia)) as [Hw Hint].
        change (request_prefix today)
          with (String "W" (String "L" (strftime_Ymd today))).
        rewrite (split_prefixed "W" _ _ Hw), Hint.
        unfold counter. rewrite (Nat2Z.inj_succ (S n)). reflexivity.
  - intros row Hrow Hp.
    destruct (Hday row Hrow Hp) as (k & Hk & ->).
    unfold String.ltb. rewrite compare_app.
    apply (counter_lt k (S n)); lia.
Qed.

(** X1.  While the counters of the day run from [001] to [n] with [n] below
    999, the generator returns the day's prefix followed by the counter of
    [n + 1], which is above every number of the day in the table and so
    carried by no stored request. *)
Theorem generator_counts_up today db n :
  (n < 999)%nat ->
  (forall row, In row (requests db) ->
     Py.startswith (number_of row) (request_prefix today) = true ->
     exists k, (1 <= k <= n)%nat
               /\ number_of row = request_prefix today ++ counter k) ->
  (n = O \/ exists row, In row (requests db)
                        /\ number_of row = request_prefix today ++ counter n) ->
  generate_request_number today db
  = (Returns (request_prefix today ++ counter (S n)), db)
  /\ forall row, In row (requests db) ->
       Py.startswith (number_of row) (request_prefix today) = true ->
       String.ltb (number_of row) (request_prefix today ++ counter (S n)) = true.
Proof. exact (generator_next_number today db n). Qed.


(** ** The entry of a saved request *)


(** ** What a deduction changes *)

Lemma same_id_same_row (l : list DepartmentMaterialStock.t) a b :
  NoDup (map DepartmentMaterialStock.id l) ->
  In a l -> In b l -> DepartmentMaterialStock.id a = DepartmentMaterialStock.id b ->
  a = b.
Proof.
  induction l as [| x l IH]; simpl; intros Hnd Ha Hb Hid; [contradiction |].
  inversion Hnd as [| ? ? Hx Hl]; subst.
  destruct Ha as [-> | Ha], Hb as [-> | Hb]; auto.
  - exfalso. apply Hx. rewrite Hid. now apply in_map.
  - exfalso. apply Hx. rewrite <- Hid. now apply in_map.
Qed.

Lemma replace_stock_absent r l :
  ~ In (DepartmentMaterialStock.id r) (map DepartmentMaterialStock.id l) ->
  replace_stock r l = l.
Proof.
  induction l as [| x l IH]; simpl; intros H; [reflexivity |].
  destruct (Nat.eqb_spec (DepartmentMaterialStock.id x) (DepartmentMaterialStock.id r))
    as [Heq | _].
  - exfalso. apply H. now left.
  - f_equal. apply IH. intros Hin. apply H. now right.
Qed.

Lemma replace_stock_quantity q' ds l :
  NoDup (map DepartmentMaterialStock.id l) -> In ds l ->
  total_quantity (replace_stock (DepartmentMaterialStock.with_quantity q' ds) l)
  = total_quantity l - DepartmentMaterialStock.quantity ds + q'
  /\ map row_identity (replace_stock (DepartmentMaterialStock.with_quantity q' ds) l)
     = map row_identity l.
Proof.
  induction l as [| x l IH]; simpl; intros Hnd Hin; [contradiction |].
  inversion Hnd as [| ? ? Hx Hl]; subst.
  destruct Hin as [-> | Hin].
  - rewrite Nat.eqb_refl. rewrite replace_stock_absent by exact Hx.
    simpl. split; [lia | reflexivity].
  - destruct (Nat.eqb_spec (DepartmentMaterialStock.id x) (DepartmentMaterialStock.id ds))
      as [Heq | _].
    + exfalso. apply Hx. rewrite Heq. now apply in_map.
    + destruct (IH Hl Hin) as [Ht Hi]. fold (replace_stock (DepartmentMaterialStock.with_quantity q' ds) l).
      simpl. rewrite Ht, Hi. split; [lia | reflexivity].
Qed.

Lemma row_identity_ids l l' :
  map row_identity l' = map row_identity l ->
  map DepartmentMaterialStock.id l' = map DepartmentMaterialStock.id l.
Proof.
  intros H.
  assert (E : forall m, map DepartmentMaterialStock.id m
                        = map (fun t => fst (fst (fst (fst t)))) (map row_identity m)).
  { intros m. rewrite map_map. reflexivity. }
  now rewrite (E l'), (E l), H.
Qed.

Lemma deduct_item_returns instance item db db' :
  NoDup (map DepartmentMaterialStock.id (stocks db)) ->
  deduct_item instance item db = (Returns tt, db') ->
  total_quantity (stocks db')
  = total_quantity (stocks db) - MaterialRequestItem.quantity item
  /\ map row_identity (stocks db') = map row_identity (stocks db)
  /\ items db' = items db.
Proof.
  intros Hnd. unfold deduct_item, bind, MaterialRequestItem_material,
    DepartmentMaterialStock_objects_get.
  destruct (get_one (filter _ (stocks db))) as [referenced | e]; [| discriminate].
  destruct (get_one (filter _ (stocks db))) as [department_stock | e] eqn:Hget;
    [| discriminate].
  apply get_one_filter_In in Hget. destruct Hget as [Hin _].
  destruct (_ >? _); [discriminate |].
  intros Hsave.
  pose proof (DepartmentMaterialStock_save_stocks
                (DepartmentMaterialStock.with_quantity
                   (DepartmentMaterialStock.quantity department_stock
                      - MaterialRequestItem.quantity item) department_stock) db)
    as Hrows.
  pose proof (DepartmentMaterialStock_save_keeps table_manager items
                (fun _ _ => eq_refl) (fun _ _ => eq_refl)
                (DepartmentMaterialStock.with_quantity
                   (DepartmentMaterialStock.quantity department_stock
                      - MaterialRequestItem.quantity item) department_stock) db)
    as Hitems.
  rewrite Hsave in Hrows, Hitems. simpl in Hrows, Hitems.
  rewrite (has_stock_id_In _ _ Hin) in Hrows.
  destruct (replace_stock_quantity
              (DepartmentMaterialStock.quantity department_stock
                 - MaterialRequestItem.quantity item) department_stock
              (stocks db) Hnd Hin) as [Ht Hi].
  rewrite Hrows. split; [rewrite Ht; lia | split; [exact Hi | exact Hitems]].
Qed.

Lemma for_each_deduct_returns instance lines : forall db db',
  NoDup (map DepartmentMaterialStock.id (stocks db)) ->
  for_each (deduct_item instance) lines db = (Returns tt, db') ->
  total_quantity (stocks db')
  = total_quantity (stocks db) - requested_quantity lines
  /\ map row_identity (stocks db') = map row_identity (stocks db).
Proof.
  induction lines as [| item lines IH]; intros db db' Hnd; simpl.
  - intros H; inversion H; subst. split; [lia | reflexivity].
  - unfold bind.
    destruct (deduct_item instance item db) as [[[] | e] db1] eqn:Hitem;
      [| discriminate].
    intros Hrest.
    destruct (deduct_item_returns _ _ _ _ Hnd Hitem) as (Ht & Hi & _).
    assert (Hnd1 : NoDup (map DepartmentMaterialStock.id (stocks db1))).
    { now rewrite (row_identity_ids _ _ Hi). }
    destruct (IH _ _ Hnd1 Hrest) as [Ht' Hi'].
    split; [rewrite Ht', Ht; lia | now rewrite Hi', Hi].
Qed.

(** X4.  When the deduction of a request on its way into [passed] returns,
    the quantities of all stock rows together have gone down by exactly
    the sum of the quantities of the request's lines, and nothing but
    quantities has changed: the rows, their departments, materials,
    safety thresholds and creators are the same (primary keys being
    distinct). *)
Theorem approval_takes_the_requested_total instance created db db' :
  NoDup (map DepartmentMaterialStock.id (stocks db)) ->
  MaterialRequestModel.approval_status (MaterialRequestModel.fields instance)
  = passed ->
  created = true
  \/ MaterialRequestModel.original_approval_status instance <> Some passed ->
  update_stock instance created db = (Returns tt, db') ->
  total_quantity (stocks db')
  = total_quantity (stocks db)
    - requested_quantity (materialrequestitem_set instance db)
  /\ map row_identity (stocks db') = map row_identity (stocks db).
Proof.
  intros Hnd Hpassed Htransition.
  rewrite (update_stock_on_transition _ _ _ Hpassed Htransition).
  apply for_each_deduct_returns, Hnd.
Qed.

Lemma approval_takes_the_requested_total_witness :
  total_quantity
    (stocks (snd (update_stock
                    (MaterialRequestModel.mk (Some 1%nat)
                       (request_columns "WL20240105001" passed) (Some approving))
                    false ledger_two_items)))
  = 20 - 9.
Proof.
  apply (approval_takes_the_requested_total
           (MaterialRequestModel.mk (Some 1%nat)
              (request_columns "WL20240105001" passed) (Some approving))
           false ledger_two_items).
  - simpl. repeat constructor; simpl; intuition discriminate.
  - reflexivity.
  - right. discriminate.
  - reflexivity.
Defined.

(** ** The constraints of the stock table *)

Lemma row_identity_keys l l' :
  map row_identity l' = map row_identity l ->
  map stock_key l' = map stock_key l.
Proof.
  intros H.
  assert (E : forall m, map stock_key m
                        = map (fun t => (snd (fst (fst (fst t))),
                                         MaterialModel.id (snd (fst (fst t)))))
                            (map row_identity m)).
  { intros m. rewrite map_map. reflexivity. }
  now rewrite (E l'), (E l), H.
Qed.

Lemma stock_table_wellformed_identity d d' :
  map row_identity (stocks d') = map row_identity (stocks d) ->
  stock_table_wellformed d -> stock_table_wellformed d'.
Proof.
  intros H [Hid Hkey]. split.
  - now rewrite (row_identity_ids _ _ H).
  - now rewrite (row_identity_keys _ _ H).
Qed.

Lemma stock_table_wellformed_stocks d d' :
  stocks d' = stocks d -> stock_table_wellformed d -> stock_table_wellformed d'.
Proof. unfold stock_table_wellformed. now intros ->. Qed.

Lemma deduct_item_identity instance item db :
  NoDup (map DepartmentMaterialStock.id (stocks db)) ->
  map row_identity (stocks (snd (deduct_item instance item db)))
  = map row_identity (stocks db).
Proof.
  intros Hnd. unfold deduct_item, bind, MaterialRequestItem_material,
    DepartmentMaterialStock_objects_get.
  destruct (get_one (filter _ (stocks db))) as [referenced | e]; [| reflexivity].
  destruct (get_one (filter _ (stocks db))) as [department_stock | e] eqn:Hget;
    [| reflexivity].
  apply get_one_filter_In in Hget. destruct Hget as [Hin _].
  destruct (_ >? _); [reflexivity |].
  rewrite DepartmentMaterialStock_save_stocks. simpl.
  rewrite (has_stock_id_In _ _ Hin).
  now apply replace_stock_quantity.
Qed.

Lemma update_stock_wellformed instance created :
  preserves stock_table_wellformed (update_stock instance created).
Proof.
  unfold update_stock.
  destruct (MaterialRequestModel.approval_status _); try apply preserves_ret.
  destruct (created || _); [| apply preserves_ret].
  intros db Hdb.
  apply (preserves_for_each stock_table_wellformed (deduct_item instance)
           (materialrequestitem_set instance db)); [| exact Hdb].
  intros x d Hd.
  apply (stock_table_wellformed_identity d); [| exact Hd].
  apply deduct_item_identity, Hd.
Qed.

Lemma MaterialRequestModel_save_wellformed today self :
  preserves stock_table_wellformed (MaterialRequestModel_save today self).
Proof.
  unfold MaterialRequestModel_save.
  apply preserves_bind.
  - apply (keeps_preserves _ _ stock_table_wellformed_stocks),
      before_first_save_keeps.
  - intros self1. apply preserves_bind.
    + apply (keeps_preserves _ _ stock_table_wellformed_stocks),
        save_base_keeps_stocks.
    + intros saved. apply preserves_bind; [apply update_stock_wellformed |].
      intros _. apply preserves_bind; [| intros; apply preserves_ret].
      apply (keeps_preserves _ _ stock_table_wellformed_stocks).
      apply audit_log_save_update_keeps_stocks.
Qed.

Lemma next_id_fresh ids : ~ In (next_id ids) ids.
Proof.
  assert (H : forall x, In x ids -> (x <= fold_right Nat.max O ids)%nat).
  { induction ids as [| y ids IH]; simpl; intros x Hx; [contradiction |].
    destruct Hx as [-> | Hx]; [lia | specialize (IH x Hx); lia]. }
  intros Hin. apply H in Hin. unfold next_id in Hin. lia.
Qed.

Lemma form_errors_unique pk data db :
  DepartmentMaterialStockForm.errors pk data db = [] ->
  forall s, In s (stocks db) ->
            Some (DepartmentMaterialStock.id s) <> pk ->
            stock_key s <> (DepartmentMaterialStockForm.department data,
                            MaterialModel.id (DepartmentMaterialStockForm.material data)).
Proof.
  unfold DepartmentMaterialStockForm.errors. intros H.
  apply app_eq_nil in H. destruct H as [_ H].
  apply app_eq_nil in H. destruct H as [_ H].
  unfold DepartmentMaterialStockForm.validate_unique in H.
  destruct (existsb _ _) eqn:He; [discriminate |].
  intros s Hs Hpk Hkey.
  assert (Ht : existsb
                 (fun s0 =>
                    negb (option_nat_eqb (Some (DepartmentMaterialStock.id s0)) pk)
                    && Nat.eqb (DepartmentMaterialStock.department s0)
                         (DepartmentMaterialStockForm.department data)
                    && Nat.eqb (MaterialModel.id (DepartmentMaterialStock.material s0))
                         (MaterialModel.id (DepartmentMaterialStockForm.material data)))
                 (stocks db) = true).
  { apply existsb_exists. exists s. split; [exact Hs |].
    unfold stock_key in Hkey. inversion Hkey as [[Hd Hm]].
    rewrite !Nat.eqb_refl, !andb_true_r.
    apply negb_true_iff.
    destruct pk as [p |]; simpl; [| reflexivity].
    apply Nat.eqb_neq. intros Heq. apply Hpk. now rewrite Heq. }
  congruence.
Qed.

Lemma stocks_after_save r db :
  stocks (snd (DepartmentMaterialStock_save r db)) =
  if has_stock_id (DepartmentMaterialStock.id r) (stocks db)
  then replace_stock r (stocks db) else (stocks db ++ [r])%list.
Proof. apply DepartmentMaterialStock_save_stocks. Qed.

Lemma add_view_wellformed user data :
  preserves stock_table_wellformed (DepartmentMaterialStockAdmin.add_view user data).
Proof.
  intros db [Hid Hkey]. unfold DepartmentMaterialStockAdmin.add_view.
  destruct (DepartmentMaterialStockForm.errors None data db) eqn:He;
    [| split; assumption].
  pose proof (form_errors_unique None data db He) as Hunique.
  unfold stock_table_wellformed. rewrite stocks_after_save. simpl.
  pose proof (next_id_fresh (map DepartmentMaterialStock.id (stocks db))) as Hfresh.
  assert (Hno : has_stock_id
                  (next_id (map DepartmentMaterialStock.id (stocks db))) (stocks db)
                = false).
  { unfold has_stock_id. apply not_true_is_false. intros H.
    apply existsb_exists in H. destruct H as (s & Hs & Heq).
    apply Nat.eqb_eq in Heq. apply Hfresh. rewrite <- Heq. now apply in_map. }
  rewrite Hno. rewrite !map_app. simpl. split.
  - apply NoDup_app; [exact Hid | repeat constructor; auto |].
    intros x Hx [<- | []]. exact (Hfresh Hx).
  - apply NoDup_app; [exact Hkey | repeat constructor; auto |].
    intros k Hk [<- | []].
    apply in_map_iff in Hk. destruct Hk as (s & Hks & Hs).
    apply (Hunique s Hs); [discriminate | exact Hks].
Qed.

Lemma replace_stock_wellformed r l :
  NoDup (map DepartmentMaterialStock.id l) ->
  NoDup (map stock_key l) ->
  (forall s, In s l ->
             DepartmentMaterialStock.id s <> DepartmentMaterialStock.id r ->
             stock_key s <> stock_key r) ->
  NoDup (map DepartmentMaterialStock.id (replace_stock r l))
  /\ NoDup (map stock_key (replace_stock r l)).
Proof.
  induction l as [| x l IH]; simpl; intros Hid Hkey Hother.
  - split; constructor.
  - inversion Hid as [| ? ? Hx Hl]; subst.
    inversion Hkey as [| ? ? Hkx Hkl]; subst.
    destruct (Nat.eqb_spec (DepartmentMaterialStock.id x) (DepartmentMaterialStock.id r))
      as [Heq | Hne].
    + fold (replace_stock r l).
      rewrite replace_stock_absent by (now rewrite <- Heq).
      split.
      * constructor; [now rewrite <- Heq | exact Hl].
      * constructor; [| exact Hkl].
        intros Hin. apply in_map_iff in Hin. destruct Hin as (s & Hks & Hs).
        apply (Hother s (or_intror Hs)); [| exact Hks].
        intros Hsid. apply Hx. rewrite Heq, <- Hsid. now apply in_map.
    + fold (replace_stock r l).
      destruct (IH Hl Hkl (fun s Hs => Hother s (or_intror Hs))) as [Hid' Hkey'].
      split.
      * constructor; [| exact Hid'].
        intros Hin. apply in_map_iff in Hin. destruct Hin as (s & Hsid & Hs).
        unfold replace_stock in Hs. apply in_map_iff in Hs.
        destruct Hs as (s0 & Hs0 & Hin0).
        destruct (Nat.eqb_spec (DepartmentMaterialStock.id s0)
                    (DepartmentMaterialStock.id r)); subst s.
        -- now apply Hne.
        -- apply Hx. rewrite <- Hsid. now apply in_map.
      * constructor; [| exact Hkey'].
        intros Hin. apply in_map_iff in Hin. destruct Hin as (s & Hsk & Hs).
        unfold replace_stock in Hs. apply in_map_iff in Hs.
        destruct Hs as (s0 & Hs0 & Hin0).
        destruct (Nat.eqb_spec (DepartmentMaterialStock.id s0)
                    (DepartmentMaterialStock.id r)); subst s.
        -- apply (Hother x (or_introl eq_refl) Hne). now symmetry.
        -- apply Hkx. rewrite <- Hsk. now apply in_map.
Qed.

Lemma get_queryset_subset user db s :
  In s (DepartmentMaterialStockAdmin.get_queryset user db) -> In s (stocks db).
Proof.
  unfold DepartmentMaterialStockAdmin.get_queryset.
  destruct (is_superuser user); [trivial |].
  destruct (first_by _ _); [| contradiction].
  intros H. now apply filter_In in H.
Qed.

Lemma change_view_wellformed user object_id data :
  preserves stock_table_wellformed
    (DepartmentMaterialStockAdmin.change_view user object_id data).
Proof.
  intros db [Hid Hkey]. unfold DepartmentMaterialStockAdmin.change_view.
  destruct (get_one _) as [obj | e] eqn:Hobj; [| split; assumption].
  apply get_one_filter_In in Hobj. destruct Hobj as [Hin Hoid].
  apply get_queryset_subset in Hin. apply Nat.eqb_eq in Hoid.
  destruct (DepartmentMaterialStockForm.errors (Some object_id) data db) eqn:He;
    [| split; assumption].
  pose proof (form_errors_unique (Some object_id) data db He) as Hunique.
  unfold stock_table_wellformed. rewrite stocks_after_save. simpl.
  rewrite (has_stock_id_In _ _ Hin).
  apply replace_stock_wellformed; [exact Hid | exact Hkey |].
  simpl. intros s Hs Hne. apply (Hunique s Hs).
  intros H. inversion H. congruence.
Qed.

Lemma perform_wellformed op db :
  stock_table_wellformed db -> stock_table_wellformed (perform op db).
Proof.
  destruct op; simpl.
  - apply add_view_wellformed.
  - apply change_view_wellformed.
  - unfold create_request. apply preserves_bind.
    + apply (keeps_preserves _ _ stock_table_wellformed_stocks),
        MaterialRequestModel_init_keeps.
    + intros self; apply MaterialRequestModel_save_wellformed.
  - apply MaterialRequestModel_save_wellformed.
  - apply (keeps_preserves _ _ stock_table_wellformed_stocks), submit_keeps_stocks.
  - apply (keeps_preserves _ _ stock_table_wellformed_stocks),
      inline_apply_keeps_stocks.
Qed.

Lemma filter_key_at_most_one d m l :
  NoDup (map stock_key l) ->
  (List.length
     (filter (fun s =>
                Nat.eqb (DepartmentMaterialStock.department s) d
                && Nat.eqb (MaterialModel.id (DepartmentMaterialStock.material s)) m)
        l) <= 1)%nat.
Proof.
  induction l as [| x l IH]; simpl; intros Hnd; [lia |].
  inversion Hnd as [| ? ? Hx Hl]; subst. specialize (IH Hl).
  destruct (Nat.eqb_spec (DepartmentMaterialStock.department x) d) as [Hd |];
    simpl; [| lia].
  destruct (Nat.eqb_spec (MaterialModel.id (DepartmentMaterialStock.material x)) m)
    as [Hm |]; simpl; [| lia].
  destruct (filter _ l) as [| y rest] eqn:Hf; simpl; [lia |].
  exfalso. apply Hx.
  assert (Hy : In y (filter
                       (fun s =>
                          Nat.eqb (DepartmentMaterialStock.department s) d
                          && Nat.eqb
                               (MaterialModel.id (DepartmentMaterialStock.material s)) m)
                       l)) by (rewrite Hf; now left).
  apply filter_In in Hy. destruct Hy as [Hyl Hyk].
  apply andb_prop in Hyk. destruct Hyk as [Hyd Hym].
  apply Nat.eqb_eq in Hyd, Hym.
  apply in_map_iff. exists y. split; [| exact Hyl].
  unfold stock_key. congruence.
Qed.

(** X5.  The constraints of the stock table survive every operation:
    when primary keys are distinct and no two rows share a (department,
    material) pair, the same holds after any sequence of operations (the
    form refuses a pair that another row holds, a deduction keeps keys and
    pairs).  In such a table the lookup of [update_stock] by department
    and material never raises [MultipleObjectsReturned]. *)
Theorem stock_pairs_stay_unique :
  (forall ops db,
     stock_table_wellformed db -> stock_table_wellformed (perform_all ops db))
  /\ (forall db d m,
        stock_table_wellformed db ->
        fst (DepartmentMaterialStock_objects_get d m db)
        <> Raises MultipleObjectsReturned).
Proof.
  split.
  - intros ops. induction ops as [| op ops IH]; intros db Hdb; simpl.
    + exact Hdb.
    + apply IH, perform_wellformed, Hdb.
  - intros db d m [_ Hkey]. unfold DepartmentMaterialStock_objects_get. simpl.
    pose proof (filter_key_at_most_one d (MaterialModel.id m) _ Hkey) as Hlen.
    destruct (filter _ (stocks db)) as [| x [| y rest]]; simpl in *;
      [discriminate | discriminate | lia].
Qed.

Lemma stock_pairs_stay_unique_witness :
  stock_table_wellformed
    (perform_all
       [AddStock (mkUser 7 true)
          (DepartmentMaterialStockForm.mk 1 material_M 3 0);
        ChangeStock (mkUser 7 true) 2
          (DepartmentMaterialStockForm.mk 1 material_M 3 0);
        SaveRequest jan5
          (MaterialRequestModel.mk (Some 1%nat)
             (request_columns "WL20240105001" passed) (Some approving))]
       ledger_two_items)
  /\ fst (DepartmentMaterialStock_objects_get 1 material_M ledger_two_items)
     <> Raises MultipleObjectsReturned.
Proof.
  assert (H : stock_table_wellformed ledger_two_items).
  { split; simpl; repeat constructor; simpl; intuition discriminate. }
  split.
  - apply (proj1 stock_pairs_stay_unique), H.
  - apply (proj2 stock_pairs_stay_unique), H.
Defined.

(** ** Properties that the writes outside the requests table respect *)

Section Frame.

Variable P : Database -> Prop.
Hypothesis P_set_stocks : forall l db, P db -> P (set_stocks l db).
Hypothesis P_set_items : forall l db, P db -> P (set_items l db).
Hypothesis P_log_entry :
  forall entry db, P db -> P (set_audit_logs (audit_logs db ++ [entry])%list db).
Hypothesis P_save_base : forall self, preserves P (save_base self).

Lemma frame_audit_log_save_update instance created :
  preserves P (audit_log_save_update instance created).
Proof.
  intros db H. rewrite audit_log_save_update_eq.
  destruct (instance_user instance); [now apply P_log_entry | exact H].
Qed.

Lemma frame_audit_log_delete instance : preserves P (audit_log_delete instance).
Proof.
  intros db H. rewrite audit_log_delete_eq.
  destruct (instance_user instance); [now apply P_log_entry | exact H].
Qed.

Lemma frame_stock_save r : preserves P (DepartmentMaterialStock_save r).
Proof.
  intros db H. unfold DepartmentMaterialStock_save.
  apply frame_audit_log_save_update, P_set_stocks, H.
Qed.

Lemma frame_deduct_item instance item : preserves P (deduct_item instance item).
Proof.
  unfold deduct_item.
  apply preserves_bind; [intros db H; exact H |]. intros referenced.
  apply preserves_bind; [intros db H; exact H |]. intros department_stock.
  destruct (_ >? _); [apply preserves_raise | apply frame_stock_save].
Qed.

Lemma frame_update_stock instance created :
  preserves P (update_stock instance created).
Proof.
  unfold update_stock.
  destruct (MaterialRequestModel.approval_status _); try apply preserves_ret.
  destruct (created || _); [| apply preserves_ret].
  intros db H.
  apply (preserves_for_each P (deduct_item instance)
           (materialrequestitem_set instance db)); [| exact H].
  intros x; apply frame_deduct_item.
Qed.

Lemma frame_generate today : preserves P (generate_request_number today).
Proof. intros db H. now rewrite generate_request_number_same_database. Qed.

Lemma frame_before_first_save today self :
  preserves P (before_first_save today self).
Proof.
  intros db H.
  now rewrite (before_first_save_keeps (fun d => d) today self db).
Qed.

Lemma frame_save today self : preserves P (MaterialRequestModel_save today self).
Proof.
  unfold MaterialRequestModel_save.
  apply preserves_bind; [apply frame_before_first_save |].
  intros self1. apply preserves_bind; [apply P_save_base |].
  intros saved. apply preserves_bind; [apply frame_update_stock |].
  intros _. apply preserves_bind; [| intros; apply preserves_ret].
  apply frame_audit_log_save_update.
Qed.

Lemma frame_create_request today c : preserves P (create_request today c).
Proof.
  unfold create_request. apply preserves_bind; [| intros; apply frame_save].
  intros db H.
  now rewrite (MaterialRequestModel_init_keeps (fun d => d) today None c db).
Qed.

Lemma frame_item_save i : preserves P (MaterialRequestItem_save i).
Proof.
  intros db H. unfold MaterialRequestItem_save.
  apply frame_audit_log_save_update, P_set_items, H.
Qed.

Lemma frame_item_delete i : preserves P (MaterialRequestItem_delete i).
Proof.
  intros db H. unfold MaterialRequestItem_delete.
  apply frame_audit_log_delete, P_set_items, H.
Qed.

Lemma frame_submit request_id forms :
  preserves P (MaterialRequestItemInlineFormset.submit request_id forms).
Proof.
  unfold MaterialRequestItemInlineFormset.submit.
  destruct (MaterialRequestItemInlineFormset.formset_is_valid forms);
    [| apply preserves_ret].
  apply preserves_bind; [| intros; apply preserves_ret].
  apply preserves_for_each. intros f.
  unfold MaterialRequestItemInlineFormset.save_form.
  destruct (MaterialRequestItemInlineFormset.cleaned f) as [data |];
    [| apply preserves_ret].
  destruct (MaterialRequestItemInlineFormset.DELETE data).
  - destruct (MaterialRequestItemInlineFormset.instance f);
      [apply frame_item_delete | apply preserves_ret].
  - destruct (MaterialRequestItemInlineFormset.material data);
      [| apply preserves_ret].
    intros db. apply frame_item_save.
Qed.

Lemma frame_inline_apply p obj m :
  preserves P (MaterialRequestItemInline.apply p obj m).
Proof.
  unfold MaterialRequestItemInline.apply.
  destruct (MaterialRequestItemInline.allowed p obj m); [| apply preserves_ret].
  destruct m; (apply preserves_bind; [| intros; apply preserves_ret]);
    auto using frame_item_save, frame_item_delete.
Qed.

Lemma frame_add_view user data :
  preserves P (DepartmentMaterialStockAdmin.add_view user data).
Proof.
  intros db H. unfold DepartmentMaterialStockAdmin.add_view.
  destruct (DepartmentMaterialStockForm.errors None data db); [| exact H].
  apply frame_stock_save, H.
Qed.

Lemma frame_change_view user object_id data :
  preserves P (DepartmentMaterialStockAdmin.change_view user object_id data).
Proof.
  intros db H. unfold DepartmentMaterialStockAdmin.change_view.
  destruct (get_one _); [| exact H].
  destruct (DepartmentMaterialStockForm.errors (Some object_id) data db);
    [| exact H].
  apply frame_stock_save, H.
Qed.

Lemma frame_perform_all ops : forall db, P db -> P (perform_all ops db).
Proof.
  induction ops as [| op ops IH]; intros db H; simpl; [exact H |].
  apply IH. destruct op; simpl.
  - now apply frame_add_view.
  - now apply frame_change_view.
  - now apply frame_create_request.
  - now apply frame_save.
  - now apply frame_submit.
  - now apply frame_inline_apply.
Qed.

End Frame.

(** ** The constraints of the requests table *)

Lemma request_number_not_taken pk number rows :
  request_number_taken pk number rows = false ->
  forall row, In row rows -> Some (fst row) <> pk -> number_of row <> number.
Proof.
  unfold request_number_taken. intros H row Hrow Hpk Hnum.
  assert (Ht : existsb
                 (fun r => negb (option_nat_eqb (Some (fst r)) pk)
                           && String.eqb (MaterialRequestModel.request_number (snd r))
                                number) rows = true).
  { apply existsb_exists. exists row. split; [exact Hrow |].
    unfold number_of in Hnum. rewrite Hnum, String.eqb_refl, andb_true_r.
    apply negb_true_iff. destruct pk as [p |]; simpl; [| reflexivity].
    apply Nat.eqb_neq. intros Heq. apply Hpk. now rewrite Heq. }
  congruence.
Qed.

Lemma update_row_wellformed id c (rows : list (nat * MaterialRequestModel.columns)) :
  NoDup (map fst rows) -> NoDup (map number_of rows) ->
  (forall row, In row rows -> fst row <> id ->
               number_of row <> MaterialRequestModel.request_number c) ->
  NoDup (map fst (map (fun row => if Nat.eqb (fst row) id then (id, c) else row) rows))
  /\ NoDup (map number_of
              (map (fun row => if Nat.eqb (fst row) id then (id, c) else row) rows)).
Proof.
  intros Hid Hnum Hother. split.
  - assert (E : map fst (map (fun row => if Nat.eqb (fst row) id then (id, c) else row)
                           rows) = map fst rows).
    { rewrite map_map. apply map_ext. intros row.
      destruct (Nat.eqb_spec (fst row) id) as [-> |]; reflexivity. }
    now rewrite E.
  - induction rows as [| x rows IH]; simpl; [constructor |].
    inversion Hid as [| ? ? Hx Hl]; subst.
    inversion Hnum as [| ? ? Hnx Hnl]; subst.
    assert (Htail : forall row,
               In row (map (fun row => if Nat.eqb (fst row) id then (id, c) else row)
                         rows) ->
               (In row rows /\ fst row <> id)
               \/ (row = (id, c) /\ In id (map fst rows))).
    { intros row Hrow. apply in_map_iff in Hrow. destruct Hrow as (r0 & Hr0 & Hin0).
      destruct (Nat.eqb_spec (fst r0) id) as [Heq | Hne]; subst row.
      - right. split; [reflexivity |]. rewrite <- Heq. now apply in_map.
      - left. now split. }
    constructor.
    + intros Hin. apply in_map_iff in Hin. destruct Hin as (row & Hrn & Hrow).
      destruct (Htail row Hrow) as [[Hr Hne] | [-> Hidin]].
      * destruct (Nat.eqb_spec (fst x) id) as [Heq | Hxne].
        -- apply (Hother row (or_intror Hr) Hne). exact Hrn.
        -- apply Hnx. rewrite <- Hrn. now apply in_map.
      * destruct (Nat.eqb_spec (fst x) id) as [Heq | Hxne].
        -- apply Hx. now rewrite Heq.
        -- apply (Hother x (or_introl eq_refl) Hxne). now rewrite <- Hrn.
    + apply IH; [exact Hl | exact Hnl |].
      intros row Hrow. apply Hother. now right.
Qed.

Lemma save_base_wellformed self :
  preserves request_table_wellformed (save_base self).
Proof.
  intros db [Hid Hnum]. unfold save_base.
  destruct (request_number_taken _ _ _) eqn:Htaken; [split; assumption |].
  pose proof (request_number_not_taken _ _ _ Htaken) as Hfree.
  destruct (MaterialRequestModel.pk self) as [id |].
  - destruct (existsb _ _) eqn:Hex; simpl.
    + apply update_row_wellformed; [exact Hid | exact Hnum |].
      intros row Hrow Hne. apply (Hfree row Hrow). congruence.
    + unfold request_table_wellformed. simpl. rewrite !map_app. simpl.
      assert (Hfresh : ~ In id (map fst (requests db))).
      { intros Hin. apply in_map_iff in Hin. destruct Hin as (row & Hf & Hrow).
        assert (Ht : existsb (fun r => Nat.eqb (fst r) id) (requests db) = true).
        { apply existsb_exists. exists row. split; [exact Hrow | now apply Nat.eqb_eq]. }
        congruence. }
      split.
      * apply NoDup_app; [exact Hid | repeat constructor; auto |].
        intros x Hx [<- | []]. exact (Hfresh Hx).
      * apply NoDup_app; [exact Hnum | repeat constructor; auto |].
        intros n Hn [<- | []].
        apply in_map_iff in Hn. destruct Hn as (row & Hrn & Hrow).
        apply (Hfree row Hrow); [| exact Hrn].
        intros H. inversion H. apply Hfresh. subst id. now apply in_map.
  - unfold request_table_wellformed. simpl. rewrite !map_app. simpl.
    pose proof (next_id_fresh (map fst (requests db))) as Hfresh.
    split.
    + apply NoDup_app; [exact Hid | repeat constructor; auto |].
      intros x Hx [<- | []]. exact (Hfresh Hx).
    + apply NoDup_app; [exact Hnum | repeat constructor; auto |].
      intros n Hn [<- | []].
      apply in_map_iff in Hn. destruct Hn as (row & Hrn & Hrow).
      apply (Hfree row Hrow); [discriminate | exact Hrn].
Qed.

(** X6.  Whatever the generator returns, the stored requests keep distinct
    primary keys and distinct request numbers through any sequence of
    operations: [save] writes a row only when no other row carries its
    number. *)
Theorem stored_request_numbers_stay_unique ops db :
  request_table_wellformed db -> request_table_wellformed (perform_all ops db).
Proof.
  apply frame_perform_all.
  - intros l d H; exact H.
  - intros l d H; exact H.
  - intros entry d H; exact H.
  - apply save_base_wellformed.
Qed.

Lemma stored_request_numbers_stay_unique_witness :
  request_table_wellformed
    (perform_all
       [CreateRequest jan5 (request_columns "" approving);
        SaveRequest jan5
          (MaterialRequestModel.mk None
             (request_columns "WL20240105001" approving) None)]
       ledger_one_item).
Proof.
  apply stored_request_numbers_stay_unique.
  split; simpl; repeat constructor; simpl; intuition discriminate.
Defined.

(** ** The audit log only grows *)

Lemma log_continues_refl db : log_continues db db.
Proof. exists []. now rewrite app_nil_r. Qed.

Lemma save_base_keeps_audit_logs self : keeps audit_logs (save_base self).
Proof.
  intros db. unfold save_base.
  destruct (request_number_taken _ _ _); [reflexivity |].
  destruct (MaterialRequestModel.pk self) as [id |]; [| reflexivity].
  destruct (existsb _ _); reflexivity.
Qed.

(** X7.  No operation removes or rewrites an audit entry: after any
    sequence of operations the audit log is the earlier log followed by
    the entries written since. *)
Theorem audit_log_is_append_only ops db :
  log_continues db (perform_all ops db).
Proof.
  apply (frame_perform_all (log_continues db)).
  - intros l d H; exact H.
  - intros l d H; exact H.
  - intros entry d [entries H]. exists (entries ++ [entry])%list.
    simpl. now rewrite H, app_assoc.
  - intros self d [entries H]. exists entries.
    now rewrite save_base_keeps_audit_logs.
  - apply log_continues_refl.
Qed.

(** ** A decision writes the status and nothing else of the requests *)

Lemma filter_by_absent_pk id (rows : list (nat * MaterialRequestModel.columns)) :
  ~ In id (map fst rows) ->
  filter (fun row => Nat.eqb (fst row) id) rows = [].
Proof.
  induction rows as [| x rows IH]; simpl; intros H; [reflexivity |].
  destruct (Nat.eqb_spec (fst x) id) as [Heq | _].
  - exfalso. apply H. now left.
  - apply IH. intros Hin. apply H. now right.
Qed.

Lemma filter_by_pk id c (rows : list (nat * MaterialRequestModel.columns)) :
  NoDup (map fst rows) -> In (id, c) rows ->
  filter (fun row => Nat.eqb (fst row) id) rows = [(id, c)].
Proof.
  induction rows as [| x rows IH]; simpl; intros Hnd Hin; [contradiction |].
  inversion Hnd as [| ? ? Hx Hl]; subst.
  destruct Hin as [-> | Hin].
  - simpl. rewrite Nat.eqb_refl. f_equal. now apply filter_by_absent_pk.
  - destruct (Nat.eqb_spec (fst x) id) as [Heq | _].
    + exfalso. apply Hx. rewrite Heq.
      change id with (fst (id, c)). now apply in_map.
    + now apply IH.
Qed.

Lemma own_number_not_taken id c (rows : list (nat * MaterialRequestModel.columns)) :
  NoDup (map number_of rows) -> In (id, c) rows ->
  NoDup (map fst rows) ->
  request_number_taken (Some id) (MaterialRequestModel.request_number c) rows = false.
Proof.
  intros Hnum Hin Hid. unfold request_number_taken.
  apply not_true_is_false. intros H. apply existsb_exists in H.
  destruct H as ([i c'] & Hrow & Hcond). simpl in Hcond.
  apply andb_prop in Hcond. destruct Hcond as [Hne Heq].
  apply negb_true_iff, Nat.eqb_neq in Hne. apply String.eqb_eq in Heq.
  revert Hnum Hin Hrow. clear Hid.
  induction rows as [| x rows IH]; simpl; intros Hnum Hin Hrow; [contradiction |].
  inversion Hnum as [| ? ? Hx Hl]; subst.
  destruct Hin as [-> | Hin], Hrow as [Hr | Hrow].
  - inversion Hr. congruence.
  - apply Hx. change (number_of (id, c)) with (MaterialRequestModel.request_number c).
    rewrite <- Heq. change (MaterialRequestModel.request_number c') with (number_of (i, c')).
    now apply in_map.
  - subst x. apply Hx.
    change (number_of (i, c')) with (MaterialRequestModel.request_number c').
    rewrite Heq. change (MaterialRequestModel.request_number c) with (number_of (id, c)).
    now apply in_map.
  - now apply IH.
Qed.

Lemma objects_get_loaded today id c db :
  id <> O -> NoDup (map fst (requests db)) -> In (id, c) (requests db) ->
  MaterialRequestModel_objects_get today id db
  = (Returns (MaterialRequestModel.mk (Some id) c
                (Some (MaterialRequestModel.approval_status c))), db).
Proof.
  intros Hid Hpk Hin. unfold MaterialRequestModel_objects_get.
  rewrite (filter_by_pk id c _ Hpk Hin). simpl.
  unfold MaterialRequestModel_init.
  destruct id as [| n]; [congruence | reflexivity].
Qed.

Lemma before_first_save_loaded today self db :
  pk_truthy (MaterialRequestModel.pk self) = true ->
  before_first_save today self db = (Returns self, db).
Proof. intros H. unfold before_first_save. now rewrite H. Qed.

Lemma save_base_update self id db :
  MaterialRequestModel.pk self = Some id ->
  request_number_taken (Some id)
    (MaterialRequestModel.request_number (MaterialRequestModel.fields self))
    (requests db) = false ->
  existsb (fun row => Nat.eqb (fst row) id) (requests db) = true ->
  save_base self db
  = (Returns (self, false),
     set_requests
       (map (fun row => if Nat.eqb (fst row) id
                        then (id, MaterialRequestModel.fields self) else row)
          (requests db)) db).
Proof.
  intros Hpk Htaken Hex. unfold save_base. now rewrite Hpk, Htaken, Hex.
Qed.

(** X8.  Loading request [id] (a non-zero key of a table with distinct keys
    and numbers), setting its status and saving it rewrites the row of
    [id] with the new status and leaves every other row and every request
    number as it was, also when the deduction raises afterwards. *)
Theorem decision_writes_only_the_status today id a db c :
  id <> O ->
  request_table_wellformed db ->
  In (id, c) (requests db) ->
  requests (snd (decide_request today id a db))
  = map (fun row =>
           if Nat.eqb (fst row) id
           then (id, MaterialRequestModel.with_approval_status a c)
           else row)
      (requests db)
  /\ map number_of (requests (snd (decide_request today id a db)))
     = map number_of (requests db).
Proof.
  intros Hid [Hpk Hnum] Hin.
  assert (Hrequests :
            requests (snd (decide_request today id a db))
            = map (fun row =>
                     if Nat.eqb (fst row) id
                     then (id, MaterialRequestModel.with_approval_status a c)
                     else row) (requests db)).
  { unfold decide_request, bind.
    rewrite (objects_get_loaded today id c db Hid Hpk Hin).
    unfold MaterialRequestModel_save, bind.
    rewrite before_first_save_loaded
      by (simpl; destruct id; [congruence | reflexivity]).
    assert (Hex : existsb (fun row => Nat.eqb (fst row) id) (requests db) = true).
    { apply existsb_exists. exists (id, c). split; [exact Hin | apply Nat.eqb_refl]. }
    rewrite (save_base_update
               (set_approval_status a
                  (MaterialRequestModel.mk (Some id) c
                     (Some (MaterialRequestModel.approval_status c))))
               id db eq_refl
               (own_number_not_taken id c _ Hnum Hin Hpk) Hex).
    cbn [fst snd].
    match goal with
    | |- requests (snd (match update_stock ?i ?cr ?d with _ => _ end)) = _ =>
        pose proof (update_stock_keeps table_manager requests
                      (fun _ _ => eq_refl) table_create_keeps_requests i cr d) as Hu;
        destruct (update_stock i cr d) as [[[] | e] d3]; simpl in Hu
    end.
    - match goal with
      | |- requests (snd (match audit_log_save_update ?i ?cr ?d with _ => _ end)) = _ =>
          pose proof (audit_log_save_update_keeps table_manager requests
                        table_create_keeps_requests i cr d) as Ha;
          destruct (audit_log_save_update i cr d) as [[[] | e] d4]; simpl in Ha |- *
      end; congruence.
    - simpl. exact Hu. }
  split; [exact Hrequests |].
  rewrite Hrequests, map_map. apply map_ext_in.
  intros [i c'] Hrow. simpl.
  destruct (Nat.eqb_spec i id) as [-> |]; [| reflexivity].
  unfold number_of. simpl.
  assert (Hsame : (id, c') = (id, c)).
  { pose proof (filter_by_pk id c _ Hpk Hin) as Hf.
    assert (Hin' : In (id, c') (filter (fun row => Nat.eqb (fst row) id) (requests db))).
    { apply filter_In. split; [exact Hrow | apply Nat.eqb_refl]. }
    rewrite Hf in Hin'. destruct Hin' as [H | []]. now symmetry. }
  now inversion Hsame.
Qed.

Lemma decision_writes_only_the_status_witness :
  requests (snd (decide_request jan5 1 passed ledger_short_second))
  = [(1%nat, request_columns "WL20240105001" passed)].
Proof.
  apply (proj1 (decision_writes_only_the_status jan5 1 passed ledger_short_second
                  (request_columns "WL20240105001" approving)
                  ltac:(discriminate)
                  ltac:(split; simpl; repeat constructor; simpl; intuition discriminate)
                  ltac:(simpl; auto))).
Defined.

(** ** The properties above at work *)

Lemma generator_counts_up_witness :
  generate_request_number jan5 (requests_of_day 2)
  = (Returns "WL20240105003", requests_of_day 2).
Proof.
  apply (proj1 (generator_counts_up jan5 (requests_of_day 2) 2
                  ltac:(lia)
                  ltac:(simpl; intros row [<- | [<- | []]] _;
                        [exists 1%nat | exists 2%nat]; split;
                        [lia | reflexivity | lia | reflexivity])
                  ltac:(right;
                        exists (2%nat, request_columns "WL20240105002" approving);
                        split; [simpl; auto | reflexivity]))).
Defined.

Lemma resave_after_reload_keeps_stocks_witness :
  stocks
    (snd (MaterialRequestModel_save jan5
            (MaterialRequestModel.mk (Some 1%nat)
               (request_columns "WL20240105001" passed) (Some passed))
            (set_requests [(1%nat, request_columns "WL20240105001" passed)]
               ledger_one_item)))
  = stocks ledger_one_item.
Proof.
  apply (resave_after_reload_keeps_stocks jan5 1
           (set_requests [(1%nat, request_columns "WL20240105001" passed)]
              ledger_one_item)
           (MaterialRequestModel.mk (Some 1%nat)
              (request_columns "WL20240105001" passed) (Some passed))
           (set_requests [(1%nat, request_columns "WL20240105001" passed)]
              ledger_one_item)
           eq_refl eq_refl).
Defined.


(** ** Requests created one after another *)

Lemma prefix_of_append p s : Py.startswith (p ++ s) p = true.
Proof. apply prefix_app. Qed.

Lemma string_compare_refl s : String.compare s s = Eq.
Proof.
  induction s as [| c s IH]; simpl; [reflexivity |].
  now rewrite ascii_compare_refl.
Qed.

Lemma next_number_is_free today db n :
  (n < 999)%nat -> day_counters today db n ->
  request_number_taken None (request_prefix today ++ counter (S n)) (requests db)
  = false.
Proof.
  intros Hn [Hday Hlast]. unfold request_number_taken.
  apply not_true_is_false. intros H. apply existsb_exists in H.
  destruct H as (row & Hrow & Hcond). simpl in Hcond.
  apply String.eqb_eq in Hcond. fold (number_of row) in Hcond.
  assert (Hp : Py.startswith (number_of row) (request_prefix today) = true).
  { rewrite Hcond. apply prefix_of_append. }
  destruct (Hday row Hrow Hp) as (k & Hk & Hnum).
  assert (Hlt : String.ltb (counter k) (counter (S n)) = true)
    by (apply counter_lt; lia).
  rewrite Hnum in Hcond.
  assert (Hcmp : String.compare (request_prefix today ++ counter k)
                   (request_prefix today ++ counter (S n)) = Eq).
  { rewrite Hcond. apply string_compare_refl. }
  rewrite compare_app in Hcmp. unfold String.ltb in Hlt. now rewrite Hcmp in Hlt.
Qed.

Lemma generator_next today db n :
  (n < 999)%nat -> day_counters today db n ->
  generate_request_number today db
  = (Returns (request_prefix today ++ counter (S n)), db).
Proof.
  intros Hn [Hday Hlast].
  exact (proj1 (generator_next_number today db n Hn Hday Hlast)).
Qed.

Lemma init_new today c db number :
  generate_request_number today db = (Returns number, db) ->
  MaterialRequestModel_init today None c db
  = (Returns (MaterialRequestModel.mk None
                (MaterialRequestModel.with_request_number number c)
                (Some (MaterialRequestModel.approval_status c))), db).
Proof.
  intros H. unfold MaterialRequestModel_init, bind. simpl. now rewrite H.
Qed.

Lemma before_first_save_numbered today self db :
  MaterialRequestModel.pk self = None ->
  String.eqb (MaterialRequestModel.request_number (MaterialRequestModel.fields self))
    "" = false ->
  before_first_save today self db
  = (Returns (MaterialRequestModel.mk None
                (MaterialRequestModel.with_request_number
                   (MaterialRequestModel.request_number
                      (MaterialRequestModel.fields self))
                   (MaterialRequestModel.fields self))
                (Some (MaterialRequestModel.approval_status
                         (MaterialRequestModel.fields self)))), db).
Proof.
  intros Hpk Hnum. unfold before_first_save, bind. rewrite Hpk, Hnum. reflexivity.
Qed.

Lemma save_base_insert self db :
  MaterialRequestModel.pk self = None ->
  request_number_taken None
    (MaterialRequestModel.request_number (MaterialRequestModel.fields self))
    (requests db) = false ->
  save_base self db
  = (Returns (MaterialRequestModel.mk (Some (next_id (map fst (requests db))))
                (MaterialRequestModel.fields self)
                (MaterialRequestModel.original_approval_status self), true),
     set_requests
       (requests db ++ [(next_id (map fst (requests db)),
                         MaterialRequestModel.fields self)])%list db).
Proof.
  intros Hpk Htaken. unfold save_base. now rewrite Hpk, Htaken.
Qed.

Lemma update_stock_while_approving instance created db :
  MaterialRequestModel.approval_status (MaterialRequestModel.fields instance)
  = approving ->
  update_stock instance created db = (Returns tt, db).
Proof. intros H. unfold update_stock. now rewrite H. Qed.

(** The admin's add view on a day whose counters run up to [n]. *)
Lemma create_request_next today c db n :
  MaterialRequestModel.approval_status c = approving ->
  (n < 999)%nat -> day_counters today db n ->
  exists db',
    create_request today c db
    = (Returns (MaterialRequestModel.mk
                  (Some (next_id (map fst (requests db))))
                  (MaterialRequestModel.with_request_number
                     (request_prefix today ++ counter (S n)) c)
                  (Some approving)), db')
    /\ requests db'
       = (requests db ++
            [(next_id (map fst (requests db)),
              MaterialRequestModel.with_request_number
                (request_prefix today ++ counter (S n)) c)])%list
    /\ stocks db' = stocks db /\ items db' = items db.
Proof.
  intros Hstatus Hn Hday.
  unfold create_request, bind.
  rewrite (init_new today c db _ (generator_next today db n Hn Hday)).
  unfold MaterialRequestModel_save, bind.
  rewrite before_first_save_numbered by reflexivity.
  rewrite save_base_insert
    by (try reflexivity; apply (next_number_is_free today db n Hn Hday)).
  cbn [fst snd].
  rewrite update_stock_while_approving by exact Hstatus.
  rewrite audit_log_save_update_eq.
  cbn [MaterialRequestModel.fields MaterialRequestModel.with_request_number
       MaterialRequestModel.approval_status MaterialRequestModel.original_approval_status
       MaterialRequestModel.request_number MaterialRequestModel.department
       MaterialRequestModel.creator].
  rewrite Hstatus.
  destruct (instance_user _); unfold ret;
    eexists; (split; [reflexivity | split; [reflexivity | split; reflexivity]]).
Qed.

Lemma day_counters_after today db db1 id c n :
  day_counters today db n ->
  requests db1
  = (requests db ++
       [(id, MaterialRequestModel.with_request_number
               (request_prefix today ++ counter (S n)) c)])%list ->
  day_counters today db1 (S n).
Proof.
  intros [Hday _] Hrows. split.
  - intros row Hrow Hp. rewrite Hrows in Hrow. apply in_app_or in Hrow.
    destruct Hrow as [Hrow | [<- | []]].
    + destruct (Hday row Hrow Hp) as (k & Hk & Hnum). exists k. split; [lia | exact Hnum].
    + exists (S n). split; [lia | reflexivity].
  - right. eexists. split.
    + rewrite Hrows. apply in_or_app. right. left. reflexivity.
    + reflexivity.
Qed.

Lemma counters_sorted today len : forall a,
  (1 <= a)%nat -> (a + len <= 1000)%nat ->
  StronglySorted (fun x y => String.ltb x y = true)
    (map (fun k => request_prefix today ++ counter k) (seq a len)).
Proof.
  induction len as [| len IH]; intros a Ha Hlen; cbn [seq map]; constructor.
  - apply IH; lia.
  - apply Forall_forall. intros x Hx. apply in_map_iff in Hx.
    destruct Hx as (k & <- & Hk). apply in_seq in Hk.
    unfold String.ltb. rewrite compare_app.
    apply (counter_lt a k); lia.
Qed.

(** X9.  Requests created one after another on the same day, each left
    in [approving], get the numbers that follow the day's last counter,
    one by one and without a gap: when the numbers of the day in the table
    are the counters up to [n] and the last of the new numbers stays
    within 999, the calls all return, the new numbers are the counters
    [n+1], [n+2], ... in the order of creation, they are in ascending
    string order, which is the order of the listing and of the
    generator's own lookup, and the table is left with the counters up to
    [n] plus the number of requests created. *)
Theorem requests_of_a_day_are_numbered_in_order today cs : forall db n,
  Forall (fun c => MaterialRequestModel.approval_status c = approving) cs ->
  (n + List.length cs <= 999)%nat ->
  day_counters today db n ->
  exists rs db',
    create_requests today cs db = (Returns rs, db')
    /\ map (fun r => MaterialRequestModel.request_number (MaterialRequestModel.fields r))
         rs
       = map (fun k => request_prefix today ++ counter k)
           (seq (S n) (List.length cs))
    /\ StronglySorted (fun x y => String.ltb x y = true)
         (map (fun r => MaterialRequestModel.request_number
                          (MaterialRequestModel.fields r)) rs)
    /\ day_counters today db' (n + List.length cs).
Proof.
  induction cs as [| c cs IH]; intros db n Hall Hlen Hday.
  - exists [], db. simpl. rewrite Nat.add_0_r.
    split; [reflexivity |]. split; [reflexivity |].
    split; [apply SSorted_nil | exact Hday].
  - inversion Hall as [| ? ? Hc Hcs]; subst. simpl in Hlen.
    destruct (create_request_next today c db n Hc ltac:(lia) Hday)
      as (db1 & Hcreate & Hrows & _).
    pose proof (day_counters_after today db db1 _ c n Hday Hrows) as Hday1.
    destruct (IH db1 (S n) Hcs ltac:(lia) Hday1) as (rs & db' & Hrest & Hnums & _ & Hday').
    eexists; exists db'. simpl create_requests. unfold bind.
    rewrite Hcreate, Hrest. unfold ret.
    split; [reflexivity |].
    assert (Hlist :
              map (fun r => MaterialRequestModel.request_number
                              (MaterialRequestModel.fields r))
                (MaterialRequestModel.mk (Some (next_id (map fst (requests db))))
                   (MaterialRequestModel.with_request_number
                      (request_prefix today ++ counter (S n)) c)
                   (Some approving) :: rs)
              = map (fun k => request_prefix today ++ counter k)
                  (seq (S n) (List.length (c :: cs)))).
    { simpl. now rewrite Hnums. }
    split; [exact Hlist |]. split.
    + rewrite Hlist. apply counters_sorted; simpl; lia.
    + simpl List.length. now rewrite Nat.add_succ_r.
Qed.

Lemma requests_of_a_day_are_numbered_in_order_witness :
  exists rs db',
    create_requests jan5
      [request_columns "" approving; request_columns "" approving]
      empty_database = (Returns rs, db')
    /\ map (fun r => MaterialRequestModel.request_number (MaterialRequestModel.fields r))
         rs
       = ["WL20240105001"; "WL20240105002"].
Proof.
  destruct (requests_of_a_day_are_numbered_in_order jan5
              [request_columns "" approving; request_columns "" approving]
              empty_database 0%nat)
    as (rs & db' & Hrun & Hnumbers & _).
  - repeat constructor.
  - simpl. lia.
  - split; [intros row [] | now left].
  - exists rs, db'. split; [exact Hrun | exact Hnumbers].
Defined.

(** ** A formset whose forms are all valid *)





(** ** The stock level filter *)

(** X11.  The two options of the stock level filter split a listing in
    two: every row of the listing is in the result of exactly one of
    [warning] and [normal] (the two results together are a permutation of
    the listing), a row under [warning] has a quantity below its safety
    threshold and a row under [normal] a quantity at or above it; a row
    whose quantity equals its threshold is under [normal]. *)
Theorem stock_level_options_partition_the_listing qs :
  exists warning normal,
    InventoryStatusFilter.queryset (Some "warning") qs = Some warning
    /\ InventoryStatusFilter.queryset (Some "normal") qs = Some normal
    /\ Permutation (warning ++ normal) qs
    /\ (forall s, In s warning ->
          DepartmentMaterialStock.quantity s
          < DepartmentMaterialStock.quantity_safety s)
    /\ (forall s, In s normal ->
          DepartmentMaterialStock.quantity s
          >= DepartmentMaterialStock.quantity_safety s).
Proof.
  eexists; eexists. split; [reflexivity |]. split; [reflexivity |].
  split; [| split].
  - induction qs as [| s qs IH]; simpl; [constructor |].
    rewrite Z.geb_leb, Z.leb_antisym.
    destruct (_ <? _); simpl.
    + now constructor.
    + apply Permutation_sym, Permutation_cons_app, Permutation_sym, IH.
  - intros s Hs. apply filter_In in Hs. destruct Hs as [_ H]. now apply Z.ltb_lt.
  - intros s Hs. apply filter_In in Hs. destruct Hs as [_ H].
    rewrite Z.geb_leb in H. apply Z.leb_le in H. lia.
Qed.

(** ** Codes and models joined by a hyphen *)

Lemma split_hyphen_step cur x s :
  Py.split_go "-" 0 cur (String x s)
  = if Ascii.eqb x "-" then cur :: Py.split_go "-" 0 "" s
    else Py.split_go "-" 0 (cur ++ String x "") s.
Proof.
  cbn [Py.split_go String.prefix String.length Nat.sub].
  destruct (ascii_dec "-" x) as [<- | Hne].
  - destruct s; reflexivity.
  - destruct (Ascii.eqb_spec x "-") as [-> |]; [congruence | reflexivity].
Qed.

Lemma split_hyphen_nonempty s : forall cur, Py.split_go "-" 0 cur s <> [].
Proof.
  induction s as [| x s IH]; intros cur.
  - discriminate.
  - rewrite split_hyphen_step. destruct (Ascii.eqb x "-"); [discriminate | apply IH].
Qed.

Lemma append_assoc (a b c : string) : (a ++ b) ++ c = a ++ b ++ c.
Proof. induction a as [| x a IH]; simpl; [reflexivity | now rewrite IH]. Qed.

Lemma split_hyphen_free_head a b : forall cur,
  has_char "-" a = false ->
  Py.split_go "-" 0 cur (a ++ String "-" b)
  = (cur ++ a) :: Py.split_go "-" 0 "" b.
Proof.
  induction a as [| x a IH]; intros cur H.
  - simpl append. rewrite split_hyphen_step. simpl. now rewrite append_empty.
  - simpl in H. apply orb_false_iff in H. destruct H as [Hx Ha].
    change (String x a ++ String "-" b) with (String x (a ++ String "-" b)).
    rewrite split_hyphen_step, Hx, (IH _ Ha).
    now rewrite append_char_assoc.
Qed.

Lemma join_split_hyphen s : forall cur,
  join "-" (Py.split_go "-" 0 cur s) = cur ++ s.
Proof.
  induction s as [| x s IH]; intros cur.
  - simpl. now rewrite append_empty.
  - rewrite split_hyphen_step.
    destruct (Ascii.eqb_spec x "-") as [-> | _].
    + pose proof (split_hyphen_nonempty s "") as Hne.
      pose proof (IH "") as Hj.
      destruct (Py.split_go "-" 0 "" s) as [| p rest]; [congruence |].
      cbn [join]. cbn [join] in Hj. rewrite Hj. reflexivity.
    + rewrite IH. apply append_char_assoc.
Qed.

Lemma has_char_app c a b :
  has_char c (a ++ b) = has_char c a || has_char c b.
Proof.
  induction a as [| x a IH]; simpl; [reflexivity |].
  now rewrite IH, orb_assoc.
Qed.

Lemma split_hyphen_head_free s : forall cur,
  has_char "-" cur = false ->
  has_char "-" (hd "" (Py.split_go "-" 0 cur s)) = false.
Proof.
  induction s as [| x s IH]; intros cur H.
  - exact H.
  - rewrite split_hyphen_step.
    destruct (Ascii.eqb x "-") eqn:Hx; [exact H |].
    apply IH. rewrite has_char_app, H. simpl. now rewrite Hx.
Qed.

(** What [clean] makes of a cell: the code and the model it looks up. *)
Lemma split_code_model code model :
  has_char "-" code = false ->
  hd "" (Py.split (code ++ "-" ++ model) "-") = code
  /\ join "-" (tl (Py.split (code ++ "-" ++ model) "-")) = model
  /\ (List.length (Py.split (code ++ "-" ++ model) "-") <? 2)%nat = false.
Proof.
  intros H. unfold Py.split.
  change ("-" ++ model) with (String "-" model).
  rewrite (split_hyphen_free_head code model "" H). simpl hd. simpl tl.
  split; [reflexivity |]. split; [apply (join_split_hyphen model "") |].
  pose proof (split_hyphen_nonempty model "") as Hne.
  destruct (Py.split_go "-" 0 "" model); [congruence | reflexivity].
Qed.

(** X12.  The import reads back what the export wrote: for a material
    whose code has no hyphen and which is the only one with its code and
    model, [clean] of the cell that [render] produced returns this
    material, whatever hyphens the model has. *)
Theorem widget_reads_back_what_it_renders m materials :
  has_char "-" (MaterialModelRow.code m) = false ->
  filter (fun r => String.eqb (MaterialModelRow.code r) (MaterialModelRow.code m)
                   && String.eqb (MaterialModelRow.model r) (MaterialModelRow.model m))
    materials = [m] ->
  MaterialWidget.clean (MaterialWidget.render (Some m)) materials = Returns m.
Proof.
  intros Hcode Hrow. unfold MaterialWidget.clean, MaterialWidget.render.
  destruct (split_code_model (MaterialModelRow.code m) (MaterialModelRow.model m) Hcode)
    as (Hhd & Htl & Hlen).
  rewrite Hlen, Hhd, Htl, Hrow. reflexivity.
Qed.

Lemma widget_reads_back_what_it_renders_witness :
  MaterialWidget.clean "A1-X-200"
    [MaterialModelRow.mk 1 "A1" "X-200"; MaterialModelRow.mk 2 "A1" "X"]
  = Returns (MaterialModelRow.mk 1 "A1" "X-200").
Proof.
  exact (widget_reads_back_what_it_renders
           (MaterialModelRow.mk 1 "A1" "X-200")
           [MaterialModelRow.mk 1 "A1" "X-200"; MaterialModelRow.mk 2 "A1" "X"]
           eq_refl eq_refl).
Defined.

(** X13.  [clean] never finds a material whose code contains a hyphen:
    whatever the cell and the table of materials, a material that [clean]
    returns has a hyphen-free code, and the cell is what [render] writes
    for this material.  So the cell that [render] writes for a material
    with a hyphen in its code is never read back as this material. *)
Theorem widget_finds_no_hyphenated_code value materials m :
  MaterialWidget.clean value materials = Returns m ->
  has_char "-" (MaterialModelRow.code m) = false
  /\ value = MaterialWidget.render (Some m).
Proof.
  unfold MaterialWidget.clean, MaterialWidget.render.
  destruct (List.length (Py.split value "-") <? 2)%nat eqn:Hlen; [discriminate |].
  destruct (get_one _) as [r | e] eqn:Hget; [| destruct e; discriminate].
  intros H; inversion H; subst r.
  apply get_one_filter_In in Hget. destruct Hget as [_ Hkey].
  apply andb_prop in Hkey. destruct Hkey as [Hc Hm].
  apply String.eqb_eq in Hc, Hm. split.
  - rewrite Hc. apply split_hyphen_head_free. reflexivity.
  - rewrite Hc, Hm. unfold Py.split in *.
    pose proof (join_split_hyphen value "") as Hj.
    destruct (Py.split_go "-" 0 "" value) as [| p [| q rest]];
      [discriminate | discriminate |].
    cbn [join hd tl] in *. simpl in Hj. now rewrite <- Hj.
Qed.

Lemma widget_finds_no_hyphenated_code_witness :
  has_char "-" "A1" = false
  /\ "A1-X-200" = MaterialWidget.render (Some (MaterialModelRow.mk 1 "A1" "X-200")).
Proof.
  exact (widget_finds_no_hyphenated_code "A1-X-200"
           [MaterialModelRow.mk 1 "A1" "X-200"; MaterialModelRow.mk 2 "A1" "X"]
           (MaterialModelRow.mk 1 "A1" "X-200") eq_refl).
Defined.

(** ** The key of a code and a model in a file of materials *)

Lemma combination_injective code1 model1 code2 model2 :
  has_char "-" code1 = false -> has_char "-" code2 = false ->
  code1 ++ "-" ++ model1 = code2 ++ "-" ++ model2 ->
  code1 = code2 /\ model1 = model2.
Proof.
  intros H1 H2 Heq.
  destruct (split_code_model code1 model1 H1) as (Hh1 & Ht1 & _).
  destruct (split_code_model code2 model2 H2) as (Hh2 & Ht2 & _).
  rewrite Heq in Hh1, Ht1. split; congruence.
Qed.

(** X14.  The check of repeated (code, model) pairs in an imported file
    compares the pairs through the string [code-model].  For codes
    without a hyphen this is exact: a second row, whose key was not in the
    set before the first, is reported exactly when it has the code and the
    model of the first.  With a hyphen in a code it is not: the row
    ([a-b], [c]) followed by the row ([a], [b-c]) is reported as a
    repetition although the two pairs differ. *)
Theorem repeated_combination_is_reported :
  (forall combos code1 model1 code2 model2 row1 row2,
     has_char "-" code1 = false -> has_char "-" code2 = false ->
     existsb (String.eqb (code2 ++ "-" ++ model2)) combos = false ->
     (fst (validate_code_model_combination
             (snd (validate_code_model_combination combos code1 model1 row1))
             code2 model2 row2) <> None
      <-> code1 = code2 /\ model1 = model2))
  /\ (forall combos a b c row1 row2,
        fst (validate_code_model_combination
               (snd (validate_code_model_combination combos (a ++ "-" ++ b) c row1))
               a (b ++ "-" ++ c) row2) <> None).
Proof.
  split.
  - intros combos code1 model1 code2 model2 row1 row2 H1 H2 Hfresh.
    unfold validate_code_model_combination at 2.
    destruct (existsb (String.eqb (code1 ++ "-" ++ model1)) combos) eqn:H1in;
      cbn [snd]; unfold validate_code_model_combination.
    + rewrite Hfresh. cbn [fst]. split; [congruence |].
      intros [-> ->]. congruence.
    + cbn [existsb]. rewrite Hfresh, orb_false_r.
      destruct (String.eqb_spec (code2 ++ "-" ++ model2) (code1 ++ "-" ++ model1))
        as [Heq | Hne]; cbn [fst].
      * split; [intros _ | discriminate].
        destruct (combination_injective _ _ _ _ H2 H1 Heq). now split.
      * split; [congruence |]. intros [-> ->]. congruence.
  - intros combos a b c row1 row2.
    assert (Hkey : a ++ "-" ++ b ++ "-" ++ c = (a ++ "-" ++ b) ++ "-" ++ c).
    { now rewrite !append_assoc. }
    unfold validate_code_model_combination at 2.
    destruct (existsb (String.eqb ((a ++ "-" ++ b) ++ "-" ++ c)) combos) eqn:Hin;
      cbn [snd]; unfold validate_code_model_combination.
    + rewrite Hkey, Hin. discriminate.
    + cbn [existsb]. rewrite Hkey, String.eqb_refl. discriminate.
Qed.

Lemma repeated_combination_is_reported_witness :
  fst (validate_code_model_combination
         (snd (validate_code_model_combination [] "A1" "X" 1%nat))
         "A1" "X" 2%nat) <> None.
Proof.
  apply (proj1 repeated_combination_is_reported [] "A1" "X" "A1" "X" 1%nat 2%nat
           eq_refl eq_refl eq_refl).
  split; reflexivity.
Defined.

(** ** The chart of the requested quantities *)

Lemma dict_get_set d key value key' default :
  dict_get (dict_set d key value) key' default
  = if String.eqb key key' then value else dict_get d key' default.
Proof.
  induction d as [| [k v] d IH]; simpl.
  - reflexivity.
  - destruct (String.eqb_spec k key) as [-> | Hne]; simpl.
    + destruct (String.eqb_spec key key'); reflexivity.
    + rewrite IH. destruct (String.eqb_spec k key') as [-> | _]; [| reflexivity].
      destruct (String.eqb_spec key key'); [congruence | reflexivity].
Qed.

Lemma dict_set_sum d key value :
  sum_values (dict_set d key value) = sum_values d - dict_get d key 0 + value.
Proof.
  induction d as [| [k v] d IH]; simpl.
  - lia.
  - destruct (String.eqb k key); simpl; [lia | rewrite IH; lia].
Qed.

Lemma dict_set_keys d key value :
  In key (map fst d) -> map fst (dict_set d key value) = map fst d.
Proof.
  induction d as [| [k v] d IH]; simpl; [contradiction |].
  destruct (String.eqb_spec k key) as [-> | Hne]; simpl; [reflexivity |].
  intros [H | H]; [congruence | now rewrite IH].
Qed.

Lemma dict_set_new_key d key value :
  ~ In key (map fst d) ->
  map fst (dict_set d key value) = (map fst d ++ [key])%list.
Proof.
  induction d as [| [k v] d IH]; simpl; [reflexivity |].
  intros H. destruct (String.eqb_spec k key) as [-> | Hne]; simpl.
  - exfalso. apply H. now left.
  - rewrite IH; [reflexivity | tauto].
Qed.

Lemma dict_set_NoDup d key value :
  NoDup (map fst d) -> NoDup (map fst (dict_set d key value)).
Proof.
  intros H. destruct (in_dec string_dec key (map fst d)) as [Hin | Hout].
  - now rewrite dict_set_keys.
  - rewrite dict_set_new_key by exact Hout.
    apply NoDup_app; [exact H | repeat constructor; auto |].
    intros x Hx [<- | []]. exact (Hout Hx).
Qed.

Lemma dict_set_nonempty d key value : dict_set d key value <> [].
Proof. destruct d as [| [k v] d]; simpl; [| destruct (String.eqb k key)]; discriminate. Qed.

Lemma reduce_flat_map {A B C} (f : C -> B -> Outcome C) (g : A -> list B) l :
  forall acc,
    reduce (fun acc x => reduce f (g x) acc) l acc = reduce f (flat_map g l) acc.
Proof.
  assert (Happ : forall l1 l2 acc,
             reduce f (l1 ++ l2)%list acc
             = match reduce f l1 acc with
               | Returns acc' => reduce f l2 acc'
               | Raises e => Raises e
               end).
  { induction l1 as [| x l1 IH]; intros l2 acc; simpl; [reflexivity |].
    destruct (f acc x); [apply IH | reflexivity]. }
  induction l as [| x l IH]; intros acc; simpl; [reflexivity |].
  rewrite Happ. destruct (reduce f (g x) acc); [apply IH | reflexivity].
Qed.

Lemma count_item_resolved model db acc item :
  lines_resolve db -> In item (items db) ->
  count_item model db acc item
  = Returns (dict_set (fst acc) (line_model model db item)
               (dict_get (fst acc) (line_model model db item) 0
                + MaterialRequestItem.quantity item),
             snd acc + MaterialRequestItem.quantity item).
Proof.
  intros Hres Hin. destruct (Hres item Hin) as [s Hs].
  unfold count_item, line_model, MaterialRequestItem_material. simpl.
  rewrite Hs. reflexivity.
Qed.

Lemma count_lines model db lines :
  lines_resolve db ->
  (forall item, In item lines -> In item (items db)) ->
  forall acc, NoDup (map fst (fst acc)) ->
    exists counts,
      reduce (count_item model db) lines acc
      = Returns (counts, snd acc + requested_quantity lines)
      /\ NoDup (map fst counts)
      /\ sum_values counts = sum_values (fst acc) + requested_quantity lines
      /\ (forall name,
            dict_get counts name 0
            = dict_get (fst acc) name 0
              + requested_quantity
                  (filter (fun i => String.eqb (line_model model db i) name) lines))
      /\ (counts = [] <-> fst acc = [] /\ lines = []).
Proof.
  intros Hres. induction lines as [| item lines IH]; intros Hin acc Hnd.
  - exists (fst acc). simpl. rewrite Z.add_0_r. destruct acc as [d t]; simpl.
    repeat split; try tauto; try lia.
  - simpl reduce. rewrite (count_item_resolved model db acc item Hres)
      by (apply Hin; now left).
    set (name0 := line_model model db item).
    set (acc1 := (dict_set (fst acc) name0
                    (dict_get (fst acc) name0 0 + MaterialRequestItem.quantity item),
                  snd acc + MaterialRequestItem.quantity item)).
    destruct (IH (fun i Hi => Hin i (or_intror Hi)) acc1
                (dict_set_NoDup _ _ _ Hnd))
      as (counts & Hred & Hnd' & Hsum & Hget & Hempty).
    exists counts. split; [| split; [exact Hnd' | split; [| split]]].
    + rewrite Hred. simpl. do 2 f_equal. lia.
    + rewrite Hsum. unfold acc1; cbn [fst]. rewrite dict_set_sum. simpl. lia.
    + intros name. rewrite Hget. unfold acc1; cbn [fst]. rewrite dict_get_set.
      cbn [filter]. fold name0.
      destruct (String.eqb_spec name0 name) as [-> | Hne]; simpl; lia.
    + split.
      * intros H. apply Hempty in H. destruct H as [H _].
        unfold acc1 in H; cbn [fst] in H. now apply dict_set_nonempty in H.
      * intros [_ H]. discriminate.
Qed.

(** X15.  The chart of a department adds up: when every line points at
    its stock row, the loops of [rose_chart_view] return, the total in the
    title is the sum of the quantities of all lines of all requests of the
    department, whatever the approval status of the requests, the slices
    have distinct names and their values sum to the total, the slice of a
    model is the sum of the quantities of the lines of this model, and the
    title shows no total exactly when the department has no line at
    all. *)
Theorem chart_slices_add_up_to_the_total model department db :
  lines_resolve db ->
  exists counts,
    material_counts model department db
    = Returns (counts, requested_quantity (department_lines department db))
    /\ NoDup (map fst counts)
    /\ sum_values counts = requested_quantity (department_lines department db)
    /\ (forall name,
          dict_get counts name 0
          = requested_quantity
              (filter (fun i => String.eqb (line_model model db i) name)
                 (department_lines department db)))
    /\ (chart_total counts (requested_quantity (department_lines department db))
        = None
        <-> department_lines department db = []).
Proof.
  intros Hres. unfold material_counts.
  rewrite (reduce_flat_map (count_item model db)
             (fun req => filter (fun i => Nat.eqb (MaterialRequestItem.request i) (fst req))
                           (items db))).
  fold (department_lines department db).
  assert (Hin : forall item, In item (department_lines department db) ->
                             In item (items db)).
  { intros item H. unfold department_lines in H. apply in_flat_map in H.
    destruct H as (req & _ & H). now apply filter_In in H. }
  destruct (count_lines model db _ Hres Hin ([], 0) (NoDup_nil _))
    as (counts & Hred & Hnd & Hsum & Hget & Hempty).
  exists counts. simpl in *. repeat split; try assumption.
  - intros H. destruct counts; [now apply Hempty | discriminate].
  - intros H. destruct counts as [| kv counts]; [reflexivity |].
    assert (E : kv :: counts = []) by (apply Hempty; now split). discriminate.
Qed.

Lemma chart_slices_add_up_to_the_total_witness :
  lines_resolve ledger_two_items
  /\ exists counts,
       material_counts MaterialModel.code 1 ledger_two_items = Returns (counts, 9)
       /\ sum_values counts = 9.
Proof.
  assert (H : lines_resolve ledger_two_items).
  { intros item [<- | [<- | []]]; eexists; reflexivity. }
  split; [exact H |].
  destruct (chart_slices_add_up_to_the_total MaterialModel.code 1%nat
              ledger_two_items H) as (counts & Hc & _ & Hs & _).
  exists counts. split; [exact Hc | exact Hs].
Defined.

(** ** The creator of a stock row *)

Lemma row_identity_creators l l' :
  map row_identity l' = map row_identity l ->
  map id_and_creator l' = map id_and_creator l.
Proof.
  intros H.
  assert (E : forall m, map id_and_creator m
                        = map (fun t => (fst (fst (fst (fst t))), snd t))
                            (map row_identity m)).
  { intros m. rewrite map_map. reflexivity. }
  now rewrite (E l'), (E l), H.
Qed.

Lemma replace_stock_creators r obj l :
  NoDup (map DepartmentMaterialStock.id l) ->
  In obj l ->
  id_and_creator r = id_and_creator obj ->
  map id_and_creator (replace_stock r l) = map id_and_creator l.
Proof.
  intros Hnd Hin Hr. unfold replace_stock. rewrite map_map.
  apply map_ext_in. intros s Hs.
  destruct (Nat.eqb_spec (DepartmentMaterialStock.id s) (DepartmentMaterialStock.id r))
    as [Heq | _]; [| reflexivity].
  assert (s = obj).
  { apply (same_id_same_row l); try assumption.
    unfold id_and_creator in Hr. inversion Hr. congruence. }
  now subst s.
Qed.

Section RowIdentity.

Variable P : Database -> Prop.
Hypothesis P_identity :
  forall d d', map row_identity (stocks d') = map row_identity (stocks d) ->
               P d -> P d'.
Hypothesis P_keys : forall d, P d -> NoDup (map DepartmentMaterialStock.id (stocks d)).

Lemma P_stocks d d' : stocks d' = stocks d -> P d -> P d'.
Proof. intros H. apply P_identity. now rewrite H. Qed.

Lemma identity_update_stock instance created :
  preserves P (update_stock instance created).
Proof.
  unfold update_stock.
  destruct (MaterialRequestModel.approval_status _); try apply preserves_ret.
  destruct (created || _); [| apply preserves_ret].
  intros db Hdb.
  apply (preserves_for_each P (deduct_item instance)
           (materialrequestitem_set instance db)); [| exact Hdb].
  intros x d Hd. apply (P_identity d); [| exact Hd].
  apply deduct_item_identity, P_keys, Hd.
Qed.

Lemma identity_save today self : preserves P (MaterialRequestModel_save today self).
Proof.
  unfold MaterialRequestModel_save.
  apply preserves_bind.
  - apply (keeps_preserves _ _ P_stocks), before_first_save_keeps.
  - intros self1. apply preserves_bind.
    + apply (keeps_preserves _ _ P_stocks), save_base_keeps_stocks.
    + intros saved. apply preserves_bind; [apply identity_update_stock |].
      intros _. apply preserves_bind; [| intros; apply preserves_ret].
      apply (keeps_preserves _ _ P_stocks), audit_log_save_update_keeps_stocks.
Qed.

Lemma identity_create_request today c : preserves P (create_request today c).
Proof.
  unfold create_request. apply preserves_bind.
  - apply (keeps_preserves _ _ P_stocks), MaterialRequestModel_init_keeps.
  - intros self; apply identity_save.
Qed.

End RowIdentity.

Lemma request_saves_keep_creators db0 :
  let P := fun d => stock_table_wellformed d
                    /\ map id_and_creator (stocks d) = map id_and_creator (stocks db0) in
  (forall today self, preserves P (MaterialRequestModel_save today self))
  /\ (forall today c, preserves P (create_request today c)).
Proof.
  intros P.
  assert (H1 : forall d d', map row_identity (stocks d') = map row_identity (stocks d) ->
                            P d -> P d').
  { intros d d' H [Hw Hc]. split.
    - exact (stock_table_wellformed_identity d d' H Hw).
    - now rewrite (row_identity_creators _ _ H). }
  assert (H2 : forall d, P d -> NoDup (map DepartmentMaterialStock.id (stocks d))).
  { intros d [[Hid _] _]. exact Hid. }
  split; intros.
  - exact (identity_save P H1 H2 today self).
  - exact (identity_create_request P H1 H2 today c).
Qed.

Lemma perform_creators op db :
  stock_table_wellformed db ->
  exists added,
    map id_and_creator (stocks (perform op db))
    = (map id_and_creator (stocks db) ++ added)%list
    /\ Forall (fun row => exists user data,
                 op = AddStock user data /\ snd row = Some (user_id user)) added.
Proof.
  intros Hdb. pose proof Hdb as [Hid Hkey].
  destruct op; simpl.
  - unfold DepartmentMaterialStockAdmin.add_view.
    destruct (DepartmentMaterialStockForm.errors None data db);
      [| exists []; split; [now rewrite app_nil_r | constructor]].
    rewrite stocks_after_save. simpl.
    destruct (has_stock_id _ _) eqn:Hhas.
    + exfalso. unfold has_stock_id in Hhas. apply existsb_exists in Hhas.
      destruct Hhas as (s & Hs & Heq). apply Nat.eqb_eq in Heq.
      apply (next_id_fresh (map DepartmentMaterialStock.id (stocks db))).
      rewrite <- Heq. now apply in_map.
    + rewrite map_app. eexists. split; [reflexivity |].
      repeat constructor. exists user, data. split; reflexivity.
  - exists []. rewrite app_nil_r. split; [| constructor].
    unfold DepartmentMaterialStockAdmin.change_view.
    destruct (get_one _) as [obj | e] eqn:Hobj; [| reflexivity].
    apply get_one_filter_In in Hobj. destruct Hobj as [Hin Hoid].
    apply get_queryset_subset in Hin.
    destruct (DepartmentMaterialStockForm.errors (Some object_id) data db);
      [| reflexivity].
    rewrite stocks_after_save. simpl.
    rewrite (has_stock_id_In _ _ Hin).
    now apply (replace_stock_creators _ obj).
  - exists []. rewrite app_nil_r. split; [| constructor].
    apply (proj2 (request_saves_keep_creators db) today c db). now split.
  - exists []. rewrite app_nil_r. split; [| constructor].
    apply (proj1 (request_saves_keep_creators db) today self db). now split.
  - exists []. rewrite app_nil_r. split; [| constructor].
    now rewrite submit_keeps_stocks.
  - exists []. rewrite app_nil_r. split; [| constructor].
    now rewrite inline_apply_keeps_stocks.
Qed.

(** X16.  Stock rows are never removed and keep their creator: over any
    sequence of operations on a stock table that satisfies its
    constraints, the rows of the start are all still there, in place, each
    with the primary key and the creator it had, and every row that came
    after them was added by the add view and has the user of that request
    as its creator. *)
Theorem stock_rows_keep_their_creator ops : forall db,
  stock_table_wellformed db ->
  exists added,
    map id_and_creator (stocks (perform_all ops db))
    = (map id_and_creator (stocks db) ++ added)%list
    /\ Forall (fun row => exists user data,
                 In (AddStock user data) ops /\ snd row = Some (user_id user)) added.
Proof.
  induction ops as [| op ops IH]; intros db Hdb.
  - exists []. split; [now rewrite app_nil_r | constructor].
  - destruct (perform_creators op db Hdb) as (added1 & H1 & F1).
    destruct (IH (perform op db) (perform_wellformed op db Hdb)) as (added2 & H2 & F2).
    exists (added1 ++ added2)%list. split.
    + change (perform_all (op :: ops) db) with (perform_all ops (perform op db)).
      now rewrite H2, H1, app_assoc.
    + apply Forall_app. split.
      * eapply Forall_impl; [| exact F1].
        intros row (user & data & -> & Hu). exists user, data. split; [now left | exact Hu].
      * eapply Forall_impl; [| exact F2].
        intros row (user & data & Hin & Hu). exists user, data.
        split; [now right | exact Hu].
Qed.

Lemma stock_rows_keep_their_creator_witness :
  exists added,
    map id_and_creator
      (stocks (perform_all
                 [ChangeStock (mkUser 8 true) 2
                    (DepartmentMaterialStockForm.mk 1 material_N 3 0);
                  AddStock (mkUser 9 true)
                    (DepartmentMaterialStockForm.mk 2 material_M 3 0)]
                 ledger_two_items))
    = ([(1%nat, Some 7%nat); (2%nat, Some 7%nat)] ++ added)%list.
Proof.
  assert (H : stock_table_wellformed ledger_two_items).
  { split; simpl; repeat constructor; simpl; intuition discriminate. }
  destruct (stock_rows_keep_their_creator
              [ChangeStock (mkUser 8 true) 2
                 (DepartmentMaterialStockForm.mk 1 material_N 3 0);
               AddStock (mkUser 9 true)
                 (DepartmentMaterialStockForm.mk 2 material_M 3 0)]
              ledger_two_items H) as (added & Hadded & _).
  exists added. exact Hadded.
Defined.
